(** * The job-data ETL scripts: [concat_jobs.py] and [concat_jobs_freshdataset.py]

    A shallow embedding of the two helper scripts and the properties of the
    unified document they build, with the parts of the viewer [main.py] that
    work on that document.

    Conventions of the embedding.
    - A Python value is a [pyval].  Integers are unbounded ([Z]).  A finite
      float is the exact decimal [m * 10^e] it was written as: binary rounding
      and overflow are not modelled.
    - pandas' choice of a dtype for a column is not modelled: a cell is the
      value that was put there.  In pandas an integer column that is
      concatenated with missing cells becomes float (an integer beyond 2^53
      is rounded), and a column of parse results that holds no dict may have
      its None written as NaN and its integers as floats.  Which rows there
      are, their order, which cells are missing, and the texts, truth values
      and dicts in them are not affected.
    - An exception is a [Raise] result.  The digit limit of [int] (4300
      digits) is modelled; the recursion limit of the interpreter is not, so
      a text nested deeper than it allows is decoded here where Python
      raises a RecursionError.
    - A [DataFrame] is its column labels and its rows, each row the labelled
      [Series] that [iterrows] yields.
    - A Python [dict] with string keys is an association list in insertion
      order; the objects of the projection script live in a store, so that
      sharing and mutation can be stated. *)

From Stdlib Require Import ZArith QArith Ascii String List Bool Lia.
From stdpp Require Import base option list strings gmap.

Local Open Scope string_scope.
Local Open Scope list_scope.
Local Open Scope Z_scope.

(** ** Exceptions and results *)

Inductive exn : Set :=
| KeyError
| ValueError
| TypeError
| OverflowError
| AttributeError.

Inductive result (A : Type) : Type :=
| Ok (a : A)
| Raise (e : exn).

Arguments Ok {A} a.
Arguments Raise {A} e.

Definition bind {A B : Type} (r : result A) (k : A -> result B) : result B :=
  match r with
  | Ok a => k a
  | Raise e => Raise e
  end.

Notation "'let*' x ':=' r 'in' k" := (bind r (fun x => k))
  (at level 10, x name, r at level 100, k at level 200).

(** [for x in xs: ...] with a body that may raise: the first exception stops
    the loop. *)
Fixpoint for_each {A B : Type} (f : A -> result B) (xs : list A) : result (list B) :=
  match xs with
  | [] => Ok []
  | x :: xs' => let* y := f x in let* ys := for_each f xs' in Ok (y :: ys)
  end.

(** ** Python values *)

#[warnings="-register-all"]
Inductive pyval : Type :=
| VNone
| VNaN
| VInf (neg : bool)
| VBool (b : bool)
| VInt (z : Z)
| VFloat (m e : Z)
| VStr (s : string)
| VList (l : list pyval)
| VDict (d : list (string * pyval)).

(** A [dict] with string keys, in insertion order. *)
Section Assoc.
Context {V : Type}.

Fixpoint dict_get (k : string) (d : list (string * V)) : option V :=
  match d with
  | [] => None
  | (k', v) :: d' => if String.eqb k k' then Some v else dict_get k d'
  end.

(** [d[k] = v]: an existing key keeps its place, a new one goes last. *)
Fixpoint dict_set (k : string) (v : V) (d : list (string * V)) : list (string * V) :=
  match d with
  | [] => [(k, v)]
  | (k', v') :: d' =>
      if String.eqb k k' then (k', v) :: d' else (k', v') :: dict_set k v d'
  end.

Definition dict_has (k : string) (d : list (string * V)) : bool :=
  match dict_get k d with Some _ => true | None => false end.

(** [{k: v for k, v in d.items() if k != x}] *)
Definition dict_without (x : string) (d : list (string * V)) : list (string * V) :=
  List.filter (fun kv => negb (String.eqb (fst kv) x)) d.
End Assoc.

Definition is_dict (v : pyval) : bool :=
  match v with VDict _ => true | _ => false end.

Definition is_list (v : pyval) : bool :=
  match v with VList _ => true | _ => false end.

(** [pd.isna(v)] used as a condition.  On a list pandas answers with an array,
    element by element, and an array is a condition only when it holds exactly
    one element. *)
Fixpoint pd_isna (v : pyval) : result bool :=
  match v with
  | VNone | VNaN => Ok true
  | VList [x] => pd_isna x
  | VList _ => Raise ValueError
  | _ => Ok false
  end.

Definition pd_notna (v : pyval) : result bool :=
  let* b := pd_isna v in Ok (negb b).

(** [bool(v)] *)
Definition py_bool (v : pyval) : bool :=
  match v with
  | VNone => false
  | VNaN | VInf _ => true
  | VBool b => b
  | VInt z => negb (z =? 0)
  | VFloat m _ => negb (m =? 0)
  | VStr s => negb (String.eqb s EmptyString)
  | VList l => match l with [] => false | _ => true end
  | VDict d => match d with [] => false | _ => true end
  end.

(** ** [json.loads]

    The decoder of Python's [json] module on a [str]: the grammar of RFC 8259
    with Python's extensions ([NaN], [Infinity], [-Infinity]), strict about
    control characters in strings.  A string is its UTF-8 bytes, so a
    [\uXXXX] escape is decoded to the bytes of its code point.  An [int]
    literal beyond the digit limit stops the decoder with a ValueError; the
    depth of nesting is not bounded. *)
Module Json.

Definition is_ws (c : ascii) : bool :=
  match c with
  | " "%char | "009"%char | "010"%char | "013"%char => true
  | _ => false
  end.

Fixpoint skip_ws (s : string) : string :=
  match s with
  | String c s' => if is_ws c then skip_ws s' else s
  | EmptyString => s
  end.

Definition code (c : ascii) : Z := Z.of_N (N_of_ascii c).
Definition byte (n : Z) : ascii := ascii_of_N (Z.to_N n).

Definition digit_of (c : ascii) : option Z :=
  let n := code c in
  if (48 <=? n) && (n <=? 57) then Some (n - 48) else None.

Definition hex_of (c : ascii) : option Z :=
  let n := code c in
  if (48 <=? n) && (n <=? 57) then Some (n - 48)
  else if (97 <=? n) && (n <=? 102) then Some (n - 87)
  else if (65 <=? n) && (n <=? 70) then Some (n - 55)
  else None.

Definition hex4 (a b c d : ascii) : option Z :=
  match hex_of a, hex_of b, hex_of c, hex_of d with
  | Some x, Some y, Some z, Some w => Some (((x * 16 + y) * 16 + z) * 16 + w)
  | _, _, _, _ => None
  end.

(** [s] without its first character when that is [c]. *)
Definition strip_char (c : ascii) (s : string) : option string :=
  match s with
  | String c' r => if Ascii.eqb c' c then Some r else None
  | EmptyString => None
  end.

Fixpoint strip_prefix (p s : string) : option string :=
  match p, s with
  | EmptyString, _ => Some s
  | String a p', String b s' => if Ascii.eqb a b then strip_prefix p' s' else None
  | String _ _, EmptyString => None
  end.

(** The digits at the head of [s]: how many, their value on top of [acc],
    and what follows them. *)
Fixpoint take_digits (s : string) (cnt acc : Z) : Z * Z * string :=
  match s with
  | String c s' =>
      match digit_of c with
      | Some d => take_digits s' (cnt + 1) (acc * 10 + d)
      | None => (cnt, acc, s)
      end
  | EmptyString => (cnt, acc, s)
  end.

(** The integer part of a number: 0, or a run of digits that does not start
    with 0. *)
Definition scan_int_part (s : string) : option (Z * string) :=
  match strip_char "0" s with
  | Some r => Some (0, r)
  | None =>
      let '(cnt, v, r) := take_digits s 0 0 in
      if cnt =? 0 then None else Some (v, r)
  end.

(** The fraction after the integer part [i]: a dot and one or more digits.
    The result is the number of digits, the integer and the fraction as one
    run of digits, and what follows. *)
Definition scan_fraction (i : Z) (s : string) : Z * Z * string :=
  match strip_char "." s with
  | Some r =>
      let '(cnt, v, r') := take_digits r 0 i in
      if cnt =? 0 then (0, i, s) else (cnt, v, r')
  | None => (0, i, s)
  end.

(** The exponent: e or E, an optional sign and one or more digits. *)
Definition scan_exponent (s : string) : option Z * string :=
  match s with
  | String c r =>
      if Ascii.eqb c "e" || Ascii.eqb c "E" then
        let '(eneg, r1) :=
          match strip_char "-" r with
          | Some r1 => (true, r1)
          | None =>
              match strip_char "+" r with
              | Some r1 => (false, r1)
              | None => (false, r)
              end
          end in
        let '(cnt, v, r2) := take_digits r1 0 0 in
        if cnt =? 0 then (None, s)
        else (Some (if eneg then - v else v), r2)
      else (None, s)
  | EmptyString => (None, s)
  end.

(** The number at the head of [s]: an optional minus sign, an integer part,
    an optional fraction and an optional exponent; an [int] without fraction
    and exponent, a [float] otherwise. *)
Definition scan_number (s : string) : option (pyval * string) :=
  let '(neg, s1) :=
    match strip_char "-" s with
    | Some r => (true, r)
    | None => (false, s)
    end in
  match scan_int_part s1 with
  | None => None
  | Some (i, s2) =>
      let '(fcnt, m, s3) := scan_fraction i s2 in
      let '(ex, s4) := scan_exponent s3 in
      let sgn (x : Z) := if neg then - x else x in
      match ex with
      | Some x => Some (VFloat (sgn m) (x - fcnt), s4)
      | None =>
          if 0 <? fcnt then Some (VFloat (sgn m) (- fcnt), s4)
          else Some (VInt (sgn i), s4)
      end
  end.

(** [int] refuses a literal of more than 4300 digits, the interpreter's
    default limit ([sys.int_info.default_max_str_digits]), with a ValueError.
    A [float] literal has no such limit. *)
Definition int_max_str_digits : Z := 4300.

(** The number of digits of the integer part at the head of [s], its sign
    apart. *)
Definition int_digits (s : string) : Z :=
  let s1 := match strip_char "-" s with Some r => r | None => s end in
  match strip_char "0" s1 with
  | Some _ => 1
  | None => let '(cnt, _, _) := take_digits s1 0 0 in cnt
  end.

(** The UTF-8 bytes of code point [u], in front of [tail]. *)
Definition utf8 (u : Z) (tail : string) : string :=
  if u <? 128 then String (byte u) tail
  else if u <? 2048 then
    String (byte (192 + u / 64)) (String (byte (128 + u mod 64)) tail)
  else if u <? 65536 then
    String (byte (224 + u / 4096))
      (String (byte (128 + (u / 64) mod 64))
         (String (byte (128 + u mod 64)) tail))
  else
    String (byte (240 + u / 262144))
      (String (byte (128 + (u / 4096) mod 64))
         (String (byte (128 + (u / 64) mod 64))
            (String (byte (128 + u mod 64)) tail))).

Definition unescape (e : ascii) : option ascii :=
  match e with
  | "034"%char => Some "034"%char
  | "\"%char => Some "\"%char
  | "/"%char => Some "/"%char
  | "b"%char => Some "008"%char
  | "f"%char => Some "012"%char
  | "n"%char => Some "010"%char
  | "r"%char => Some "013"%char
  | "t"%char => Some "009"%char
  | _ => None
  end.

Definition push (f : string -> string) (o : option (string * string))
  : option (string * string) :=
  match o with
  | Some (body, rest) => Some (f body, rest)
  | None => None
  end.

Definition is_high_surrogate (u : Z) : bool := (55296 <=? u) && (u <=? 56319).
Definition is_low_surrogate (u : Z) : bool := (56320 <=? u) && (u <=? 57343).

(** The body of a string after its opening quote: the decoded text and what
    follows the closing quote. *)
Fixpoint scan_string (s : string) : option (string * string) :=
  match s with
  | EmptyString => None
  | String c r =>
      if Ascii.eqb c "034" then Some (EmptyString, r)
      else if Ascii.eqb c "\" then
        match r with
        | EmptyString => None
        | String e r1 =>
            if Ascii.eqb e "u" then
              match r1 with
              | String a (String b (String c' (String d r2))) =>
                  match hex4 a b c' d with
                  | None => None
                  | Some u =>
                      if is_high_surrogate u then
                        match r2 with
                        | String x (String y r2') =>
                            if Ascii.eqb x "\" && Ascii.eqb y "u" then
                              match r2' with
                              | String a2 (String b2 (String c2 (String d2 r3))) =>
                                  match hex4 a2 b2 c2 d2 with
                                  | None => None
                                  | Some u2 =>
                                      if is_low_surrogate u2 then
                                        push (utf8 (65536 + ((u - 55296) * 1024
                                                             + (u2 - 56320))))
                                          (scan_string r3)
                                      else push (utf8 u) (scan_string r2)
                                  end
                              | _ => None
                              end
                            else push (utf8 u) (scan_string r2)
                        | _ => push (utf8 u) (scan_string r2)
                        end
                      else push (utf8 u) (scan_string r2)
                  end
              | _ => None
              end
            else
              match unescape e with
              | Some ch => push (String ch) (scan_string r1)
              | None => None
              end
        end
      else if code c <? 32 then None
      else push (String c) (scan_string r)
  end.

(** What a scan of the head of the text gives: a value and the rest of the
    text, a [JSONDecodeError], the ValueError of an [int] literal that is too
    long, or not enough fuel. *)
Inductive scan (A : Type) : Type :=
| Scanned (a : A) (rest : string)
| Malformed
| Overlong
| Starved.
Arguments Scanned {A} a rest.
Arguments Malformed {A}.
Arguments Overlong {A}.
Arguments Starved {A}.

(** A value that is neither a string, an object nor an array. *)
Definition scan_constant (s : string) : scan pyval :=
  match strip_prefix "null" s with
  | Some r => Scanned VNone r
  | None =>
  match strip_prefix "true" s with
  | Some r => Scanned (VBool true) r
  | None =>
  match strip_prefix "false" s with
  | Some r => Scanned (VBool false) r
  | None =>
  match scan_number s with
  | Some (VInt i, r) =>
      if int_max_str_digits <? int_digits s then Overlong else Scanned (VInt i) r
  | Some (v, r) => Scanned v r
  | None =>
  match strip_prefix "NaN" s with
  | Some r => Scanned VNaN r
  | None =>
  match strip_prefix "Infinity" s with
  | Some r => Scanned (VInf false) r
  | None =>
  match strip_prefix "-Infinity" s with
  | Some r => Scanned (VInf true) r
  | None => Malformed
  end end end end end end end.

Fixpoint scan_once (n : nat) (s : string) {struct n} : scan pyval :=
  match n with
  | O => Starved
  | S n' =>
      match strip_char "034" s with
      | Some r =>
          match scan_string r with
          | Some (str, rest) => Scanned (VStr str) rest
          | None => Malformed
          end
      | None =>
      match strip_char "{" s with
      | Some r =>
          match strip_char "}" (skip_ws r) with
          | Some r2 => Scanned (VDict []) r2
          | None => scan_members n' (skip_ws r) []
          end
      | None =>
      match strip_char "[" s with
      | Some r =>
          match strip_char "]" (skip_ws r) with
          | Some r2 => Scanned (VList []) r2
          | None => scan_elems n' (skip_ws r) []
          end
      | None => scan_constant s
      end end end
  end
with scan_elems (n : nat) (s : string) (acc : list pyval) {struct n} : scan pyval :=
  match n with
  | O => Starved
  | S n' =>
      match scan_once n' s with
      | Scanned v r =>
          match strip_char "," (skip_ws r) with
          | Some r2 => scan_elems n' (skip_ws r2) (acc ++ [v])
          | None =>
              match strip_char "]" (skip_ws r) with
              | Some r2 => Scanned (VList (acc ++ [v])) r2
              | None => Malformed
              end
          end
      | Malformed => Malformed
      | Overlong => Overlong
      | Starved => Starved
      end
  end
with scan_members (n : nat) (s : string) (acc : list (string * pyval))
       {struct n} : scan pyval :=
  match n with
  | O => Starved
  | S n' =>
      match strip_char "034" s with
      | None => Malformed
      | Some r =>
          match scan_string r with
          | None => Malformed
          | Some (key, r1) =>
              match strip_char ":" (skip_ws r1) with
              | None => Malformed
              | Some r2 =>
                  match scan_once n' (skip_ws r2) with
                  | Scanned v r3 =>
                      match strip_char "," (skip_ws r3) with
                      | Some r4 => scan_members n' (skip_ws r4) (dict_set key v acc)
                      | None =>
                          match strip_char "}" (skip_ws r3) with
                          | Some r4 => Scanned (VDict (dict_set key v acc)) r4
                          | None => Malformed
                          end
                      end
                  | Malformed => Malformed
                  | Overlong => Overlong
                  | Starved => Starved
                  end
              end
          end
      end
  end.

(** [json.loads(s)]: [None] stands for an exception, which is
    [JSONDecodeError] unless the text [exceeds_digit_limit]. *)
Definition loads (s : string) : option pyval :=
  match scan_once (2 * String.length s + 1) (skip_ws s) with
  | Scanned v rest =>
      match skip_ws rest with
      | EmptyString => Some v
      | _ => None
      end
  | _ => None
  end.

(** [json.loads(s)] stops with the ValueError of [int]: the decoder came to
    an [int] literal of more than 4300 digits before it found the text
    malformed. *)
Definition exceeds_digit_limit (s : string) : bool :=
  match scan_once (2 * String.length s + 1) (skip_ws s) with
  | Overlong => true
  | _ => false
  end.

End Json.

(** ** Conversions and dictionary keys *)

Definition is_space (c : ascii) : bool :=
  let n := Json.code c in
  ((9 <=? n) && (n <=? 13)) || ((28 <=? n) && (n <=? 32)).

Fixpoint lstrip (s : string) : string :=
  match s with
  | String c s' => if is_space c then lstrip s' else s
  | EmptyString => s
  end.

(** The digits of an [int] literal, single underscores allowed between them,
    with only white space after them. *)
Fixpoint int_body (s : string) (acc : Z) (after_digit : bool) : option Z :=
  match s with
  | EmptyString => if after_digit then Some acc else None
  | String c r =>
      match Json.digit_of c with
      | Some d => int_body r (acc * 10 + d) true
      | None =>
          if Ascii.eqb c "_" then
            if after_digit then int_body r acc false else None
          else
            if after_digit then
              match lstrip s with EmptyString => Some acc | _ => None end
            else None
      end
  end.

(** [int(s)] for a [str] *)
Definition int_of_str (s : string) : option Z :=
  match lstrip s with
  | String "-"%char r => option_map Z.opp (int_body r 0 false)
  | String "+"%char r => int_body r 0 false
  | r => int_body r 0 false
  end.

(** [int(v)] *)
Definition py_int (v : pyval) : result Z :=
  match v with
  | VBool b => Ok (if b then 1 else 0)
  | VInt z => Ok z
  | VFloat m e => Ok (if 0 <=? e then m * 10 ^ e else Z.quot m (10 ^ (- e)))
  | VInf _ => Raise OverflowError
  | VNaN => Raise ValueError
  | VStr s => match int_of_str s with Some z => Ok z | None => Raise ValueError end
  | VNone | VList _ | VDict _ => Raise TypeError
  end.

(** [v == s] for a [str] literal [s] *)
Definition eq_str (v : pyval) (s : string) : bool :=
  match v with VStr s' => String.eqb s' s | _ => false end.

(** A hashable value as a key of a [dict]: numbers that are equal are one key
    whatever their type ([True], [1] and [1.0]).  A NaN is equal to no key,
    itself included: that is so of the NaN of a numeric column, which is a
    new object each time it is read; the missing cells of a column of texts
    are one object, which a dict finds again by identity, and that is not
    modelled.  The properties of the indices are stated of identifiers that
    are present. *)
Inductive key : Set :=
| KNone
| KNaN
| KInf (neg : bool)
| KNum (n : Z) (d : positive)
| KStr (s : string).

Definition num_key (m e : Z) : key :=
  let q := Qred (if 0 <=? e then Qmake (m * 10 ^ e) 1
                 else Qmake m (Z.to_pos (10 ^ (- e)))) in
  KNum (Qnum q) (Qden q).

(** [hash(v)]: a [list] or a [dict] is unhashable. *)
Definition key_of (v : pyval) : result key :=
  match v with
  | VNone => Ok KNone
  | VNaN => Ok KNaN
  | VInf b => Ok (KInf b)
  | VBool b => Ok (KNum (if b then 1 else 0) 1)
  | VInt z => Ok (KNum z 1)
  | VFloat m e => Ok (num_key m e)
  | VStr s => Ok (KStr s)
  | VList _ | VDict _ => Raise TypeError
  end.

Definition key_eqb (a b : key) : bool :=
  match a, b with
  | KNone, KNone => true
  | KInf x, KInf y => Bool.eqb x y
  | KNum n d, KNum n' d' => (n =? n') && (d =? d')%positive
  | KStr s, KStr s' => String.eqb s s'
  | _, _ => false
  end.

(** A [dict] keyed by hashable values, in insertion order. *)
Section Lookup.
Context {V : Type}.

Fixpoint lookup_get (k : key) (d : list (key * V)) : option V :=
  match d with
  | [] => None
  | (k', v) :: d' => if key_eqb k' k then Some v else lookup_get k d'
  end.

Fixpoint lookup_set (k : key) (v : V) (d : list (key * V)) : list (key * V) :=
  match d with
  | [] => [(k, v)]
  | (k', v') :: d' =>
      if key_eqb k' k then (k', v) :: d' else (k', v') :: lookup_set k v d'
  end.

(** [list(d.values())] *)
Definition lookup_values (d : list (key * V)) : list V := List.map snd d.
End Lookup.

(** ** Data frames *)

Abbreviation Series := (list (string * pyval)).

Record DataFrame : Type := { columns : list string; rows : list Series }.

Definition has_column (c : string) (df : DataFrame) : bool :=
  existsb (String.eqb c) (columns df).

(** [row[c]] *)
Definition item (row : Series) (c : string) : result pyval :=
  match dict_get c row with
  | Some v => Ok v
  | None => Raise KeyError
  end.

(** [row.get(c)] *)
Definition get (row : Series) (c : string) : pyval :=
  match dict_get c row with
  | Some v => v
  | None => VNone
  end.

(** [df.copy()]: the frame is a value here, and a copy of it is the frame. *)
Definition copy (df : DataFrame) : DataFrame := df.

(** [df[c] = v] for one value [v]: the column is overwritten, or added last. *)
Definition set_column (c : string) (v : pyval) (df : DataFrame) : DataFrame :=
  {| columns := if has_column c df then columns df else columns df ++ [c];
     rows := List.map (dict_set c v) (rows df) |}.

(** A row on the labels [cols]: NaN where the row has no such label. *)
Definition reindex (cols : list string) (row : Series) : Series :=
  List.map (fun c => (c, match dict_get c row with Some v => v | None => VNaN end)) cols.

(** [pd.concat([a, b], ignore_index=True)]: the rows of [a], then those of
    [b], on the union of the labels.  The cells are kept as they are; the
    common dtype that pandas gives a column is not modelled. *)
Definition concat (a b : DataFrame) : DataFrame :=
  let cols :=
    columns a ++ List.filter (fun c => negb (has_column c a)) (columns b) in
  {| columns := cols; rows := List.map (reindex cols) (rows a ++ rows b) |}.

(** ** [concat_jobs.py] *)
Module ConcatJobs.

(** The [except] clause catches [JSONDecodeError], and the TypeError of
    [json.loads] on a value that is not a string; the ValueError of an [int]
    literal that is too long passes it. *)
Definition parse_json_column (value : pyval) : result pyval :=
  let* na := pd_isna value in
  if na || eq_str value EmptyString then Ok VNone
  else if is_dict value then Ok value
  else
    match value with
    | VStr s =>
        if Json.exceeds_digit_limit s then Raise ValueError
        else
          match Json.loads s with
          | Some v => Ok v
          | None => Ok VNone
          end
    | _ => Ok VNone
    end.

Definition normalize_job_schemas (jobs_active jobs_archived : DataFrame) : DataFrame :=
  let jobs_active :=
    if negb (has_column "original_id" jobs_active)
    then set_column "original_id" VNone (copy jobs_active)
    else jobs_active in
  let jobs_active := set_column "source_table" (VStr "active") (copy jobs_active) in
  let jobs_archived := set_column "source_table" (VStr "archived") (copy jobs_archived) in
  concat jobs_active jobs_archived.

(** [apply] keeps each result as the parser returned it; the dtype that
    pandas infers for the new column is not modelled. *)
Definition parse_categorized_data (jobs : DataFrame) : result DataFrame :=
  if has_column "CategorizedData" jobs then
    let* parsed :=
      for_each
        (fun row =>
           let* v := item row "CategorizedData" in
           let* p := parse_json_column v in
           Ok (dict_set "CategorizedData" p row))
        (rows (copy jobs)) in
    Ok {| columns := columns jobs; rows := parsed |}
  else Raise KeyError.

(** The three idioms by which a cell is read into a record. *)

(** [row[c] if pd.notna(row[c]) else None] *)
Definition item_or_none (row : Series) (c : string) : result pyval :=
  let* v := item row c in
  let* present := pd_notna v in
  Ok (if present then v else VNone).

(** [bool(row[c]) if pd.notna(row[c]) else False] *)
Definition item_bool (row : Series) (c : string) : result pyval :=
  let* v := item row c in
  let* present := pd_notna v in
  Ok (VBool (if present then py_bool v else false)).

(** [int(row[c]) if pd.notna(row[c]) else d] *)
Definition item_int_or (d : pyval) (row : Series) (c : string) : result pyval :=
  let* v := item row c in
  let* present := pd_notna v in
  if present then let* z := py_int v in Ok (VInt z) else Ok d.

(** The identifier of an employer row and the entry stored under it. *)
Definition employer_entry (row : Series) : result (pyval * list (string * pyval)) :=
  let* employer_id := item row "id" in
  let* name := item_or_none row "name" in
  let* alt_name := item_or_none row "alt_name" in
  let* logo_url := item_or_none row "logo_url" in
  let* fh := item_bool row "fh" in
  let* jobscount := item_int_or (VInt 0) row "jobscount" in
  let* jobscount_online := item_int_or (VInt 0) row "jobscount_online" in
  Ok (employer_id,
      [("id", employer_id); ("name", name); ("alt_name", alt_name);
       ("logo_url", logo_url); ("fh", fh); ("jobscount", jobscount);
       ("jobscount_online", jobscount_online)]).

(** The identifier of a job-source row and the entry stored under it. *)
Definition jobsource_entry (row : Series) : result (pyval * list (string * pyval)) :=
  let* source_id := item row "jobsource_id" in
  let* jobsource := item_or_none row "jobsource" in
  let* description := item_or_none row "description" in
  Ok (source_id,
      [("jobsource_id", source_id); ("jobsource", jobsource);
       ("description", description)]).

(** [for _, row in df.iterrows(): lookup[id] = entry] *)
Fixpoint build_lookup (entry_of : Series -> result (pyval * list (string * pyval)))
    (rs : list Series) (lookup : list (key * list (string * pyval)))
  : result (list (key * list (string * pyval))) :=
  match rs with
  | [] => Ok lookup
  | row :: rs' =>
      let* e := entry_of row in
      let* k := key_of (fst e) in
      build_lookup entry_of rs' (lookup_set k (snd e) lookup)
  end.

(** [lookup[fk]] when [pd.notna(fk) and fk in lookup], nothing otherwise. *)
Definition resolve (fk : pyval) (lookup : list (key * list (string * pyval)))
  : result (option (list (string * pyval))) :=
  let* present := pd_notna fk in
  if present then let* k := key_of fk in Ok (lookup_get k lookup)
  else Ok None.

(** The body of the loop over the jobs, one row to one record, in the steps
    the source marks with its comments.  First the literal that opens it. *)
Definition base_entry (row : Series) : result (list (string * pyval)) :=
  let* id := item_int_or VNone row "id" in
  let* job_title := item_or_none row "job_title" in
  let* url := item_or_none row "url" in
  let* department := item_or_none row "department" in
  let* level := item_or_none row "level" in
  let* location := item_or_none row "location" in
  let* schedule := item_or_none row "schedule" in
  let* main := item_bool row "main" in
  let* sync := item_bool row "sync" in
  let* ignore := item_bool row "ignore" in
  let* removed := item_bool row "removed" in
  let* manual := item_bool row "manual" in
  let* archived := item_bool row "Archived" in
  let* ideal := item_bool row "ideal" in
  let* created_at := item_or_none row "created_at" in
  let* updated_at := item_or_none row "updated_at" in
  let* source_table := item row "source_table" in
  let* categorized := item row "CategorizedData" in
  let* clicks := item_int_or (VInt 0) row "clicks" in
  Ok [("id", id); ("job_title", job_title); ("url", url);
      ("department", department); ("level", level); ("location", location);
      ("schedule", schedule); ("main", main); ("sync", sync);
      ("ignore", ignore); ("removed", removed); ("manual", manual);
      ("Archived", archived); ("ideal", ideal); ("created_at", created_at);
      ("updated_at", updated_at); ("source_table", source_table);
      ("CategorizedData", categorized); ("clicks", clicks)].

(** Include description if requested. *)
Definition add_description (include_descriptions : bool) (row : Series)
    (job_entry : list (string * pyval)) : result (list (string * pyval)) :=
  if include_descriptions then
    let* description := item_or_none row "description" in
    Ok (dict_set "description" description job_entry)
  else Ok job_entry.

(** Include embeddings if requested. *)
Definition add_embedding (include_embeddings : bool) (row : Series)
    (job_entry : list (string * pyval)) : result (list (string * pyval)) :=
  if include_embeddings then
    let* job_embedding := item_or_none row "job_embedding" in
    Ok (dict_set "job_embedding" job_embedding job_entry)
  else Ok job_entry.

(** Add original_id for archived jobs. *)
Definition add_original_id (row : Series) (job_entry : list (string * pyval))
  : result (list (string * pyval)) :=
  let* has_original := pd_notna (get row "original_id") in
  if has_original then
    let* v := item row "original_id" in
    let* z := py_int v in
    Ok (dict_set "original_id" (VInt z) job_entry)
  else Ok job_entry.

(** Resolve employer relationship. *)
Definition resolve_employer (employer_lookup : list (key * list (string * pyval)))
    (row : Series) (job_entry : list (string * pyval))
  : result (list (string * pyval)) :=
  let* employer_id := item row "employer_id" in
  let* found := resolve employer_id employer_lookup in
  match found with
  | Some employer =>
      let* e_id := item employer "id" in
      let* e_name := item employer "name" in
      let* e_alt_name := item employer "alt_name" in
      let* e_logo_url := item employer "logo_url" in
      Ok (dict_set "employer"
            (VDict [("id", e_id); ("name", e_name);
                    ("alt_name", e_alt_name); ("logo_url", e_logo_url)])
            job_entry)
  | None =>
      let job_entry := dict_set "employer" VNone job_entry in
      let* present := pd_notna employer_id in
      Ok (dict_set "employer_id" (if present then employer_id else VNone) job_entry)
  end.

(** Resolve jobsource relationship. *)
Definition resolve_jobsource (jobsource_lookup : list (key * list (string * pyval)))
    (row : Series) (job_entry : list (string * pyval))
  : result (list (string * pyval)) :=
  let* jobsource_id := item row "jobsource_id" in
  let* found := resolve jobsource_id jobsource_lookup in
  match found with
  | Some source =>
      let* s_id := item source "jobsource_id" in
      let* s_label := item source "jobsource" in
      Ok (dict_set "jobsource"
            (VDict [("jobsource_id", s_id); ("jobsource", s_label)])
            job_entry)
  | None =>
      let job_entry := dict_set "jobsource" VNone job_entry in
      let* present := pd_notna jobsource_id in
      Ok (dict_set "jobsource_id" (if present then jobsource_id else VNone) job_entry)
  end.

Definition job_entry (employer_lookup jobsource_lookup : list (key * list (string * pyval)))
    (include_embeddings include_descriptions : bool) (row : Series)
  : result (list (string * pyval)) :=
  let* job_entry := base_entry row in
  let* job_entry := add_description include_descriptions row job_entry in
  let* job_entry := add_embedding include_embeddings row job_entry in
  let* job_entry := add_original_id row job_entry in
  let* job_entry := resolve_employer employer_lookup row job_entry in
  resolve_jobsource jobsource_lookup row job_entry.

(** The unified document: the [dict] the function returns, by its four keys. *)
Record unified : Type := {
  metadata : list (string * pyval);
  employers : list (list (string * pyval));
  jobsources : list (list (string * pyval));
  jobs : list (list (string * pyval))
}.

(** [len([j for j in jobs_list if j["source_table"] == tag])] *)
Definition count_from (tag : string) (jobs_list : list (list (string * pyval))) : Z :=
  Z.of_nat (length (List.filter (fun j => eq_str (get j "source_table") tag) jobs_list)).

(** [now] is [pd.Timestamp.now().isoformat()], the one input that is not an
    argument of the function. *)
Definition build_unified_structure (jobs employers jobsources : DataFrame)
    (include_embeddings include_descriptions : bool) (now : string)
  : result unified :=
  let* employer_lookup := build_lookup employer_entry (rows employers) [] in
  let* jobsource_lookup := build_lookup jobsource_entry (rows jobsources) [] in
  let* jobs_list :=
    for_each (job_entry employer_lookup jobsource_lookup
                include_embeddings include_descriptions) (rows jobs) in
  Ok {| metadata :=
          [("generated_at", VStr now);
           ("total_jobs", VInt (Z.of_nat (length jobs_list)));
           ("active_jobs", VInt (count_from "active" jobs_list));
           ("archived_jobs", VInt (count_from "archived" jobs_list));
           ("total_employers", VInt (Z.of_nat (length employer_lookup)));
           ("total_jobsources", VInt (Z.of_nat (length jobsource_lookup)));
           ("include_embeddings", VBool include_embeddings);
           ("include_descriptions", VBool include_descriptions)];
        employers := lookup_values employer_lookup;
        jobsources := lookup_values jobsource_lookup;
        jobs := jobs_list |}.

(** [main], from the four loaded frames to the document that is written. *)
Definition main (jobs_active jobs_archived employers jobsources : DataFrame)
    (include_embeddings exclude_descriptions : bool) (now : string)
  : result unified :=
  let all_jobs := normalize_job_schemas jobs_active jobs_archived in
  let* all_jobs := parse_categorized_data all_jobs in
  build_unified_structure all_jobs employers jobsources
    include_embeddings (negb exclude_descriptions) now.

End ConcatJobs.

(** ** [concat_jobs_freshdataset.py]

    The document is the object graph that [json.load] builds.  Lists and
    dicts are objects in a store and a value refers to them, so that the
    script's own allocations and its one mutation ([append]) are explicit and
    what it leaves untouched can be stated. *)
Module FreshDataset.

Abbreviation loc := positive.

Inductive atom : Set :=
| ANone
| ABool (b : bool)
| AInt (z : Z)
| AFloat (m e : Z)
| ANaN
| AInf (neg : bool)
| AStr (s : string).

Inductive value : Set :=
| Atom (a : atom)
| Ref (l : loc).

Inductive object : Set :=
| List (elems : list value)
| Dict (entries : list (string * value)).

Abbreviation store := (gmap loc object).

(** A new object: it takes a location that the store does not use. *)
Definition alloc (o : object) (h : store) : store * loc :=
  let l := fresh (dom h) in (<[l := o]> h, l).

(** [d.get(k, default)]: only a [dict] has the method. *)
Definition dict_get_default (h : store) (d : value) (k : string) (default : value)
  : result value :=
  match d with
  | Ref l =>
      match h !! l with
      | Some (Dict entries) =>
          Ok (match dict_get k entries with Some v => v | None => default end)
      | _ => Raise AttributeError
      end
  | Atom _ => Raise AttributeError
  end.

(** [for x in v]: the elements of a list, the keys of a dict, the characters
    of a string; nothing else can be iterated. *)
Definition iterate (h : store) (v : value) : result (list value) :=
  match v with
  | Ref l =>
      match h !! l with
      | Some (List elems) => Ok elems
      | Some (Dict entries) => Ok (List.map (fun kv => Atom (AStr (fst kv))) entries)
      | None => Raise TypeError
      end
  | Atom (AStr s) =>
      Ok (List.map (fun c => Atom (AStr (String c EmptyString))) (list_ascii_of_string s))
  | Atom _ => Raise TypeError
  end.

(** [job.items()] *)
Definition items (h : store) (job : value) : result (list (string * value)) :=
  match job with
  | Ref l =>
      match h !! l with
      | Some (Dict entries) => Ok entries
      | _ => Raise AttributeError
      end
  | Atom _ => Raise AttributeError
  end.

(** [xs.append(v)]: the list object at [xs] is changed in place. *)
Definition append (h : store) (xs : loc) (v : value) : result store :=
  match h !! xs with
  | Some (List elems) => Ok (<[xs := List (elems ++ [v])]> h)
  | _ => Raise AttributeError
  end.

(** The loop over the jobs. *)
Fixpoint clean_jobs (h : store) (jobs_cleaned : loc) (js : list value) : result store :=
  match js with
  | [] => Ok h
  | job :: js' =>
      let* entries := items h job in
      let '(h, job_copy) := alloc (Dict (dict_without "CategorizedData" entries)) h in
      let* h := append h jobs_cleaned (Ref job_copy) in
      clean_jobs h jobs_cleaned js'
  end.

(** [main], from the loaded document to the one that is written. *)
Definition main (h : store) (unified_data : value) : result (store * value) :=
  let '(h, jobs_cleaned) := alloc (List []) h in
  let '(h, no_jobs) := alloc (List []) h in
  let* js := dict_get_default h unified_data "jobs" (Ref no_jobs) in
  let* js := iterate h js in
  let* h := clean_jobs h jobs_cleaned js in
  let '(h, no_employers) := alloc (List []) h in
  let* employers := dict_get_default h unified_data "employers" (Ref no_employers) in
  let '(h, no_jobsources) := alloc (List []) h in
  let* jobsources := dict_get_default h unified_data "jobsources" (Ref no_jobsources) in
  let '(h, fresh_dataset) :=
    alloc (Dict [("employers", employers); ("jobsources", jobsources);
                 ("jobs", Ref jobs_cleaned)]) h in
  Ok (h, Ref fresh_dataset).

End FreshDataset.

(** ** Vocabulary of the properties *)

(** The foreign key [fk] is present and is a key of the index. *)
Definition resolves {V : Type} (fk : pyval) (lookup : list (key * V)) : bool :=
  match pd_isna fk, key_of fk with
  | Ok false, Ok k =>
      match lookup_get k lookup with Some _ => true | None => false end
  | _, _ => false
  end.

(** The absence marker in place of a missing value. *)
Definition or_none (v : pyval) : pyval :=
  match pd_isna v with Ok true => VNone | _ => v end.

(** How a record carries a reference: resolved, the projected entry is under
    [ref_field] and there is no [fk_field]; unresolved, [ref_field] is None
    and the raw key is kept under [fk_field]. *)
Definition carries_ref {V : Type} (ref_field fk_field : string) (fk : pyval)
    (lookup : list (key * V)) (entry : list (string * pyval)) : Prop :=
  (dict_get ref_field entry <> Some VNone <-> resolves fk lookup = true)
  /\ (resolves fk lookup = true ->
      (exists ref, dict_get ref_field entry = Some (VDict ref))
      /\ dict_get fk_field entry = None)
  /\ (resolves fk lookup = false ->
      dict_get ref_field entry = Some VNone
      /\ dict_get fk_field entry = Some (or_none fk)).

(** A reference that repeats every field of the entry it refers to. *)
Definition full_ref (ref entry : list (string * pyval)) : Prop :=
  forall k v, dict_get k entry = Some v -> dict_get k ref = Some v.

(** Every embedded source reference is the full job-source entry. *)
Definition source_refs_are_full (u : ConcatJobs.unified) : Prop :=
  forall j ref,
    In j (ConcatJobs.jobs u) -> dict_get "jobsource" j = Some (VDict ref) ->
    exists source, In source (ConcatJobs.jobsources u) /\ full_ref ref source.

(** A reference that has the fields [fields] and no other, each with the
    value the entry has for it. *)
Definition projects (fields : list string) (ref entry : list (string * pyval)) : Prop :=
  List.map fst ref = fields
  /\ forall f, In f fields -> dict_get f ref = dict_get f entry.

(** The provenance of a record is one of the two tags, and a record of
    active provenance has no [original_id]. *)
Definition provenance_rule (u : ConcatJobs.unified) : Prop :=
  forall j, In j (ConcatJobs.jobs u) ->
    (dict_get "source_table" j = Some (VStr "active")
     \/ dict_get "source_table" j = Some (VStr "archived"))
    /\ (dict_get "source_table" j = Some (VStr "active") ->
        dict_get "original_id" j = None).

(** A record without the two fields that the options govern. *)
Definition without_optional (j : list (string * pyval)) : list (string * pyval) :=
  dict_without "job_embedding" (dict_without "description" j).


(** The rows of a reference relation as they are indexed: the key of each
    row and the entry built from it, in source order. *)
Definition keyed_entries (entry_of : Series -> result (pyval * list (string * pyval)))
    (rs : list Series) : result (list (key * list (string * pyval))) :=
  for_each (fun row =>
              let* e := entry_of row in
              let* k := key_of (fst e) in
              Ok (k, snd e)) rs.

(** The index that the loop builds from keyed entries, on top of [d]. *)
Definition index_all {V : Type} (pairs d : list (key * V)) : list (key * V) :=
  fold_left (fun d p => lookup_set (fst p) (snd p) d) pairs d.



(** A job of the document: a reference to a dict. *)
Definition is_record (h : gmap positive FreshDataset.object) (job : FreshDataset.value)
    (entries : list (string * FreshDataset.value)) : Prop :=
  exists l, job = FreshDataset.Ref l /\ h !! l = Some (FreshDataset.Dict entries).

(** The records [js] of a document with top-level entries [d]: the elements
    of its [jobs] list, each a dict, or none when it has no [jobs]. *)
Definition has_jobs (h : gmap positive FreshDataset.object)
    (d : list (string * FreshDataset.value)) (js : list FreshDataset.value) : Prop :=
  (dict_get "jobs" d = None /\ js = [])
  \/ (exists l, dict_get "jobs" d = Some (FreshDataset.Ref l)
                /\ h !! l = Some (FreshDataset.List js)
                /\ Forall (fun job => exists entries, is_record h job entries) js).

(** The value written for a collection: the one of the document, or a new
    empty list when the document has none. *)
Definition kept_or_empty (h h' : gmap positive FreshDataset.object)
    (d : list (string * FreshDataset.value)) (name : string)
    (v : FreshDataset.value) : Prop :=
  match dict_get name d with
  | Some v0 => v = v0
  | None => exists l, v = FreshDataset.Ref l /\ h !! l = None
                      /\ h' !! l = Some (FreshDataset.List [])
  end.

(** The copy of a record: a new dict with the entries of the record but
    [CategorizedData], in their order. *)
Definition is_cleaned_copy (h h' : gmap positive FreshDataset.object)
    (job copy : FreshDataset.value) : Prop :=
  exists entries l,
    is_record h job entries
    /\ copy = FreshDataset.Ref l /\ h !! l = None
    /\ h' !! l = Some (FreshDataset.Dict (dict_without "CategorizedData" entries)).

(** The projection refuses the document. *)
Definition rejected (h : gmap positive FreshDataset.object) (doc : FreshDataset.value)
  : Prop :=
  exists e, FreshDataset.main h doc = Raise e.

(** An [int] literal of [n] digits. *)
Fixpoint ones (n : nat) : string :=
  match n with
  | O => EmptyString
  | S n' => String "1" (ones n')
  end.

(** A payload beyond the digit limit: a literal of [n] digits, which is a
    JSON text as it stands, or the same after a bracket that nothing closes,
    which is malformed. *)
Definition long_payload (n : nat) (p : string) : Prop :=
  (4300 < n)%nat /\ (p = ones n \/ p = String "[" (ones n)).

(** ** Sample data

    Four small relations on which the scripts are run below. *)
Module Sample.

(** [s] between two double quotes: a JSON string literal. *)
Definition quoted (s : string) : string :=
  String "034"%char (s ++ String "034"%char EmptyString)%string.

Definition frame (cols : list string) (cells : list (list pyval)) : DataFrame :=
  {| columns := cols; rows := List.map (List.combine cols) cells |}.

Definition job_columns : list string :=
  ["id"; "job_title"; "url"; "department"; "level"; "location"; "schedule";
   "main"; "sync"; "ignore"; "removed"; "manual"; "Archived"; "ideal";
   "created_at"; "updated_at"; "CategorizedData"; "clicks"; "description";
   "job_embedding"; "employer_id"; "jobsource_id"].

Definition job_cells (id : Z) (title : string) (categorized employer_id jobsource_id : pyval)
  : list pyval :=
  [VInt id; VStr title; VStr "https://example.org/job"; VNaN; VStr "senior";
   VStr "Berlin"; VNaN; VBool true; VBool false; VBool false; VBool false;
   VBool false; VBool false; VNaN; VStr "2024-05-01T08:00:00"; VNaN;
   categorized; VInt 4; VStr "Builds things."; VStr "[0.1, 0.2]";
   employer_id; jobsource_id].

(** Two active jobs: the first carries a payload that is a JSON string
    literal, an employer that exists and no source; the second a malformed
    payload, an employer that does not exist and a source that does. *)
Definition active : DataFrame :=
  frame job_columns
    [job_cells 1 "Engineer" (VStr (quoted "hello")) (VInt 10) VNaN;
     job_cells 2 "Analyst" (VStr "{invalid") (VInt 11) (VInt 7)].

(** One archived job, with the identifier it had in the prior system. *)
Definition archived : DataFrame :=
  frame (job_columns ++ ["original_id"])
    [job_cells 3 "Clerk" VNaN (VInt 10) (VInt 7) ++ [VInt 99]].

(** An active relation that has an [original_id] column of its own. *)
Definition active_with_original : DataFrame :=
  frame (job_columns ++ ["original_id"])
    [job_cells 1 "Engineer" VNaN (VInt 10) (VInt 7) ++ [VInt 99]].

(** Three employer rows, two of them under the identifier 10. *)
Definition employers : DataFrame :=
  frame ["id"; "name"; "alt_name"; "logo_url"; "fh"; "jobscount"; "jobscount_online"]
    [[VInt 10; VStr "Acme"; VNaN; VNaN; VBool false; VInt 3; VInt 1];
     [VInt 12; VStr "Other"; VNaN; VStr "other.png"; VBool true; VNaN; VNaN];
     [VInt 10; VStr "Acme GmbH"; VStr "Acme"; VNaN; VBool false; VInt 5; VInt 2]].

Definition jobsources : DataFrame :=
  frame ["jobsource_id"; "jobsource"; "description"]
    [[VInt 7; VStr "web"; VStr "Scraped from the careers page"]].

Definition now : string := "2025-01-01T00:00:00".

(** The relation that reaches the assembler: normalized, then parsed. *)
Definition all_jobs : DataFrame :=
  match ConcatJobs.parse_categorized_data
          (ConcatJobs.normalize_job_schemas active archived) with
  | Ok df => df
  | Raise _ => {| columns := []; rows := [] |}
  end.

Definition no_document : ConcatJobs.unified :=
  {| ConcatJobs.metadata := []; ConcatJobs.employers := [];
     ConcatJobs.jobsources := []; ConcatJobs.jobs := [] |}.

(** The document assembled from the sample under the given options. *)
Definition document (include_embeddings include_descriptions : bool)
  : ConcatJobs.unified :=
  match ConcatJobs.build_unified_structure all_jobs employers jobsources
          include_embeddings include_descriptions now with
  | Ok u => u
  | Raise _ => no_document
  end.

(** A loaded document without a [jobs] collection and without a
    [jobsources] collection. *)
Definition store_without_jobs : gmap positive FreshDataset.object :=
  <[1%positive := FreshDataset.Dict
                    [("metadata", FreshDataset.Ref 2%positive);
                     ("employers", FreshDataset.Ref 3%positive)]]>
    (<[2%positive := FreshDataset.Dict
                       [("total_jobs", FreshDataset.Atom (FreshDataset.AInt 0))]]>
       (<[3%positive := FreshDataset.List []]> ∅)).

(** A loaded unified document with one job. *)
Definition store_with_job : gmap positive FreshDataset.object :=
  <[1%positive := FreshDataset.Dict
                    [("metadata", FreshDataset.Ref 2%positive);
                     ("employers", FreshDataset.Ref 3%positive);
                     ("jobsources", FreshDataset.Ref 4%positive);
                     ("jobs", FreshDataset.Ref 5%positive)]]>
    (<[2%positive := FreshDataset.Dict
                       [("total_jobs", FreshDataset.Atom (FreshDataset.AInt 1))]]>
       (<[3%positive := FreshDataset.List []]>
          (<[4%positive := FreshDataset.List []]>
             (<[5%positive := FreshDataset.List [FreshDataset.Ref 6%positive]]>
                (<[6%positive := FreshDataset.Dict
                                   [("id", FreshDataset.Atom (FreshDataset.AInt 1));
                                    ("CategorizedData", FreshDataset.Ref 7%positive);
                                    ("clicks", FreshDataset.Atom (FreshDataset.AInt 4))]]>
                   (<[7%positive := FreshDataset.Dict
                                      [("seniority", FreshDataset.Atom (FreshDataset.AStr "senior"))]]>
                      ∅)))))).

(** An active relation of two jobs: the payload of the first is the text of
    a JSON object, the payload of the second a number of 4301 digits. *)
Definition active_with_long_number : DataFrame :=
  frame job_columns
    [job_cells 1 "Engineer" (VStr ("{" ++ quoted "level" ++ ": 3}")) (VInt 10) (VInt 7);
     job_cells 2 "Analyst" (VStr (ones 4301)) (VInt 11) (VInt 7)].

(** An active relation whose one job carries the text of a JSON object. *)
Definition active_with_object : DataFrame :=
  frame job_columns
    [job_cells 1 "Engineer" (VStr ("{" ++ quoted "level" ++ ": 3}")) (VInt 10) (VInt 7)].

(** The run whose active relation has an [original_id] column. *)
Definition document_with_original : ConcatJobs.unified :=
  match ConcatJobs.main active_with_original archived employers jobsources
          false false now with
  | Ok u => u
  | Raise _ => no_document
  end.

(** The run whose active relation carries the text of a JSON object. *)
Definition document_with_object : ConcatJobs.unified :=
  match ConcatJobs.main active_with_object archived employers jobsources
          false false now with
  | Ok u => u
  | Raise _ => no_document
  end.

End Sample.

(** ** [main.py]

    The viewer works on the document that [json.load] returns.  The loader
    builds every list and dict anew, so no object occurs twice in the
    document and a value is the tree it stands for; the one place where the
    viewer changes the document, the assignment to a job inside the loops
    over [jobs_list], is the document with that job replaced. *)
Module Viewer.

(** [v.get(k, default)]: only a [dict] has the method. *)
Definition py_get (v : pyval) (k : string) (default : pyval) : result pyval :=
  match v with
  | VDict d => Ok (match dict_get k d with Some x => x | None => default end)
  | _ => Raise AttributeError
  end.

(** [v[k]] for a [str] key [k]: a dict without the key raises KeyError, and
    nothing else can be indexed by a string. *)
Definition py_item (v : pyval) (k : string) : result pyval :=
  match v with
  | VDict d => match dict_get k d with Some x => Ok x | None => Raise KeyError end
  | _ => Raise TypeError
  end.

(** [v[k] = x] for a [str] key [k] *)
Definition py_setitem (v : pyval) (k : string) (x : pyval) : result pyval :=
  match v with
  | VDict d => Ok (VDict (dict_set k x d))
  | _ => Raise TypeError
  end.

(** The number of bytes of the UTF-8 character that starts with [c]. *)
Definition utf8_width (c : ascii) : nat :=
  let n := Json.code c in
  if n <? 192 then 1%nat else if n <? 224 then 2%nat
  else if n <? 240 then 3%nat else 4%nat.

(** The characters of a [str], each a [str] of its own; [more] bytes of the
    character [cur] are still to come. *)
Fixpoint code_points (s : string) (more : nat) (cur : string) : list string :=
  match s with
  | EmptyString => match cur with EmptyString => [] | _ => [cur] end
  | String c r =>
      match more with
      | O =>
          match cur with EmptyString => [] | _ => [cur] end
          ++ code_points r (utf8_width c - 1) (String c EmptyString)
      | S m => code_points r m (cur ++ String c EmptyString)
      end
  end.

(** [for x in v]: the elements of a list, the keys of a dict, the characters
    of a string; nothing else can be iterated. *)
Definition py_iter (v : pyval) : result (list pyval) :=
  match v with
  | VList l => Ok l
  | VDict d => Ok (List.map (fun kv => VStr (fst kv)) d)
  | VStr s => Ok (List.map VStr (code_points s 0 EmptyString))
  | _ => Raise TypeError
  end.

(** [[x for x in xs if p(x)]] with a condition that may raise. *)
Fixpoint filter_m {A : Type} (p : A -> result bool) (xs : list A) : result (list A) :=
  match xs with
  | [] => Ok []
  | x :: xs' =>
      let* keep := p x in
      let* rest := filter_m p xs' in
      Ok (if keep then x :: rest else rest)
  end.

(** [data if isinstance(data, list) else data.get("jobs", [])] *)
Definition jobs_of (data : pyval) : result pyval :=
  if is_list data then Ok data else py_get data "jobs" (VList []).

(** [j.get("employer", {}).get("name") == selected_employer] *)
Definition employer_is (selected_employer : string) (j : pyval) : result bool :=
  let* employer := py_get j "employer" (VDict []) in
  let* name := py_get employer "name" VNone in
  Ok (eq_str name selected_employer).

(** [j.get("CategorizedData")] as a condition *)
Definition has_metadata (j : pyval) : result bool :=
  let* v := py_get j "CategorizedData" VNone in
  Ok (py_bool v).

Definition lacks_metadata (j : pyval) : result bool :=
  let* b := has_metadata j in Ok (negb b).

(** Apply filters: the two selections of the sidebar, on the jobs. *)
Definition apply_filters (jobs : pyval) (selected_employer metadata_filter : string)
  : result pyval :=
  let* filtered_jobs :=
    if negb (String.eqb selected_employer "All") then
      let* js := py_iter jobs in
      let* kept := filter_m (employer_is selected_employer) js in
      Ok (VList kept)
    else Ok jobs in
  if String.eqb metadata_filter "Has Metadata" then
    let* js := py_iter filtered_jobs in
    let* kept := filter_m has_metadata js in
    Ok (VList kept)
  else if String.eqb metadata_filter "No Metadata" then
    let* js := py_iter filtered_jobs in
    let* kept := filter_m lacks_metadata js in
    Ok (VList kept)
  else Ok filtered_jobs.

(** [v == job_id] for an identifier that is None, a boolean, a number or a
    string, given as the dictionary key it is: numbers that are equal are
    equal whatever their type, NaN equals nothing, and a list or a dict
    equals no such identifier. *)
Definition equals_id (v : pyval) (job_id : key) : bool :=
  match key_of v with
  | Ok k => key_eqb k job_id
  | Raise _ => false
  end.

(** The loop over [jobs_list] that assigns to the first job with the
    identifier:
    [for j in jobs_list: if j["id"] == job_id: j["CategorizedData"] = metadata; break] *)
Fixpoint assign_first (job_id : key) (metadata : pyval) (jobs_list : list pyval)
  : result (list pyval) :=
  match jobs_list with
  | [] => Ok []
  | j :: rest =>
      let* id := py_item j "id" in
      if equals_id id job_id then
        let* j := py_setitem j "CategorizedData" metadata in
        Ok (j :: rest)
      else
        let* rest := assign_first job_id metadata rest in
        Ok (j :: rest)
  end.

(** The document after the loop: the jobs are the document itself in the
    list layout, its [jobs] in the other; a loop over anything else (the
    default list, the keys of a dict, the characters of a string) either
    raises or assigns nothing. *)
Definition assign_metadata (data : pyval) (job_id : key) (metadata : pyval)
  : result pyval :=
  let* jobs_list := jobs_of data in
  let* js := py_iter jobs_list in
  let* js := assign_first job_id metadata js in
  Ok (match data with
      | VList _ => VList js
      | VDict d =>
          match dict_get "jobs" d with
          | Some (VList _) => VDict (dict_set "jobs" (VList js) d)
          | _ => data
          end
      | _ => data
      end).

(** The Generate Metadata button, after the metadata has been generated. *)
Definition set_metadata (data : pyval) (job_id : key) (metadata : pyval) : result pyval :=
  assign_metadata data job_id metadata.

(** The Clear Metadata button. *)
Definition clear_metadata (data : pyval) (job_id : key) : result pyval :=
  assign_metadata data job_id VNone.

(** Export Data with Metadata: [{"jobs": [j for j in jobs_list if
    j.get("CategorizedData")]}] *)
Definition export_data (data : pyval) : result pyval :=
  let* jobs_list := jobs_of data in
  let* js := py_iter jobs_list in
  let* jobs_with_meta := filter_m has_metadata js in
  Ok (VDict [("jobs", VList jobs_with_meta)]).

End Viewer.

(** ** The summary of [concat_jobs_freshdataset.py]

    What the script prints once the document is written: the sizes of the
    three collections. *)
Module FreshSummary.

(** [len(v)]: the elements of a list, the keys of a dict, the characters of
    a string; nothing else has a length. *)
Definition py_len (h : gmap positive FreshDataset.object) (v : FreshDataset.value)
  : result Z :=
  match v with
  | FreshDataset.Ref l =>
      match h !! l with
      | Some (FreshDataset.List elems) => Ok (Z.of_nat (length elems))
      | Some (FreshDataset.Dict entries) => Ok (Z.of_nat (length entries))
      | None => Raise TypeError
      end
  | FreshDataset.Atom (FreshDataset.AStr s) =>
      Ok (Z.of_nat (length (Viewer.code_points s 0 EmptyString)))
  | FreshDataset.Atom _ => Raise TypeError
  end.

(** [d[k]] *)
Definition subscript (h : gmap positive FreshDataset.object) (d : FreshDataset.value)
    (k : string) : result FreshDataset.value :=
  match d with
  | FreshDataset.Ref l =>
      match h !! l with
      | Some (FreshDataset.Dict entries) =>
          match dict_get k entries with Some v => Ok v | None => Raise KeyError end
      | _ => Raise TypeError
      end
  | FreshDataset.Atom _ => Raise TypeError
  end.

(** The three numbers of the summary: employers, job sources, jobs. *)
Definition summary (h : gmap positive FreshDataset.object)
    (fresh_dataset : FreshDataset.value) : result (Z * Z * Z) :=
  let* employers := subscript h fresh_dataset "employers" in
  let* n_employers := py_len h employers in
  let* jobsources := subscript h fresh_dataset "jobsources" in
  let* n_jobsources := py_len h jobsources in
  let* jobs := subscript h fresh_dataset "jobs" in
  let* n_jobs := py_len h jobs in
  Ok (n_employers, n_jobsources, n_jobs).

(** The script from the loaded document on: the document is written, then
    the summary is printed. *)
Definition run (h : gmap positive FreshDataset.object) (unified_data : FreshDataset.value)
  : result (Z * Z * Z) :=
  let* written := FreshDataset.main h unified_data in
  summary (fst written) (snd written).

End FreshSummary.

(** ** The response of the model in [generate_metadata]

    From the text of the completion to the metadata that the function
    returns: the clean-up of the text, the decoding and the walk over the
    items of the result. *)
Module Response.

(** What can go wrong here that the scripts never meet. *)
Inductive failure : Set :=
| Builtin (e : exn)
| IndexError
| JSONDecodeError.

Inductive outcome (A : Type) : Type :=
| Done (a : A)
| Failed (f : failure).
Arguments Done {A} a.
Arguments Failed {A} f.

(** [s.startswith(p)] *)
Definition startswith (p s : string) : bool :=
  match Json.strip_prefix p s with Some _ => true | None => false end.

(** [s.split("\n", 1)[1]]: what follows the first line feed; without a line
    feed the list has one element and the subscript raises IndexError. *)
Fixpoint after_line_feed (s : string) : option string :=
  match s with
  | EmptyString => None
  | String c r => if Ascii.eqb c "010" then Some r else after_line_feed r
  end.

(** [s.rsplit(p, 1)[0]] when [p in s]: what precedes the last occurrence of
    [p]; nothing when [p] does not occur. *)
Fixpoint before_last (p s : string) : option string :=
  match s with
  | EmptyString => if startswith p s then Some EmptyString else None
  | String c r =>
      match before_last p r with
      | Some b => Some (String c b)
      | None => if startswith p s then Some EmptyString else None
      end
  end.

(** [s.replace("\n", " ").replace("\r", " ")] *)
Definition flat (c : ascii) : ascii :=
  if Ascii.eqb c "010" || Ascii.eqb c "013" then " "%char else c.

Fixpoint flatten (s : string) : string :=
  match s with
  | EmptyString => EmptyString
  | String c r => String (flat c) (flatten r)
  end.

(** The white space of [str.strip] beyond ASCII, by its UTF-8 bytes: U+0085
    and U+00A0 take two bytes; U+1680, U+2000 to U+200A, U+2028, U+2029,
    U+202F, U+205F and U+3000 take three. *)
Definition is_space2 (a b : ascii) : bool :=
  (Json.code a =? 194) && ((Json.code b =? 133) || (Json.code b =? 160)).

Definition is_space3 (a b c : ascii) : bool :=
  let x := Json.code a in
  let y := Json.code b in
  let z := Json.code c in
  ((x =? 225) && (y =? 154) && (z =? 128))
  || ((x =? 226) && (y =? 128)
      && (((128 <=? z) && (z <=? 138)) || (z =? 168) || (z =? 169) || (z =? 175)))
  || ((x =? 226) && (y =? 129) && (z =? 159))
  || ((x =? 227) && (y =? 128) && (z =? 128)).

(** [s.lstrip()] *)
Fixpoint lstrip (s : string) : string :=
  match s with
  | EmptyString => s
  | String a r =>
      if is_space a then lstrip r
      else
        match r with
        | String b r' =>
            if is_space2 a b then lstrip r'
            else
              match r' with
              | String c r'' => if is_space3 a b c then lstrip r'' else s
              | EmptyString => s
              end
        | EmptyString => s
        end
  end.

Fixpoint reverse (s acc : string) : string :=
  match s with
  | EmptyString => acc
  | String c r => reverse r (String c acc)
  end.

(** The same on the reversed text, where the bytes of a character come last
    byte first. *)
Fixpoint lstrip_reversed (s : string) : string :=
  match s with
  | EmptyString => s
  | String c r =>
      if is_space c then lstrip_reversed r
      else
        match r with
        | String b r' =>
            if is_space2 b c then lstrip_reversed r'
            else
              match r' with
              | String a r'' => if is_space3 a b c then lstrip_reversed r'' else s
              | EmptyString => s
              end
        | EmptyString => s
        end
  end.

(** [s.rstrip()] *)
Definition rstrip (s : string) : string :=
  reverse (lstrip_reversed (reverse s EmptyString)) EmptyString.

(** [s.strip()] *)
Definition strip (s : string) : string := lstrip (rstrip s).

(** Clean up response. *)
Definition clean_up (content : string) : outcome string :=
  match
    (if startswith "```" content then
       match after_line_feed content with
       | Some content =>
           match before_last "```" content with
           | Some before => Done before
           | None => Done content
           end
       | None => Failed IndexError
       end
     else Done content)
  with
  | Done content => Done (strip (flatten content))
  | Failed f => Failed f
  end.

(** [json.loads(content)], then the loop over [result.items()], which only
    a dict has, then [return result]. *)
Definition read_response (content : string) : outcome pyval :=
  match clean_up content with
  | Done content =>
      if Json.exceeds_digit_limit content then Failed (Builtin ValueError)
      else
        match Json.loads content with
        | Some result =>
            if is_dict result then Done result else Failed (Builtin AttributeError)
        | None => Failed JSONDecodeError
        end
  | Failed f => Failed f
  end.

End Response.

(** ** Vocabulary of the further properties *)

(** The cell of a row under a label: NaN where the row has no such label,
    which is what the concatenation fills in. *)
Definition cell (r : Series) (c : string) : pyval :=
  match dict_get c r with Some v => v | None => VNaN end.

(** The fields of a record that repeat a cell. *)
Definition text_fields : list string :=
  ["job_title"; "url"; "department"; "level"; "location"; "schedule";
   "created_at"; "updated_at"].

(** The fields of a record that are truth values. *)
Definition flag_fields : list string :=
  ["main"; "sync"; "ignore"; "removed"; "manual"; "Archived"; "ideal"].

(** The fields that the literal of a record opens with. *)
Definition base_fields : list string :=
  ["id"; "job_title"; "url"; "department"; "level"; "location"; "schedule";
   "main"; "sync"; "ignore"; "removed"; "manual"; "Archived"; "ideal";
   "created_at"; "updated_at"; "source_table"; "CategorizedData"; "clicks"].

(** The fields that the steps after the literal may add. *)
Definition added_fields : list string :=
  ["description"; "job_embedding"; "original_id"; "employer"; "employer_id";
   "jobsource"; "jobsource_id"].

(** The truth value written for a flag cell. *)
Definition flag_of (v : pyval) : option pyval :=
  match pd_isna v with
  | Ok na => Some (VBool (if na then false else py_bool v))
  | Raise _ => None
  end.

(** The number written for a cell read with [int], [d] for a missing one. *)
Definition int_or (d : pyval) (v : pyval) : option pyval :=
  match pd_isna v with
  | Ok true => Some d
  | Ok false => match py_int v with Ok z => Some (VInt z) | Raise _ => None end
  | Raise _ => None
  end.

Definition is_bool (v : pyval) : bool :=
  match v with VBool _ => true | _ => false end.

Definition is_int (v : pyval) : bool :=
  match v with VInt _ => true | _ => false end.

Definition is_nan (v : pyval) : bool :=
  match v with VNaN => true | _ => false end.


(** The fields of a record, in their order: those of the literal, then the
    ones that the options, the row and the two resolutions add. *)
Definition record_fields (include_descriptions include_embeddings has_original
    employer_resolved jobsource_resolved : bool) : list string :=
  base_fields
  ++ (if include_descriptions then ["description"] else [])
  ++ (if include_embeddings then ["job_embedding"] else [])
  ++ (if has_original then ["original_id"] else [])
  ++ ["employer"] ++ (if employer_resolved then [] else ["employer_id"])
  ++ ["jobsource"] ++ (if jobsource_resolved then [] else ["jobsource_id"]).


(** An entry of the employers collection: its seven fields in order, the
    three texts never NaN, the flag a boolean and the two counters
    integers. *)
Definition employer_shape (e : list (string * pyval)) : Prop :=
  exists id name alt_name logo_url fh jobscount jobscount_online,
    e = [("id", id); ("name", name); ("alt_name", alt_name);
         ("logo_url", logo_url); ("fh", fh); ("jobscount", jobscount);
         ("jobscount_online", jobscount_online)]
    /\ is_nan name = false /\ is_nan alt_name = false /\ is_nan logo_url = false
    /\ is_bool fh = true /\ is_int jobscount = true
    /\ is_int jobscount_online = true.

(** An entry of the job-sources collection. *)
Definition jobsource_shape (s : list (string * pyval)) : Prop :=
  exists id label description,
    s = [("jobsource_id", id); ("jobsource", label); ("description", description)]
    /\ is_nan label = false /\ is_nan description = false.

(** No field of the dict is NaN, the fields [except] apart. *)
Definition no_nan_but (except : list string) (d : list (string * pyval)) : Prop :=
  forall k, ~ In k except -> dict_get k d <> Some VNaN.

(** The entry is filed under the key of its own identifier. *)
Definition filed_under (id_field : string) (k : key) (e : list (string * pyval)) : Prop :=
  exists id, dict_get id_field e = Some id /\ key_of id = Ok k.


(** Every entry of the dict is under one of the labels [except] or is not
    NaN. *)
Definition clean_entries (except : list string) (d : list (string * pyval)) : Prop :=
  Forall (fun kv => In (fst kv) except \/ is_nan (snd kv) = false) d.


(** The foreign key [fk] is present and some row of the relation [rs] has an
    identifier that is the same dictionary key. *)
Definition points_to (id_field : string) (rs : list Series) (fk : pyval) : Prop :=
  pd_isna fk = Ok false
  /\ exists k r rid,
       key_of fk = Ok k /\ In r rs /\ dict_get id_field r = Some rid
       /\ key_of rid = Ok k.











(** A job relation without the two optional columns, [description] and
    [job_embedding]. *)
Definition lean_columns : list string :=
  ["id"; "job_title"; "url"; "department"; "level"; "location"; "schedule";
   "main"; "sync"; "ignore"; "removed"; "manual"; "Archived"; "ideal";
   "created_at"; "updated_at"; "CategorizedData"; "clicks";
   "employer_id"; "jobsource_id"].

Definition lean_jobs : DataFrame :=
  Sample.frame lean_columns
    [[VInt 1; VStr "Engineer"; VNaN; VNaN; VNaN; VStr "Berlin"; VNaN;
      VBool true; VBool false; VBool false; VBool false; VBool false;
      VBool false; VNaN; VNaN; VNaN; VNaN; VFloat 45 (-1); VFloat 100 (-1); VNaN]].

Definition no_jobs : DataFrame := Sample.frame lean_columns [].


(** The value is a dict of the store. *)
Definition is_dict_in (h : gmap positive FreshDataset.object)
    (v : FreshDataset.value) : bool :=
  match v with
  | FreshDataset.Ref l =>
      match h !! l with Some (FreshDataset.Dict _) => true | _ => false end
  | FreshDataset.Atom _ => false
  end.

(** The value is there and is not a dict: a scalar or a list of the store. *)
Definition is_not_dict_in (h : gmap positive FreshDataset.object)
    (v : FreshDataset.value) : bool :=
  match v with
  | FreshDataset.Ref l =>
      match h !! l with Some (FreshDataset.List _) => true | _ => false end
  | FreshDataset.Atom _ => true
  end.

(** A scalar that cannot be iterated: anything but a string. *)
Definition is_plain_scalar (v : FreshDataset.value) : bool :=
  match v with
  | FreshDataset.Atom (FreshDataset.AStr _) => false
  | FreshDataset.Atom _ => true
  | FreshDataset.Ref _ => false
  end.

(** Two references to dicts with the same entries. *)
Definition same_record (h : gmap positive FreshDataset.object)
    (a b : FreshDataset.value) : Prop :=
  exists la lb entries,
    a = FreshDataset.Ref la /\ b = FreshDataset.Ref lb
    /\ h !! la = Some (FreshDataset.Dict entries)
    /\ h !! lb = Some (FreshDataset.Dict entries)
    /\ dict_get "CategorizedData" entries = None.


(** A loaded document whose second job is a list, not an object. *)
Definition store_with_stray_job : gmap positive FreshDataset.object :=
  <[5%positive := FreshDataset.List
                    [FreshDataset.Ref 6%positive; FreshDataset.Ref 3%positive]]>
    Sample.store_with_job.


(** A byte of padding: ASCII white space or a byte of a character beyond
    ASCII.  What [strip] removes consists of such bytes. *)
Definition pad (c : ascii) : bool := is_space c || (128 <=? Json.code c).

Fixpoint all_pad (s : string) : bool :=
  match s with
  | EmptyString => true
  | String c r => pad c && all_pad r
  end.

(** [s'] is [s] without some padding at its end and with its line breaks
    replaced by spaces. *)
Definition mirrors (s s' : string) : Prop :=
  exists x w, s = (x ++ w)%string /\ all_pad w = true /\ s' = Response.flatten x.

(** Two scans with the same outcome, on texts of which one mirrors the
    other. *)
Definition same_rest (o o' : option string) : Prop :=
  match o, o' with
  | Some r, Some r' => mirrors r r'
  | None, None => True
  | _, _ => False
  end.

Definition same_scan {A : Type} (o o' : option (A * string)) : Prop :=
  match o, o' with
  | Some (a, r), Some (a', r') => a = a' /\ mirrors r r'
  | None, None => True
  | _, _ => False
  end.


(** No byte of the text is padding. *)
Fixpoint no_pad (s : string) : bool :=
  match s with
  | EmptyString => true
  | String c r => negb (pad c) && no_pad r
  end.


(** The first item of the body of a string literal: the closing quote, a
    piece of decoded text (a character, an escape, a [\u] escape or a pair of
    them) or something that no string literal contains. *)
Inductive literal_item : Type :=
| Close (rest : string)
| Piece (text : string -> string) (rest : string)
| Bad.

(** What follows a [\u] escape of a high surrogate [u]. *)
Definition after_high (u : Z) (r2 : string) : literal_item :=
  match r2 with
  | String x (String y r2') =>
      if Ascii.eqb x "\" && Ascii.eqb y "u" then
        match r2' with
        | String a2 (String b2 (String c2 (String d2 r3))) =>
            match Json.hex4 a2 b2 c2 d2 with
            | None => Bad
            | Some u2 =>
                if Json.is_low_surrogate u2 then
                  Piece (Json.utf8 (65536 + ((u - 55296) * 1024 + (u2 - 56320)))) r3
                else Piece (Json.utf8 u) r2
            end
        | _ => Bad
        end
      else Piece (Json.utf8 u) r2
  | _ => Piece (Json.utf8 u) r2
  end.

Definition string_item (s : string) : literal_item :=
  match s with
  | EmptyString => Bad
  | String c r =>
      if Ascii.eqb c "034" then Close r
      else if Ascii.eqb c "\" then
        match r with
        | EmptyString => Bad
        | String e r1 =>
            if Ascii.eqb e "u" then
              match r1 with
              | String a (String b (String c' (String d r2))) =>
                  match Json.hex4 a b c' d with
                  | None => Bad
                  | Some u =>
                      if Json.is_high_surrogate u then after_high u r2
                      else Piece (Json.utf8 u) r2
                  end
              | _ => Bad
              end
            else
              match Json.unescape e with
              | Some ch => Piece (String ch) r1
              | None => Bad
              end
        end
      else if Json.code c <? 32 then Bad
      else Piece (String c) r
  end.


(** The byte [c] does not occur in the text. *)
Fixpoint lacks (c : ascii) (s : string) : bool :=
  match s with
  | EmptyString => true
  | String c' r => negb (Ascii.eqb c' c) && lacks c r
  end.

(** The text between two fences: an opening fence with a tag on its line,
    the body, a closing fence and what follows it. *)
Definition fenced (tag body tail : string) : string :=
  ("```" ++ tag ++ String "010" (body ++ "```" ++ tail))%string.


(** A completion on several lines, and the object it stands for. *)
Definition sample_response : string :=
  (" {" ++ String "010" ("  " ++ Sample.quoted "level" ++ ": ["
                        ++ Sample.quoted "senior" ++ ", 2]"
                        ++ String "013" (String "010" "} ")))%string.

Definition sample_metadata : pyval :=
  VDict [("level", VList [VStr "senior"; VInt 2])].

(** * Properties *)

(** ** Association lists *)

Section AssocFacts.
Context {V : Type}.
Implicit Types (d : list (string * V)) (k c : string).

Lemma dict_get_set k c (v : V) d :
  dict_get c (dict_set k v d) = if String.eqb c k then Some v else dict_get c d.
Proof.
  induction d as [|[k' v'] d IH]; simpl.
  - destruct (String.eqb_spec c k); reflexivity.
  - destruct (String.eqb_spec k k') as [->|Hk]; simpl.
    + destruct (String.eqb_spec c k'); reflexivity.
    + rewrite IH. destruct (String.eqb_spec c k') as [->|Hc]; [|reflexivity].
      destruct (String.eqb_spec k' k); congruence.
Qed.

Lemma dict_get_set_eq k (v : V) d : dict_get k (dict_set k v d) = Some v.
Proof. rewrite dict_get_set, String.eqb_refl. reflexivity. Qed.

Lemma dict_get_set_ne k c (v : V) d :
  c <> k -> dict_get c (dict_set k v d) = dict_get c d.
Proof.
  intros H. rewrite dict_get_set.
  destruct (String.eqb_spec c k); congruence.
Qed.

Lemma dict_get_without k c d :
  dict_get c (dict_without k d) = if String.eqb c k then None else dict_get c d.
Proof.
  induction d as [|[k' v'] d IH]; simpl.
  - destruct (String.eqb c k); reflexivity.
  - destruct (String.eqb_spec k' k) as [->|Hk]; simpl.
    + rewrite IH. destruct (String.eqb_spec c k); reflexivity.
    + rewrite IH. destruct (String.eqb_spec c k') as [->|Hc]; [|reflexivity].
      destruct (String.eqb_spec k' k); congruence.
Qed.
End AssocFacts.

Lemma existsb_eqb_In (c : string) (cols : list string) :
  existsb (String.eqb c) cols = true <-> In c cols.
Proof.
  rewrite existsb_exists. split.
  - intros (x & Hx & He). apply String.eqb_eq in He. congruence.
  - intros H. exists c. split; [assumption | apply String.eqb_refl].
Qed.

Lemma dict_get_reindex (cols : list string) (row : Series) (c : string) :
  dict_get c (reindex cols row) =
  if existsb (String.eqb c) cols
  then Some (match dict_get c row with Some v => v | None => VNaN end)
  else None.
Proof.
  unfold reindex. induction cols as [|c' cols IH]; simpl; [reflexivity|].
  destruct (String.eqb_spec c c') as [->|Hc]; simpl; [reflexivity | exact IH].
Qed.

Lemma has_column_In (c : string) (df : DataFrame) :
  has_column c df = true <-> In c (columns df).
Proof. apply existsb_eqb_In. Qed.

Lemma columns_set_column (c x : string) (v : pyval) (df : DataFrame) :
  In x (columns df) -> In x (columns (set_column c v df)).
Proof.
  intros H. simpl. destruct (has_column c df); [assumption|].
  apply in_or_app. left. assumption.
Qed.

Lemma columns_set_column_new (c : string) (v : pyval) (df : DataFrame) :
  In c (columns (set_column c v df)).
Proof.
  simpl. destruct (has_column c df) eqn:E.
  - apply has_column_In. assumption.
  - apply in_or_app. right. left. reflexivity.
Qed.

(** ** The error monad *)

Lemma bind_Ok {A B : Type} (r : result A) (k : A -> result B) (b : B) :
  bind r k = Ok b -> exists a, r = Ok a /\ k a = Ok b.
Proof. destruct r; simpl; [eauto | discriminate]. Qed.

Lemma for_each_length {A B : Type} (f : A -> result B) (xs : list A) (ys : list B) :
  for_each f xs = Ok ys -> length ys = length xs.
Proof.
  revert ys. induction xs as [|x xs IH]; simpl; intros ys H.
  - injection H as <-. reflexivity.
  - apply bind_Ok in H as (y & _ & H). apply bind_Ok in H as (ys' & Hys & H).
    injection H as <-. simpl. f_equal. apply IH. assumption.
Qed.

Lemma for_each_lookup {A B : Type} (f : A -> result B) (xs : list A) (ys : list B) :
  for_each f xs = Ok ys ->
  forall (i : nat) (y : B), ys !! i = Some y ->
    exists x, xs !! i = Some x /\ f x = Ok y.
Proof.
  revert ys. induction xs as [|x xs IH]; simpl; intros ys H i y Hy.
  - injection H as <-. destruct i; discriminate.
  - apply bind_Ok in H as (y0 & Hy0 & H). apply bind_Ok in H as (ys' & Hys & H).
    injection H as <-. destruct i as [|i]; simpl in *.
    + injection Hy as <-. eauto.
    + eapply IH; eassumption.
Qed.

Lemma for_each_lookup_rev {A B : Type} (f : A -> result B) (xs : list A) (ys : list B) :
  for_each f xs = Ok ys ->
  forall (i : nat) (x : A), xs !! i = Some x ->
    exists y, ys !! i = Some y /\ f x = Ok y.
Proof.
  revert ys. induction xs as [|x0 xs IH]; simpl; intros ys H i x Hx.
  - destruct i; discriminate.
  - apply bind_Ok in H as (y0 & Hy0 & H). apply bind_Ok in H as (ys' & Hys & H).
    injection H as <-. destruct i as [|i]; simpl in *.
    + injection Hx as <-. eauto.
    + eapply IH; eassumption.
Qed.

Lemma for_each_total {A B : Type} (f : A -> result B) (xs : list A) :
  Forall (fun x => exists y, f x = Ok y) xs -> exists ys, for_each f xs = Ok ys.
Proof.
  induction 1 as [|x xs [y Hy] _ [ys Hys]]; simpl.
  - eauto.
  - rewrite Hy. simpl. rewrite Hys. simpl. eauto.
Qed.

(** ** The schema normalizer *)

Lemma rows_normalize_job_schemas (a b : DataFrame) :
  exists (cols : list string) (inject : Series -> Series),
    columns (ConcatJobs.normalize_job_schemas a b) = cols
    /\ (forall c, In c (columns a) -> In c cols)
    /\ (forall c, In c (columns b) -> In c cols)
    /\ In "source_table" cols
    /\ In "original_id" cols
    /\ (forall r c, c <> "original_id" -> dict_get c (inject r) = dict_get c r)
    /\ (forall r, In "original_id" (columns a) -> inject r = r)
    /\ (forall r, ~ In "original_id" (columns a) ->
                  dict_get "original_id" (inject r) = Some VNone)
    /\ rows (ConcatJobs.normalize_job_schemas a b) =
       List.map (fun r => reindex cols (dict_set "source_table" (VStr "active") (inject r)))
         (rows a)
       ++ List.map (fun r => reindex cols (dict_set "source_table" (VStr "archived") r))
            (rows b).
Proof.
  unfold ConcatJobs.normalize_job_schemas, copy.
  destruct (has_column "original_id" a) eqn:Ho; simpl negb; cbv iota.
  - exists (columns (concat (set_column "source_table" (VStr "active") a)
                       (set_column "source_table" (VStr "archived") b))).
    exists (fun r => r).
    apply has_column_In in Ho.
    repeat split; try tauto.
    + intros c Hc. simpl. apply in_or_app. left.
      apply (columns_set_column "source_table" c (VStr "active") a Hc).
    + intros c Hc. cbn [concat columns].
      destruct (has_column c (set_column "source_table" (VStr "active") a)) eqn:E.
      * apply in_or_app. left. apply has_column_In in E. exact E.
      * apply in_or_app. right. apply filter_In. split.
        -- apply (columns_set_column "source_table" c (VStr "archived") b Hc).
        -- rewrite E. reflexivity.
    + cbn [concat columns]. apply in_or_app. left.
      apply (columns_set_column_new "source_table" (VStr "active") a).
    + cbn [concat columns]. apply in_or_app. left.
      apply (columns_set_column "source_table" "original_id" (VStr "active") a Ho).
    + cbn [concat rows set_column]. rewrite List.map_app, !List.map_map. reflexivity.
  - exists (columns (concat
              (set_column "source_table" (VStr "active") (set_column "original_id" VNone a))
              (set_column "source_table" (VStr "archived") b))).
    exists (dict_set "original_id" VNone).
    assert (Hn : ~ In "original_id" (columns a)).
    { intros H. apply has_column_In in H. congruence. }
    repeat split; try tauto.
    + intros c Hc. cbn [concat columns]. apply in_or_app. left.
      apply columns_set_column, columns_set_column, Hc.
    + intros c Hc. cbn [concat columns].
      destruct (has_column c (set_column "source_table" (VStr "active")
                                (set_column "original_id" VNone a))) eqn:E.
      * apply in_or_app. left. apply has_column_In in E. exact E.
      * apply in_or_app. right. apply filter_In. split.
        -- apply (columns_set_column "source_table" c (VStr "archived") b Hc).
        -- rewrite E. reflexivity.
    + cbn [concat columns]. apply in_or_app. left.
      apply columns_set_column_new.
    + cbn [concat columns]. apply in_or_app. left.
      apply columns_set_column, columns_set_column_new.
    + intros r c Hc. apply dict_get_set_ne. exact Hc.
    + intros r _. apply dict_get_set_eq.
    + cbn [concat rows set_column]. rewrite List.map_app, !List.map_map. reflexivity.
Qed.

(** The normalized relation has one column shape: every row carries exactly
    the labels of the relation, in their order. *)
Lemma normalize_job_schemas_shape (a b : DataFrame) :
  Forall (fun row => List.map fst row = columns (ConcatJobs.normalize_job_schemas a b))
    (rows (ConcatJobs.normalize_job_schemas a b)).
Proof.
  unfold ConcatJobs.normalize_job_schemas, concat. cbn [rows columns].
  apply Forall_forall. intros row Hrow.
  apply list_elem_of_In, in_map_iff in Hrow as (r & <- & _).
  unfold reindex. rewrite List.map_map. simpl. apply List.map_id.
Qed.

Lemma parse_categorized_data_rows (df df' : DataFrame) :
  ConcatJobs.parse_categorized_data df = Ok df' ->
  columns df' = columns df
  /\ for_each
       (fun row =>
          let* v := item row "CategorizedData" in
          let* p := ConcatJobs.parse_json_column v in
          Ok (dict_set "CategorizedData" p row)) (rows df) = Ok (rows df').
Proof.
  unfold ConcatJobs.parse_categorized_data, copy.
  destruct (has_column "CategorizedData" df); [|discriminate].
  intros H. apply bind_Ok in H as (rs & Hrs & H). injection H as <-.
  split; [reflexivity | exact Hrs].
Qed.

Lemma build_unified_structure_jobs (jobs employers jobsources : DataFrame)
    (ie id : bool) (now : string) (u : ConcatJobs.unified) :
  ConcatJobs.build_unified_structure jobs employers jobsources ie id now = Ok u ->
  exists el sl,
    ConcatJobs.build_lookup ConcatJobs.employer_entry (rows employers) [] = Ok el
    /\ ConcatJobs.build_lookup ConcatJobs.jobsource_entry (rows jobsources) [] = Ok sl
    /\ for_each (ConcatJobs.job_entry el sl ie id) (rows jobs) = Ok (ConcatJobs.jobs u)
    /\ ConcatJobs.employers u = lookup_values el
    /\ ConcatJobs.jobsources u = lookup_values sl
    /\ dict_get "total_employers" (ConcatJobs.metadata u)
       = Some (VInt (Z.of_nat (length el)))
    /\ dict_get "total_jobsources" (ConcatJobs.metadata u)
       = Some (VInt (Z.of_nat (length sl))).
Proof.
  unfold ConcatJobs.build_unified_structure. intros H.
  apply bind_Ok in H as (el & Hel & H).
  apply bind_Ok in H as (sl & Hsl & H).
  apply bind_Ok in H as (js & Hjs & H).
  injection H as <-. exists el, sl. simpl. repeat split; assumption.
Qed.

Lemma main_stages (a b employers jobsources : DataFrame)
    (ie xd : bool) (now : string) (u : ConcatJobs.unified) :
  ConcatJobs.main a b employers jobsources ie xd now = Ok u ->
  exists parsed,
    ConcatJobs.parse_categorized_data (ConcatJobs.normalize_job_schemas a b) = Ok parsed
    /\ ConcatJobs.build_unified_structure parsed employers jobsources ie (negb xd) now
       = Ok u.
Proof.
  unfold ConcatJobs.main. intros H.
  apply bind_Ok in H as (parsed & Hp & H). eauto.
Qed.

(** C1. The normalized relation is the active rows in their order followed by
    the archived rows in theirs: as many rows as the two inputs together, the
    i-th active row at place i and the i-th archived row at place
    [len(active) + i], each tagged with its origin and with every cell of its
    own columns unchanged; and the document that [main] assembles from it has
    as many job records. *)
Theorem normalize_job_schemas_concatenates (a b : DataFrame) :
  let out := ConcatJobs.normalize_job_schemas a b in
  length (rows out) = (length (rows a) + length (rows b))%nat
  /\ (forall (i : nat) (r : Series), rows a !! i = Some r ->
        exists r', rows out !! i = Some r'
          /\ dict_get "source_table" r' = Some (VStr "active")
          /\ forall c v, c <> "source_table" -> In c (columns a) ->
               dict_get c r = Some v -> dict_get c r' = Some v)
  /\ (forall (i : nat) (r : Series), rows b !! i = Some r ->
        exists r', rows out !! (length (rows a) + i)%nat = Some r'
          /\ dict_get "source_table" r' = Some (VStr "archived")
          /\ forall c v, c <> "source_table" -> In c (columns b) ->
               dict_get c r = Some v -> dict_get c r' = Some v)
  /\ (forall employers jobsources ie xd now u,
        ConcatJobs.main a b employers jobsources ie xd now = Ok u ->
        length (ConcatJobs.jobs u) = (length (rows a) + length (rows b))%nat).
Proof.
  intros out.
  destruct (rows_normalize_job_schemas a b)
    as (cols & inject & Hcols & Ha & Hb & Hst & Hoi & Hinj & Hid & Hnone & Hrows).
  assert (Hlen : length (rows out) = (length (rows a) + length (rows b))%nat).
  { subst out. rewrite Hrows, length_app, !length_map. reflexivity. }
  split; [exact Hlen|]. split; [|split].
  - intros i r Hr. subst out. rewrite Hrows.
    eexists. split.
    + rewrite lookup_app_l by (rewrite length_map; eapply lookup_lt_Some; eassumption).
      rewrite list_lookup_fmap, Hr. reflexivity.
    + split.
      * rewrite dict_get_reindex.
        apply existsb_eqb_In in Hst. rewrite Hst, dict_get_set_eq. reflexivity.
      * intros c v Hc Hin Hv. rewrite dict_get_reindex.
        pose proof (Ha c Hin) as Hin'. apply existsb_eqb_In in Hin'. rewrite Hin'.
        rewrite dict_get_set_ne by exact Hc.
        destruct (String.eqb_spec c "original_id") as [->|Hne].
        -- rewrite (Hid r Hin), Hv. reflexivity.
        -- rewrite (Hinj r c Hne), Hv. reflexivity.
  - intros i r Hr. subst out. rewrite Hrows.
    eexists. split.
    + rewrite lookup_app_r by (rewrite length_map; lia).
      rewrite length_map.
      replace (length (rows a) + i - length (rows a))%nat with i by lia.
      rewrite list_lookup_fmap, Hr. reflexivity.
    + split.
      * rewrite dict_get_reindex.
        apply existsb_eqb_In in Hst. rewrite Hst, dict_get_set_eq. reflexivity.
      * intros c v Hc Hin Hv. rewrite dict_get_reindex.
        pose proof (Hb c Hin) as Hin'. apply existsb_eqb_In in Hin'. rewrite Hin'.
        rewrite dict_get_set_ne by exact Hc. rewrite Hv. reflexivity.
  - intros employers jobsources ie xd now u Hu.
    apply main_stages in Hu as (parsed & Hp & Hu).
    apply parse_categorized_data_rows in Hp as (_ & Hp).
    apply build_unified_structure_jobs in Hu as (el & sl & _ & _ & Hj & _).
    apply for_each_length in Hj. apply for_each_length in Hp.
    etransitivity; [exact Hj|]. etransitivity; [exact Hp|]. exact Hlen.
Qed.

(** ** The decoder always has fuel enough *)

Lemma skip_ws_length (s : string) :
  (String.length (Json.skip_ws s) <= String.length s)%nat.
Proof.
  induction s as [|c s IH]; simpl; [lia|].
  destruct (Json.is_ws c); simpl; lia.
Qed.

Lemma strip_char_length (c : ascii) (s r : string) :
  Json.strip_char c s = Some r -> String.length s = S (String.length r).
Proof.
  destruct s as [|c' s]; simpl; [discriminate|].
  destruct (Ascii.eqb c' c); [|discriminate].
  intros H. injection H as <-. reflexivity.
Qed.

Lemma strip_prefix_length (p s r : string) :
  Json.strip_prefix p s = Some r ->
  String.length s = (String.length p + String.length r)%nat.
Proof.
  revert s. induction p as [|a p IH]; intros s; simpl.
  - intros H. injection H as <-. reflexivity.
  - destruct s as [|b s]; [discriminate|].
    destruct (Ascii.eqb a b); [|discriminate].
    intros H. apply IH in H. simpl. lia.
Qed.

Lemma take_digits_length (s : string) :
  forall (cnt acc cnt' v : Z) (r : string),
    Json.take_digits s cnt acc = (cnt', v, r) ->
    (String.length r <= String.length s)%nat
    /\ cnt <= cnt'
    /\ (cnt < cnt' -> (String.length r < String.length s)%nat).
Proof.
  induction s as [|c s IH]; intros cnt acc cnt' v r; simpl.
  - intros H. injection H as <- <- <-. repeat split; simpl; lia.
  - destruct (Json.digit_of c).
    + intros H. apply IH in H as (H1 & H2 & H3). repeat split; lia.
    + intros H. injection H as <- <- <-. simpl. repeat split; lia.
Qed.

Lemma scan_int_part_length (s r : string) (i : Z) :
  Json.scan_int_part s = Some (i, r) -> (String.length r < String.length s)%nat.
Proof.
  unfold Json.scan_int_part.
  destruct (Json.strip_char "0" s) as [r0|] eqn:E0.
  - intros H. injection H as <- <-. apply strip_char_length in E0. lia.
  - destruct (Json.take_digits s 0 0) as [[cnt v] r'] eqn:Et.
    destruct (Z.eqb_spec cnt 0); [discriminate|].
    intros H. injection H as <- <-.
    apply take_digits_length in Et as (_ & H2 & H3). apply H3. lia.
Qed.

Lemma scan_fraction_length (i : Z) (s r : string) (cnt m : Z) :
  Json.scan_fraction i s = (cnt, m, r) -> (String.length r <= String.length s)%nat.
Proof.
  unfold Json.scan_fraction.
  destruct (Json.strip_char "." s) as [r0|] eqn:E0.
  - destruct (Json.take_digits r0 0 i) as [[c v] r'] eqn:Et.
    apply strip_char_length in E0. apply take_digits_length in Et as (H1 & _).
    destruct (c =? 0); intros H; injection H as <- <- <-; lia.
  - intros H. injection H as <- <- <-. lia.
Qed.

Lemma scan_exponent_length (s r : string) (ex : option Z) :
  Json.scan_exponent s = (ex, r) -> (String.length r <= String.length s)%nat.
Proof.
  unfold Json.scan_exponent. destruct s as [|c s]; simpl.
  - intros H. injection H as <- <-. simpl. lia.
  - destruct (Ascii.eqb c "e" || Ascii.eqb c "E").
    + assert (Hsign : forall (p : bool * string),
                p = match Json.strip_char "-" s with
                    | Some r1 => (true, r1)
                    | None => match Json.strip_char "+" s with
                              | Some r1 => (false, r1)
                              | None => (false, s)
                              end
                    end -> (String.length (snd p) <= String.length s)%nat).
      { intros p ->.
        destruct (Json.strip_char "-" s) as [r1|] eqn:E1; simpl.
        - apply strip_char_length in E1. lia.
        - destruct (Json.strip_char "+" s) as [r1|] eqn:E2; simpl.
          + apply strip_char_length in E2. lia.
          + lia. }
      specialize (Hsign _ eq_refl).
      destruct (match Json.strip_char "-" s with
                | Some r1 => (true, r1)
                | None => match Json.strip_char "+" s with
                          | Some r1 => (false, r1)
                          | None => (false, s)
                          end
                end) as [eneg r1].
      simpl in Hsign.
      destruct (Json.take_digits r1 0 0) as [[cnt v] r2] eqn:Et.
      apply take_digits_length in Et as (H1 & _).
      destruct (cnt =? 0); intros H; injection H as <- <-; simpl; lia.
    + intros H. injection H as <- <-. simpl. lia.
Qed.

Lemma scan_number_length (s r : string) (v : pyval) :
  Json.scan_number s = Some (v, r) -> (String.length r < String.length s)%nat.
Proof.
  unfold Json.scan_number.
  assert (Hsign : forall (p : bool * string),
            p = match Json.strip_char "-" s with
                | Some r0 => (true, r0)
                | None => (false, s)
                end -> (String.length (snd p) <= String.length s)%nat).
  { intros p ->. destruct (Json.strip_char "-" s) as [r0|] eqn:E; simpl.
    - apply strip_char_length in E. lia.
    - lia. }
  specialize (Hsign _ eq_refl).
  destruct (match Json.strip_char "-" s with
            | Some r0 => (true, r0)
            | None => (false, s)
            end) as [neg s1].
  simpl in Hsign.
  destruct (Json.scan_int_part s1) as [[i s2]|] eqn:Ei; [|discriminate].
  apply scan_int_part_length in Ei.
  destruct (Json.scan_fraction i s2) as [[fcnt m] s3] eqn:Ef.
  apply scan_fraction_length in Ef.
  destruct (Json.scan_exponent s3) as [ex s4] eqn:Ee.
  apply scan_exponent_length in Ee.
  destruct ex; [|destruct (0 <? fcnt)]; intros H; injection H as <- <-; lia.
Qed.

Lemma push_Some (f : string -> string) (o : option (string * string))
    (body rest : string) :
  Json.push f o = Some (body, rest) -> exists body', o = Some (body', rest).
Proof.
  destruct o as [[b r]|]; simpl; [|discriminate].
  intros H. injection H as <- <-. eauto.
Qed.

Lemma scan_string_length (n : nat) :
  forall (s body rest : string),
    (String.length s <= n)%nat ->
    Json.scan_string s = Some (body, rest) ->
    (String.length rest < String.length s)%nat.
Proof.
  induction n as [|n IH]; intros s body rest Hn H.
  - destruct s; [discriminate | simpl in Hn; lia].
  - destruct s as [|c r]; [discriminate|].
    change (Json.scan_string (String c r)) with
      (if Ascii.eqb c "034" then Some (EmptyString, r)
       else if Ascii.eqb c "\" then
         match r with
         | EmptyString => None
         | String e r1 =>
             if Ascii.eqb e "u" then
               match r1 with
               | String a (String b (String c' (String d r2))) =>
                   match Json.hex4 a b c' d with
                   | None => None
                   | Some u =>
                       if Json.is_high_surrogate u then
                         match r2 with
                         | String x (String y r2') =>
                             if Ascii.eqb x "\" && Ascii.eqb y "u" then
                               match r2' with
                               | String a2 (String b2 (String c2 (String d2 r3))) =>
                                   match Json.hex4 a2 b2 c2 d2 with
                                   | None => None
                                   | Some u2 =>
                                       if Json.is_low_surrogate u2 then
                                         Json.push
                                           (Json.utf8 (65536 + ((u - 55296) * 1024
                                                                + (u2 - 56320))))
                                           (Json.scan_string r3)
                                       else Json.push (Json.utf8 u) (Json.scan_string r2)
                                   end
                               | _ => None
                               end
                             else Json.push (Json.utf8 u) (Json.scan_string r2)
                         | _ => Json.push (Json.utf8 u) (Json.scan_string r2)
                         end
                       else Json.push (Json.utf8 u) (Json.scan_string r2)
                   end
               | _ => None
               end
             else
               match Json.unescape e with
               | Some ch => Json.push (String ch) (Json.scan_string r1)
               | None => None
               end
         end
       else if Json.code c <? 32 then None
       else Json.push (String c) (Json.scan_string r)) in H.
    simpl in Hn.
    repeat (cbv beta match in H;
            first
              [ discriminate H
              | match type of H with
                | context [match ?x with _ => _ end] =>
                    first [is_var x; destruct x | destruct x eqn:?]
                end ]);
      first
        [ injection H as <- <-; simpl; lia
        | apply push_Some in H as (body' & H);
          apply IH in H; simpl in *; lia ].
Qed.

Lemma scan_constant_length (s r : string) (v : pyval) :
  Json.scan_constant s = Json.Scanned v r ->
  (String.length r < String.length s)%nat.
Proof.
  unfold Json.scan_constant.
  repeat match goal with
         | |- context [Json.strip_prefix ?p s] =>
             let E := fresh "E" in
             destruct (Json.strip_prefix p s) eqn:E;
             [apply strip_prefix_length in E; simpl in E;
              intros H; injection H as <- <-; lia|]
         | |- context [Json.scan_number s] =>
             let E := fresh "E" in
             destruct (Json.scan_number s) as [[v' r']|] eqn:E;
             [apply scan_number_length in E;
              destruct v'; try destruct (_ <? _);
              intros H; try discriminate H; injection H as <- <-; lia|]
         end.
  discriminate.
Qed.

(** A scan that succeeds has consumed at least one character. *)
Lemma scan_consumes (n : nat) :
  (forall s v r, Json.scan_once n s = Json.Scanned v r ->
                 (String.length r < String.length s)%nat)
  /\ (forall s acc v r, Json.scan_elems n s acc = Json.Scanned v r ->
                        (String.length r < String.length s)%nat)
  /\ (forall s acc v r, Json.scan_members n s acc = Json.Scanned v r ->
                        (String.length r < String.length s)%nat).
Proof.
  induction n as [|n (IHo & IHe & IHm)]; [repeat split; discriminate|].
  split; [|split].
  - intros s v r. cbn [Json.scan_once].
    destruct (Json.strip_char "034" s) as [r0|] eqn:Eq.
    { apply strip_char_length in Eq.
      destruct (Json.scan_string r0) as [[str rest]|] eqn:Es; [|discriminate].
      apply (scan_string_length (String.length r0)) in Es; [|lia].
      intros H. injection H as <- <-. lia. }
    destruct (Json.strip_char "{" s) as [r0|] eqn:Eo.
    { apply strip_char_length in Eo.
      pose proof (skip_ws_length r0).
      destruct (Json.strip_char "}" (Json.skip_ws r0)) as [r2|] eqn:Ec.
      - apply strip_char_length in Ec. intros H'. injection H' as <- <-. lia.
      - intros H'. apply IHm in H'. lia. }
    destruct (Json.strip_char "[" s) as [r0|] eqn:Ea.
    { apply strip_char_length in Ea.
      pose proof (skip_ws_length r0).
      destruct (Json.strip_char "]" (Json.skip_ws r0)) as [r2|] eqn:Ec.
      - apply strip_char_length in Ec. intros H'. injection H' as <- <-. lia.
      - intros H'. apply IHe in H'. lia. }
    apply scan_constant_length.
  - intros s acc v r. cbn [Json.scan_elems].
    destruct (Json.scan_once n s) as [v0 r0| | |] eqn:E0; try discriminate.
    apply IHo in E0. pose proof (skip_ws_length r0).
    destruct (Json.strip_char "," (Json.skip_ws r0)) as [r2|] eqn:Ec.
    + apply strip_char_length in Ec. pose proof (skip_ws_length r2).
      intros H'. apply IHe in H'. lia.
    + destruct (Json.strip_char "]" (Json.skip_ws r0)) as [r2|] eqn:Ee; [|discriminate].
      apply strip_char_length in Ee. intros H'. injection H' as <- <-. lia.
  - intros s acc v r. cbn [Json.scan_members].
    destruct (Json.strip_char "034" s) as [r0|] eqn:Eq; [|discriminate].
    apply strip_char_length in Eq.
    destruct (Json.scan_string r0) as [[k r1]|] eqn:Es; [|discriminate].
    apply (scan_string_length (String.length r0)) in Es; [|lia].
    pose proof (skip_ws_length r1).
    destruct (Json.strip_char ":" (Json.skip_ws r1)) as [r2|] eqn:Ec; [|discriminate].
    apply strip_char_length in Ec. pose proof (skip_ws_length r2).
    destruct (Json.scan_once n (Json.skip_ws r2)) as [v0 r3| | |] eqn:E0; try discriminate.
    apply IHo in E0. pose proof (skip_ws_length r3).
    destruct (Json.strip_char "," (Json.skip_ws r3)) as [r4|] eqn:Em.
    + apply strip_char_length in Em. pose proof (skip_ws_length r4).
      intros H'. apply IHm in H'. lia.
    + destruct (Json.strip_char "}" (Json.skip_ws r3)) as [r4|] eqn:Ee; [|discriminate].
      apply strip_char_length in Ee. intros H'. injection H' as <- <-. lia.
Qed.

(** Twice the length of the text and one more is fuel enough. *)
Lemma scan_fuel (n : nat) :
  (forall s, (2 * String.length s < n)%nat -> Json.scan_once n s <> Json.Starved)
  /\ (forall s acc, (2 * String.length s + 1 < n)%nat ->
                    Json.scan_elems n s acc <> Json.Starved)
  /\ (forall s acc, (2 * String.length s + 1 < n)%nat ->
                    Json.scan_members n s acc <> Json.Starved).
Proof.
  induction n as [|n (IHo & IHe & IHm)]; [repeat split; intros; lia|].
  destruct (scan_consumes n) as (Co & Ce & Cm).
  split; [|split].
  - intros s Hn. cbn [Json.scan_once].
    destruct (Json.strip_char "034" s) as [r0|] eqn:Eq.
    { destruct (Json.scan_string r0) as [[str rest]|]; discriminate. }
    destruct (Json.strip_char "{" s) as [r0|] eqn:Eo.
    { apply strip_char_length in Eo. pose proof (skip_ws_length r0).
      destruct (Json.strip_char "}" (Json.skip_ws r0)); [discriminate|].
      apply IHm. lia. }
    destruct (Json.strip_char "[" s) as [r0|] eqn:Ea.
    { apply strip_char_length in Ea. pose proof (skip_ws_length r0).
      destruct (Json.strip_char "]" (Json.skip_ws r0)); [discriminate|].
      apply IHe. lia. }
    unfold Json.scan_constant.
    repeat match goal with
           | |- context [match ?x with _ => _ end] => destruct x
           end; discriminate.
  - intros s acc Hn. cbn [Json.scan_elems].
    destruct (Json.scan_once n s) as [v0 r0| | |] eqn:E0.
    + apply Co in E0. pose proof (skip_ws_length r0).
      destruct (Json.strip_char "," (Json.skip_ws r0)) as [r2|] eqn:Ec.
      * apply strip_char_length in Ec. pose proof (skip_ws_length r2).
        apply IHe. lia.
      * destruct (Json.strip_char "]" (Json.skip_ws r0)); discriminate.
    + discriminate.
    + discriminate.
    + exfalso. apply (IHo s); [lia | exact E0].
  - intros s acc Hn. cbn [Json.scan_members].
    destruct (Json.strip_char "034" s) as [r0|] eqn:Eq; [|discriminate].
    apply strip_char_length in Eq.
    destruct (Json.scan_string r0) as [[k r1]|] eqn:Es; [|discriminate].
    apply (scan_string_length (String.length r0)) in Es; [|lia].
    pose proof (skip_ws_length r1).
    destruct (Json.strip_char ":" (Json.skip_ws r1)) as [r2|] eqn:Ec; [|discriminate].
    apply strip_char_length in Ec. pose proof (skip_ws_length r2).
    destruct (Json.scan_once n (Json.skip_ws r2)) as [v0 r3| | |] eqn:E0.
    + apply Co in E0. pose proof (skip_ws_length r3).
      destruct (Json.strip_char "," (Json.skip_ws r3)) as [r4|] eqn:Em.
      * apply strip_char_length in Em. pose proof (skip_ws_length r4).
        apply IHm. lia.
      * destruct (Json.strip_char "}" (Json.skip_ws r3)); discriminate.
    + discriminate.
    + discriminate.
    + exfalso. apply (IHo (Json.skip_ws r2)); [lia | exact E0].
Qed.

(** [json.loads] is decided within its fuel: when it gives no value, the text
    is malformed or is followed by extra data. *)
Lemma loads_never_starved (s : string) :
  Json.scan_once (2 * String.length s + 1) (Json.skip_ws s) <> Json.Starved.
Proof.
  destruct (scan_fuel (2 * String.length s + 1)) as (H & _).
  apply H. pose proof (skip_ws_length s). lia.
Qed.

(** The decoder on a few texts. *)
Example loads_malformed : Json.loads "{invalid" = None.
Proof. vm_compute. reflexivity. Qed.

Example loads_array :
  Json.loads " [1, -2.50e3, null, true, [ ], {}] "
  = Some (VList [VInt 1; VFloat (-250) 1; VNone; VBool true; VList []; VDict []]).
Proof. vm_compute. reflexivity. Qed.

Example loads_trailing_comma : Json.loads "[1,]" = None.
Proof. vm_compute. reflexivity. Qed.

Example loads_leading_zero : Json.loads "01" = None.
Proof. vm_compute. reflexivity. Qed.

Example loads_object :
  Json.loads ("{" ++ Sample.quoted "a" ++ ": 1, " ++ Sample.quoted "bé\n"
              ++ ": NaN, " ++ Sample.quoted "a" ++ ": 2}")%string
  = Some (VDict [("a", VInt 2);
                 (String "b" (String "195" (String "169" (String "010" EmptyString))),
                  VNaN)]).
Proof. vm_compute. reflexivity. Qed.

Example int_of_str_grouped : int_of_str " 1_000 " = Some 1000.
Proof. vm_compute. reflexivity. Qed.

Example int_of_str_text : int_of_str "12a" = None.
Proof. vm_compute. reflexivity. Qed.

Example key_of_equal_numbers :
  key_of (VFloat 100 (-1)) = key_of (VInt 10) /\ key_of (VBool true) = key_of (VInt 1).
Proof. split; vm_compute; reflexivity. Qed.

(** ** The parser of the embedded JSON column *)

Lemma pd_isna_not_list (v : pyval) :
  is_list v = false ->
  pd_isna v = Ok (match v with VNone | VNaN => true | _ => false end).
Proof. destruct v; simpl; intros H; try reflexivity; discriminate. Qed.

(** A text that [json.loads] decodes is within the digit limit. *)
Lemma loads_within_limit (s : string) (v : pyval) :
  Json.loads s = Some v -> Json.exceeds_digit_limit s = false.
Proof.
  unfold Json.loads, Json.exceeds_digit_limit.
  destruct (Json.scan_once _ _); intros H; try discriminate H; reflexivity.
Qed.

(** What the parser does on a value that is not a list: None for None, NaN
    and the empty string, the dict itself for a dict, None for a string that
    [json.loads] rejects with a [JSONDecodeError]; the one exception that
    leaves it is the ValueError of a text beyond the digit limit. *)
Lemma parse_json_column_outcomes (v : pyval) :
  is_list v = false ->
  (exists s, v = VStr s /\ Json.exceeds_digit_limit s = true
             /\ ConcatJobs.parse_json_column v = Raise ValueError)
  \/ (exists r, ConcatJobs.parse_json_column v = Ok r
         /\ (v = VNone \/ v = VNaN \/ v = VStr EmptyString -> r = VNone)
         /\ (is_dict v = true -> r = v)
         /\ (forall s, v = VStr s -> Json.loads s = None -> r = VNone)).
Proof.
  intros Hcell. unfold ConcatJobs.parse_json_column.
  rewrite (pd_isna_not_list v Hcell).
  destruct v; simpl in *; try discriminate;
    try (right; eexists; split; [reflexivity|];
         repeat split; intros; try reflexivity; try discriminate;
         repeat match goal with H : _ \/ _ |- _ => destruct H end;
         discriminate).
  destruct (String.eqb_spec s EmptyString) as [->|Hs]; simpl.
  - right. eexists. split; [reflexivity|].
    repeat split; intros; try reflexivity; discriminate.
  - destruct (Json.exceeds_digit_limit s) eqn:El.
    + left. exists s. split; [reflexivity|]. split; [exact El | reflexivity].
    + right. destruct (Json.loads s) as [j|] eqn:Ej.
      * exists j. split; [reflexivity|]. repeat split.
        -- intros [H|[H|H]]; try discriminate. injection H as ->. contradiction.
        -- discriminate.
        -- intros s' H Hs'. injection H as <-. congruence.
      * exists VNone. split; [reflexivity|].
        repeat split; intros; try reflexivity; discriminate.
Qed.

(** Whatever [json.loads] makes of a text is what the parser returns for it,
    a dict or not. *)
Lemma parse_json_column_valid_text (s : string) (v : pyval) :
  s <> EmptyString -> Json.loads s = Some v ->
  ConcatJobs.parse_json_column (VStr s) = Ok v.
Proof.
  intros Hs Hv. unfold ConcatJobs.parse_json_column. simpl.
  destruct (String.eqb_spec s EmptyString); [contradiction|].
  simpl. rewrite (loads_within_limit s v Hv), Hv. reflexivity.
Qed.

(** C4. A payload that is itself a JSON string literal is decoded to that
    string, and the string is what the record of the assembled document
    carries as its embedded metadata: neither a nested structure nor None. *)
Theorem parse_json_column_string_payload :
  ConcatJobs.parse_json_column (VStr (Sample.quoted "hello")) = Ok (VStr "hello")
  /\ exists u j,
       ConcatJobs.main Sample.active Sample.archived Sample.employers
         Sample.jobsources false false Sample.now = Ok u
       /\ ConcatJobs.jobs u !! 0%nat = Some j
       /\ dict_get "CategorizedData" j = Some (VStr "hello").
Proof.
  split; [vm_compute; reflexivity|].
  eexists. eexists. split; [vm_compute; reflexivity|].
  split; [reflexivity | vm_compute; reflexivity].
Qed.

(** ** The steps of a job record *)

Ltac invert_bind H :=
  repeat (let x := fresh "x" in
          let E := fresh "E" in
          apply bind_Ok in H as (x & E & H)).

Lemma base_entry_keys (row : Series) (e : list (string * pyval)) :
  ConcatJobs.base_entry row = Ok e ->
  List.map fst e =
    ["id"; "job_title"; "url"; "department"; "level"; "location"; "schedule";
     "main"; "sync"; "ignore"; "removed"; "manual"; "Archived"; "ideal";
     "created_at"; "updated_at"; "source_table"; "CategorizedData"; "clicks"]
  /\ (exists st, item row "source_table" = Ok st
                 /\ dict_get "source_table" e = Some st)
  /\ (exists cd, item row "CategorizedData" = Ok cd
                 /\ dict_get "CategorizedData" e = Some cd).
Proof.
  unfold ConcatJobs.base_entry. intros H. invert_bind H.
  injection H as <-. repeat split; eauto.
Qed.

Lemma dict_get_not_key {V : Type} (k : string) (d : list (string * V)) :
  ~ In k (List.map fst d) -> dict_get k d = None.
Proof.
  induction d as [|[k' v] d IH]; simpl; [reflexivity|].
  intros H. destruct (String.eqb_spec k k') as [->|Hk].
  - exfalso. apply H. left. reflexivity.
  - apply IH. intros Hin. apply H. right. exact Hin.
Qed.

Lemma add_description_get (b : bool) (row : Series) (e e' : list (string * pyval)) :
  ConcatJobs.add_description b row e = Ok e' ->
  forall k, k <> "description" -> dict_get k e' = dict_get k e.
Proof.
  unfold ConcatJobs.add_description. destruct b; intros H k Hk.
  - invert_bind H. injection H as <-. apply dict_get_set_ne. exact Hk.
  - injection H as <-. reflexivity.
Qed.

Lemma add_embedding_get (b : bool) (row : Series) (e e' : list (string * pyval)) :
  ConcatJobs.add_embedding b row e = Ok e' ->
  forall k, k <> "job_embedding" -> dict_get k e' = dict_get k e.
Proof.
  unfold ConcatJobs.add_embedding. destruct b; intros H k Hk.
  - invert_bind H. injection H as <-. apply dict_get_set_ne. exact Hk.
  - injection H as <-. reflexivity.
Qed.

Lemma add_original_id_get (row : Series) (e e' : list (string * pyval)) :
  ConcatJobs.add_original_id row e = Ok e' ->
  forall k, k <> "original_id" -> dict_get k e' = dict_get k e.
Proof.
  unfold ConcatJobs.add_original_id. intros H k Hk.
  apply bind_Ok in H as ([] & _ & H).
  - invert_bind H. injection H as <-. apply dict_get_set_ne. exact Hk.
  - injection H as <-. reflexivity.
Qed.

Lemma pd_notna_Ok (v : pyval) (b : bool) :
  pd_notna v = Ok b -> pd_isna v = Ok (negb b).
Proof.
  unfold pd_notna. intros H. apply bind_Ok in H as (na & -> & H).
  injection H as <-. rewrite negb_involutive. reflexivity.
Qed.

Lemma resolve_cases (fk : pyval) (lookup : list (key * list (string * pyval)))
    (found : option (list (string * pyval))) :
  ConcatJobs.resolve fk lookup = Ok found ->
  match found with
  | Some _ => resolves fk lookup = true
  | None => resolves fk lookup = false
  end.
Proof.
  unfold ConcatJobs.resolve, resolves. intros H.
  apply bind_Ok in H as (present & Hp & H). apply pd_notna_Ok in Hp. rewrite Hp.
  destruct present; simpl in *.
  - apply bind_Ok in H as (k & -> & H). injection H as <-.
    destruct (lookup_get k lookup); reflexivity.
  - injection H as <-. reflexivity.
Qed.

Lemma resolve_found (fk : pyval) (lookup : list (key * list (string * pyval)))
    (entry : list (string * pyval)) :
  ConcatJobs.resolve fk lookup = Ok (Some entry) ->
  exists k, key_of fk = Ok k /\ lookup_get k lookup = Some entry.
Proof.
  unfold ConcatJobs.resolve. intros H.
  apply bind_Ok in H as (present & Hp & H). destruct present.
  - apply bind_Ok in H as (k & Hk & H). injection H as H. eauto.
  - discriminate.
Qed.

Lemma resolve_employer_spec (el : list (key * list (string * pyval)))
    (row : Series) (e e' : list (string * pyval)) :
  ConcatJobs.resolve_employer el row e = Ok e' ->
  exists fk, item row "employer_id" = Ok fk
    /\ ((resolves fk el = true
         /\ exists k employer e_id e_name e_alt_name e_logo_url,
              key_of fk = Ok k /\ lookup_get k el = Some employer
              /\ item employer "id" = Ok e_id
              /\ item employer "name" = Ok e_name
              /\ item employer "alt_name" = Ok e_alt_name
              /\ item employer "logo_url" = Ok e_logo_url
              /\ e' = dict_set "employer"
                        (VDict [("id", e_id); ("name", e_name);
                                ("alt_name", e_alt_name); ("logo_url", e_logo_url)]) e)
        \/ (resolves fk el = false
            /\ e' = dict_set "employer_id" (or_none fk) (dict_set "employer" VNone e))).
Proof.
  unfold ConcatJobs.resolve_employer. intros H.
  apply bind_Ok in H as (fk & Hfk & H). exists fk. split; [exact Hfk|].
  apply bind_Ok in H as (found & Hfound & H).
  pose proof (resolve_cases _ _ _ Hfound) as Hres.
  destruct found as [employer|].
  - left. split; [exact Hres|].
    apply resolve_found in Hfound as (k & Hk & Hget).
    invert_bind H. injection H as <-.
    exists k, employer. do 4 eexists. repeat split; eassumption.
  - right. split; [exact Hres|].
    apply bind_Ok in H as (present & Hp & H). injection H as <-.
    apply pd_notna_Ok in Hp. unfold or_none. rewrite Hp.
    destruct present; reflexivity.
Qed.

Lemma resolve_jobsource_spec (sl : list (key * list (string * pyval)))
    (row : Series) (e e' : list (string * pyval)) :
  ConcatJobs.resolve_jobsource sl row e = Ok e' ->
  exists fk, item row "jobsource_id" = Ok fk
    /\ ((resolves fk sl = true
         /\ exists k source s_id s_label,
              key_of fk = Ok k /\ lookup_get k sl = Some source
              /\ item source "jobsource_id" = Ok s_id
              /\ item source "jobsource" = Ok s_label
              /\ e' = dict_set "jobsource"
                        (VDict [("jobsource_id", s_id); ("jobsource", s_label)]) e)
        \/ (resolves fk sl = false
            /\ e' = dict_set "jobsource_id" (or_none fk) (dict_set "jobsource" VNone e))).
Proof.
  unfold ConcatJobs.resolve_jobsource. intros H.
  apply bind_Ok in H as (fk & Hfk & H). exists fk. split; [exact Hfk|].
  apply bind_Ok in H as (found & Hfound & H).
  pose proof (resolve_cases _ _ _ Hfound) as Hres.
  destruct found as [source|].
  - left. split; [exact Hres|].
    apply resolve_found in Hfound as (k & Hk & Hget).
    invert_bind H. injection H as <-.
    exists k, source. do 2 eexists. repeat split; eassumption.
  - right. split; [exact Hres|].
    apply bind_Ok in H as (present & Hp & H). injection H as <-.
    apply pd_notna_Ok in Hp. unfold or_none. rewrite Hp.
    destruct present; reflexivity.
Qed.

(** The steps of [job_entry], one after the other. *)
Lemma job_entry_steps (el sl : list (key * list (string * pyval)))
    (ie id : bool) (row : Series) (entry : list (string * pyval)) :
  ConcatJobs.job_entry el sl ie id row = Ok entry ->
  exists e0 e1 e2 e3 e4,
    ConcatJobs.base_entry row = Ok e0
    /\ ConcatJobs.add_description id row e0 = Ok e1
    /\ ConcatJobs.add_embedding ie row e1 = Ok e2
    /\ ConcatJobs.add_original_id row e2 = Ok e3
    /\ ConcatJobs.resolve_employer el row e3 = Ok e4
    /\ ConcatJobs.resolve_jobsource sl row e4 = Ok entry.
Proof.
  unfold ConcatJobs.job_entry. intros H.
  apply bind_Ok in H as (e0 & H0 & H). apply bind_Ok in H as (e1 & H1 & H).
  apply bind_Ok in H as (e2 & H2 & H). apply bind_Ok in H as (e3 & H3 & H).
  apply bind_Ok in H as (e4 & H4 & H).
  exists e0, e1, e2, e3, e4. repeat split; assumption.
Qed.

(** Before the references are resolved a record has none of their fields. *)
Lemma before_references (ie id : bool) (row : Series)
    (e0 e1 e2 e3 : list (string * pyval)) (k : string) :
  ConcatJobs.base_entry row = Ok e0 ->
  ConcatJobs.add_description id row e0 = Ok e1 ->
  ConcatJobs.add_embedding ie row e1 = Ok e2 ->
  ConcatJobs.add_original_id row e2 = Ok e3 ->
  In k ["employer"; "employer_id"; "jobsource"; "jobsource_id"] ->
  dict_get k e3 = None.
Proof.
  intros H0 H1 H2 H3 Hk.
  apply base_entry_keys in H0 as (Hkeys & _).
  assert (Hne : k <> "description" /\ k <> "job_embedding" /\ k <> "original_id"
                /\ ~ In k (List.map fst e0)).
  { rewrite Hkeys. simpl in Hk.
    destruct Hk as [<-|[<-|[<-|[<-|[]]]]];
      (repeat split; [discriminate ..|]);
      simpl; intros H; repeat (destruct H as [H|H]; [discriminate|]); contradiction. }
  destruct Hne as (Hd & He & Ho & Hin).
  rewrite (add_original_id_get _ _ _ H3 k Ho).
  rewrite (add_embedding_get _ _ _ _ H2 k He).
  rewrite (add_description_get _ _ _ _ H1 k Hd).
  apply dict_get_not_key. exact Hin.
Qed.

(** ** Foreign keys and embedded references *)

Lemma carries_resolved {V : Type} (ref_field fk_field : string) (fk : pyval)
    (lookup : list (key * V)) (entry ref : list (string * pyval)) :
  resolves fk lookup = true ->
  dict_get ref_field entry = Some (VDict ref) ->
  dict_get fk_field entry = None ->
  carries_ref ref_field fk_field fk lookup entry.
Proof.
  intros Hr Href Hfk. unfold carries_ref. rewrite Hr, Href, Hfk.
  repeat split; try discriminate; eauto.
Qed.

Lemma carries_unresolved {V : Type} (ref_field fk_field : string) (fk : pyval)
    (lookup : list (key * V)) (entry : list (string * pyval)) :
  resolves fk lookup = false ->
  dict_get ref_field entry = Some VNone ->
  dict_get fk_field entry = Some (or_none fk) ->
  carries_ref ref_field fk_field fk lookup entry.
Proof.
  intros Hr Href Hfk. unfold carries_ref. rewrite Hr, Href, Hfk.
  repeat split; try discriminate; try reflexivity.
  intros H. exfalso. apply H. reflexivity.
Qed.

Lemma job_entry_carries_refs (el sl : list (key * list (string * pyval)))
    (ie id : bool) (row : Series) (entry : list (string * pyval)) :
  ConcatJobs.job_entry el sl ie id row = Ok entry ->
  exists employer_id jobsource_id,
    item row "employer_id" = Ok employer_id
    /\ item row "jobsource_id" = Ok jobsource_id
    /\ carries_ref "employer" "employer_id" employer_id el entry
    /\ carries_ref "jobsource" "jobsource_id" jobsource_id sl entry.
Proof.
  intros H. apply job_entry_steps in H as (e0 & e1 & e2 & e3 & e4 & H0 & H1 & H2 & H3 & H4 & H5).
  pose proof (before_references ie id row e0 e1 e2 e3) as Hnone.
  specialize (fun k => Hnone k H0 H1 H2 H3).
  assert (Hemp : dict_get "employer" e3 = None) by (apply Hnone; simpl; auto).
  assert (Hempid : dict_get "employer_id" e3 = None) by (apply Hnone; simpl; auto).
  assert (Hsrc : dict_get "jobsource" e3 = None) by (apply Hnone; simpl; auto).
  assert (Hsrcid : dict_get "jobsource_id" e3 = None) by (apply Hnone; simpl; auto).
  apply resolve_employer_spec in H4 as (efk & Hefk & H4).
  apply resolve_jobsource_spec in H5 as (sfk & Hsfk & H5).
  exists efk, sfk. split; [exact Hefk|]. split; [exact Hsfk|].
  destruct H4 as [(Hre & k & emp & i & n & a & l & _ & _ & _ & _ & _ & _ & ->)
                 |(Hre & ->)];
    destruct H5 as [(Hrs & k' & src & si & sn & _ & _ & _ & _ & ->)|(Hrs & ->)];
    split.
  all: first
    [ eapply carries_resolved; [eassumption | |];
      rewrite ?dict_get_set; simpl; first [reflexivity | assumption]
    | eapply carries_unresolved; [eassumption | |];
      rewrite ?dict_get_set; simpl; first [reflexivity | assumption] ].
Qed.


Lemma sample_document (ie id : bool) :
  ConcatJobs.build_unified_structure Sample.all_jobs Sample.employers
    Sample.jobsources ie id Sample.now = Ok (Sample.document ie id).
Proof. destruct ie, id; vm_compute; reflexivity. Qed.

Lemma sample_document_with_original :
  ConcatJobs.main Sample.active_with_original Sample.archived Sample.employers
    Sample.jobsources false false Sample.now = Ok Sample.document_with_original.
Proof. vm_compute. reflexivity. Qed.


(** ** What the embedded references hold *)

Lemma lookup_get_In {V : Type} (k : key) (d : list (key * V)) (v : V) :
  lookup_get k d = Some v -> In v (lookup_values d).
Proof.
  induction d as [|[k' v'] d IH]; simpl; [discriminate|].
  destruct (key_eqb k' k).
  - intros H. injection H as ->. left. reflexivity.
  - intros H. right. apply IH. exact H.
Qed.

Lemma item_Ok (d : list (string * pyval)) (k : string) (v : pyval) :
  item d k = Ok v -> dict_get k d = Some v.
Proof. unfold item. destruct (dict_get k d); intros H; congruence. Qed.

Lemma sample_source_ref_not_full : ~ source_refs_are_full (Sample.document false true).
Proof.
  intros H.
  destruct (H (List.nth 1 (ConcatJobs.jobs (Sample.document false true)) [])
              [("jobsource_id", VInt 7); ("jobsource", VStr "web")])
    as (source & Hin & Hfull).
  - vm_compute. right. left. reflexivity.
  - vm_compute. reflexivity.
  - vm_compute in Hin. destruct Hin as [<-|[]].
    specialize (Hfull "description" (VStr "Scraped from the careers page")).
    vm_compute in Hfull. specialize (Hfull eq_refl). discriminate.
Qed.

(** ** Provenance and the prior-system identifier *)

Lemma resolve_employer_get (el : list (key * list (string * pyval)))
    (row : Series) (e e' : list (string * pyval)) (k : string) :
  ConcatJobs.resolve_employer el row e = Ok e' ->
  k <> "employer" -> k <> "employer_id" -> dict_get k e' = dict_get k e.
Proof.
  intros H Hk1 Hk2. apply resolve_employer_spec in H as (fk & _ & H).
  destruct H as [(_ & k0 & emp & i & n & a & l & _ & _ & _ & _ & _ & _ & Heq)|(_ & Heq)];
    rewrite Heq, ?dict_get_set_ne by assumption; reflexivity.
Qed.

Lemma resolve_jobsource_get (sl : list (key * list (string * pyval)))
    (row : Series) (e e' : list (string * pyval)) (k : string) :
  ConcatJobs.resolve_jobsource sl row e = Ok e' ->
  k <> "jobsource" -> k <> "jobsource_id" -> dict_get k e' = dict_get k e.
Proof.
  intros H Hk1 Hk2. apply resolve_jobsource_spec in H as (fk & _ & H).
  destruct H as [(_ & k0 & src & i & n & _ & _ & _ & _ & Heq)|(_ & Heq)];
    rewrite Heq, ?dict_get_set_ne by assumption; reflexivity.
Qed.

(** The provenance tag of a record is the one of its row. *)
Lemma job_entry_source_table (el sl : list (key * list (string * pyval)))
    (ie id : bool) (row : Series) (entry : list (string * pyval)) :
  ConcatJobs.job_entry el sl ie id row = Ok entry ->
  dict_get "source_table" entry = dict_get "source_table" row.
Proof.
  intros H.
  apply job_entry_steps in H as (e0 & e1 & e2 & e3 & e4 & H0 & H1 & H2 & H3 & H4 & H5).
  rewrite (resolve_jobsource_get _ _ _ _ "source_table" H5) by discriminate.
  rewrite (resolve_employer_get _ _ _ _ "source_table" H4) by discriminate.
  rewrite (add_original_id_get _ _ _ H3) by discriminate.
  rewrite (add_embedding_get _ _ _ _ H2) by discriminate.
  rewrite (add_description_get _ _ _ _ H1) by discriminate.
  apply base_entry_keys in H0 as (_ & (st & Hst & ->) & _).
  apply item_Ok in Hst. congruence.
Qed.

(** A record has an [original_id] exactly when its row has one that is not
    missing. *)
Lemma job_entry_original_id (el sl : list (key * list (string * pyval)))
    (ie id : bool) (row : Series) (entry : list (string * pyval)) :
  ConcatJobs.job_entry el sl ie id row = Ok entry ->
  pd_isna (get row "original_id") = Ok true ->
  dict_get "original_id" entry = None.
Proof.
  intros H Hna.
  apply job_entry_steps in H as (e0 & e1 & e2 & e3 & e4 & H0 & H1 & H2 & H3 & H4 & H5).
  rewrite (resolve_jobsource_get _ _ _ _ "original_id" H5) by discriminate.
  rewrite (resolve_employer_get _ _ _ _ "original_id" H4) by discriminate.
  unfold ConcatJobs.add_original_id, pd_notna in H3. rewrite Hna in H3.
  simpl in H3. injection H3 as <-.
  rewrite (add_embedding_get _ _ _ _ H2) by discriminate.
  rewrite (add_description_get _ _ _ _ H1) by discriminate.
  apply base_entry_keys in H0 as (Hkeys & _).
  apply dict_get_not_key. rewrite Hkeys. simpl.
  intros H; repeat (destruct H as [H|H]; [discriminate|]); contradiction.
Qed.

(** The row that reaches the assembler at place [i].  Below the number of
    active rows it comes from the active relation: its tag is "active" and
    its [original_id] is the row's own cell, or None when the relation has
    no such column.  Beyond, it comes from the archived relation and its tag
    is "archived". *)
Lemma main_row_provenance (a b parsed : DataFrame) (i : nat) (row : Series) :
  ConcatJobs.parse_categorized_data (ConcatJobs.normalize_job_schemas a b) = Ok parsed ->
  rows parsed !! i = Some row ->
  (exists r, rows a !! i = Some r
     /\ dict_get "source_table" row = Some (VStr "active")
     /\ dict_get "original_id" row
        = Some (if has_column "original_id" a then cell r "original_id" else VNone))
  \/ ((length (rows a) <= i)%nat
      /\ dict_get "source_table" row = Some (VStr "archived")).
Proof.
  intros Hp Hi.
  apply parse_categorized_data_rows in Hp as (_ & Hp).
  destruct (for_each_lookup _ _ _ Hp i row Hi) as (nrow & Hn & Hrow).
  apply bind_Ok in Hrow as (v & _ & Hrow). apply bind_Ok in Hrow as (p & _ & Hrow).
  injection Hrow as <-.
  destruct (rows_normalize_job_schemas a b)
    as (cols & inject & _ & _ & _ & Hst & Hoi & _ & Hsame & Hnone & Hrows).
  apply existsb_eqb_In in Hst, Hoi.
  rewrite Hrows in Hn. apply lookup_app_Some in Hn as [Hn|(Hlen & Hn)].
  - left. rewrite list_lookup_fmap in Hn.
    destruct (rows a !! i) as [r|]; [|discriminate].
    simpl in Hn. injection Hn as <-. exists r. split; [reflexivity|].
    rewrite !dict_get_set_ne by discriminate.
    rewrite !dict_get_reindex, Hst, Hoi, dict_get_set_eq. split; [reflexivity|].
    rewrite dict_get_set_ne by discriminate.
    destruct (has_column "original_id" a) eqn:Ec.
    + apply has_column_In in Ec. rewrite (Hsame r Ec). reflexivity.
    + rewrite Hnone; [reflexivity|].
      intros Hc. apply has_column_In in Hc. congruence.
  - right. rewrite length_map in Hlen. split; [exact Hlen|].
    rewrite list_lookup_fmap in Hn.
    destruct (rows b !! (i - _)%nat); [|discriminate].
    simpl in Hn. injection Hn as <-.
    rewrite dict_get_set_ne by discriminate.
    rewrite dict_get_reindex, Hst, dict_get_set_eq. reflexivity.
Qed.

(** A row whose [original_id] is there gives a record that has the field, and
    a row on which [pd.notna] raises gives no record. *)
Lemma job_entry_original_id_kept (el sl : list (key * list (string * pyval)))
    (ie id : bool) (row : Series) (entry : list (string * pyval)) :
  ConcatJobs.job_entry el sl ie id row = Ok entry ->
  pd_isna (get row "original_id") <> Ok true ->
  dict_get "original_id" entry <> None.
Proof.
  intros H Hna.
  apply job_entry_steps in H as (e0 & e1 & e2 & e3 & e4 & H0 & H1 & H2 & H3 & H4 & H5).
  rewrite (resolve_jobsource_get _ _ _ _ "original_id" H5) by discriminate.
  rewrite (resolve_employer_get _ _ _ _ "original_id" H4) by discriminate.
  unfold ConcatJobs.add_original_id, pd_notna in H3.
  destruct (pd_isna (get row "original_id")) as [[]|]; [contradiction| |discriminate].
  simpl in H3. apply bind_Ok in H3 as (v & _ & H3).
  apply bind_Ok in H3 as (z & _ & H3). injection H3 as <-.
  rewrite dict_get_set_eq. discriminate.
Qed.

Lemma sample_active_has_original_id : ~ provenance_rule Sample.document_with_original.
Proof.
  intros H.
  destruct (H (List.nth 0 (ConcatJobs.jobs Sample.document_with_original) []))
    as (_ & Habs).
  - vm_compute. left. reflexivity.
  - vm_compute in Habs. specialize (Habs eq_refl). discriminate.
Qed.

(** C8, as the code has it.  Every record of the document that [main]
    assembles has the provenance "active" or "archived", "active" exactly
    for the rows of the active relation.  A record of a row of the active
    relation has no [original_id] field exactly when that row has no value
    to give: the active relation has no [original_id] column, or the row's
    cell under it is missing. *)
Theorem provenance_and_original_id
    (a b employers jobsources : DataFrame) (ie xd : bool) (now : string)
    (u : ConcatJobs.unified) (i : nat) (j : list (string * pyval))
    (Hmain : ConcatJobs.main a b employers jobsources ie xd now = Ok u)
    (Hj : ConcatJobs.jobs u !! i = Some j) :
  (dict_get "source_table" j = Some (VStr "active")
   \/ dict_get "source_table" j = Some (VStr "archived"))
  /\ (dict_get "source_table" j = Some (VStr "active") <-> (i < length (rows a))%nat)
  /\ (forall r, rows a !! i = Some r ->
        (dict_get "original_id" j = None
         <-> has_column "original_id" a = false
             \/ pd_isna (cell r "original_id") = Ok true)).
Proof.
  apply main_stages in Hmain as (parsed & Hp & Hu).
  apply build_unified_structure_jobs in Hu as (el & sl & _ & _ & Hjobs & _).
  destruct (for_each_lookup _ _ _ Hjobs i j Hj) as (row & Hrow & Hje).
  rewrite (job_entry_source_table _ _ _ _ _ _ Hje).
  destruct (main_row_provenance a b parsed i row Hp Hrow)
    as [(r & Hr & Hst & Hoi)|(Hlen & Hst)]; rewrite Hst.
  - split; [left; reflexivity|]. split.
    + split; [intros _; eapply lookup_lt_Some; exact Hr | reflexivity].
    + intros r' Hr'. assert (r' = r) by congruence. subst r'.
      assert (Hget : get row "original_id"
                     = if has_column "original_id" a
                       then cell r "original_id" else VNone).
      { unfold get. rewrite Hoi. reflexivity. }
      split.
      * intros Hnone.
        destruct (pd_isna (get row "original_id")) as [[]|e] eqn:Hna.
        -- rewrite Hget in Hna.
           destruct (has_column "original_id" a); [right; exact Hna | left; reflexivity].
        -- exfalso. eapply job_entry_original_id_kept;
             [exact Hje | rewrite Hna; discriminate | exact Hnone].
        -- exfalso. eapply job_entry_original_id_kept;
             [exact Hje | rewrite Hna; discriminate | exact Hnone].
      * intros Hmissing. apply (job_entry_original_id _ _ _ _ _ _ Hje).
        rewrite Hget.
        destruct Hmissing as [->|Hna]; [reflexivity|].
        destruct (has_column "original_id" a); [exact Hna | reflexivity].
  - split; [right; reflexivity|]. split.
    + split; [discriminate | lia].
    + intros r Hr. apply lookup_lt_Some in Hr. lia.
Qed.

(** The first record of the sample, an active job of a relation that has no
    [original_id] column. *)
Lemma provenance_and_original_id_witness :
  (dict_get "source_table" (List.nth 0 (ConcatJobs.jobs (Sample.document false true)) [])
   = Some (VStr "active")
   \/ dict_get "source_table" (List.nth 0 (ConcatJobs.jobs (Sample.document false true)) [])
      = Some (VStr "archived"))
  /\ (dict_get "source_table" (List.nth 0 (ConcatJobs.jobs (Sample.document false true)) [])
      = Some (VStr "active") <-> (0 < length (rows Sample.active))%nat)
  /\ (forall r, rows Sample.active !! 0%nat = Some r ->
        (dict_get "original_id"
           (List.nth 0 (ConcatJobs.jobs (Sample.document false true)) []) = None
         <-> has_column "original_id" Sample.active = false
             \/ pd_isna (cell r "original_id") = Ok true)).
Proof.
  apply (provenance_and_original_id Sample.active Sample.archived Sample.employers
           Sample.jobsources false false Sample.now (Sample.document false true) 0).
  - vm_compute. reflexivity.
  - vm_compute. reflexivity.
Defined.

(** ** The options of the assembler *)

Lemma dict_without_set_eq {V : Type} (k : string) (v : V) (d : list (string * V)) :
  dict_without k (dict_set k v d) = dict_without k d.
Proof.
  unfold dict_without. induction d as [|[k' v'] d IH]; simpl.
  - rewrite String.eqb_refl. reflexivity.
  - destruct (String.eqb_spec k k') as [->|Hk]; simpl.
    + rewrite String.eqb_refl. reflexivity.
    + rewrite IH. reflexivity.
Qed.

Lemma dict_without_set_ne {V : Type} (k k' : string) (v : V) (d : list (string * V)) :
  k' <> k -> dict_without k (dict_set k' v d) = dict_set k' v (dict_without k d).
Proof.
  intros Hne. unfold dict_without. induction d as [|[k0 v0] d IH]; simpl.
  - destruct (String.eqb_spec k' k); [contradiction | reflexivity].
  - destruct (String.eqb_spec k' k0) as [->|Hk]; simpl.
    + destruct (String.eqb_spec k0 k); [contradiction|]. simpl.
      rewrite String.eqb_refl. reflexivity.
    + destruct (String.eqb_spec k0 k) as [->|Hk0]; simpl.
      * exact IH.
      * destruct (String.eqb_spec k' k0); [contradiction|]. rewrite IH. reflexivity.
Qed.

Lemma without_optional_set (k : string) (v : pyval) (d : list (string * pyval)) :
  k <> "description" -> k <> "job_embedding" ->
  without_optional (dict_set k v d) = dict_set k v (without_optional d).
Proof.
  intros H1 H2. unfold without_optional.
  rewrite dict_without_set_ne by exact H1.
  rewrite dict_without_set_ne by exact H2. reflexivity.
Qed.

Lemma add_description_without (b : bool) (row : Series) (e e' : list (string * pyval)) :
  ConcatJobs.add_description b row e = Ok e' -> without_optional e' = without_optional e.
Proof.
  unfold ConcatJobs.add_description. destruct b; intros H.
  - invert_bind H. injection H as <-. unfold without_optional.
    rewrite dict_without_set_eq. reflexivity.
  - injection H as <-. reflexivity.
Qed.

Lemma add_embedding_without (b : bool) (row : Series) (e e' : list (string * pyval)) :
  ConcatJobs.add_embedding b row e = Ok e' -> without_optional e' = without_optional e.
Proof.
  unfold ConcatJobs.add_embedding. destruct b; intros H.
  - invert_bind H. injection H as <-. unfold without_optional.
    rewrite dict_without_set_ne by discriminate.
    rewrite dict_without_set_eq. reflexivity.
  - injection H as <-. reflexivity.
Qed.

Ltac step_bind H :=
  let x := fresh "x" in
  let E := fresh "E" in
  apply bind_Ok in H as (x & E & H); rewrite E; simpl.

(** The three last steps do the same to a record with or without the optional
    fields. *)
Lemma add_original_id_without (row : Series) (e e' : list (string * pyval)) :
  ConcatJobs.add_original_id row e = Ok e' ->
  ConcatJobs.add_original_id row (without_optional e) = Ok (without_optional e').
Proof.
  unfold ConcatJobs.add_original_id. intros H.
  apply bind_Ok in H as (b & -> & H). simpl. destruct b.
  - do 2 step_bind H. injection H as <-.
    rewrite without_optional_set by discriminate. reflexivity.
  - injection H as <-. reflexivity.
Qed.

Lemma resolve_employer_without (el : list (key * list (string * pyval)))
    (row : Series) (e e' : list (string * pyval)) :
  ConcatJobs.resolve_employer el row e = Ok e' ->
  ConcatJobs.resolve_employer el row (without_optional e) = Ok (without_optional e').
Proof.
  unfold ConcatJobs.resolve_employer. intros H.
  step_bind H. apply bind_Ok in H as (found & -> & H).
  simpl. destruct found as [emp|].
  - do 4 step_bind H. injection H as <-.
    rewrite without_optional_set by discriminate. reflexivity.
  - step_bind H. injection H as <-.
    rewrite !without_optional_set by discriminate. reflexivity.
Qed.

Lemma resolve_jobsource_without (sl : list (key * list (string * pyval)))
    (row : Series) (e e' : list (string * pyval)) :
  ConcatJobs.resolve_jobsource sl row e = Ok e' ->
  ConcatJobs.resolve_jobsource sl row (without_optional e) = Ok (without_optional e').
Proof.
  unfold ConcatJobs.resolve_jobsource. intros H.
  step_bind H. apply bind_Ok in H as (found & -> & H).
  simpl. destruct found as [src|].
  - do 2 step_bind H. injection H as <-.
    rewrite without_optional_set by discriminate. reflexivity.
  - step_bind H. injection H as <-.
    rewrite !without_optional_set by discriminate. reflexivity.
Qed.

(** A record without its optional fields does not depend on the options. *)
Lemma job_entry_without_optional (el sl : list (key * list (string * pyval)))
    (ie id : bool) (row : Series) (entry : list (string * pyval)) :
  ConcatJobs.job_entry el sl ie id row = Ok entry ->
  exists e0 e3 e4,
    ConcatJobs.base_entry row = Ok e0
    /\ ConcatJobs.add_original_id row (without_optional e0) = Ok e3
    /\ ConcatJobs.resolve_employer el row e3 = Ok e4
    /\ ConcatJobs.resolve_jobsource sl row e4 = Ok (without_optional entry).
Proof.
  intros H.
  apply job_entry_steps in H as (e0 & e1 & e2 & e3 & e4 & H0 & H1 & H2 & H3 & H4 & H5).
  exists e0, (without_optional e3), (without_optional e4).
  split; [exact H0|].
  apply add_description_without in H1. apply add_embedding_without in H2.
  apply add_original_id_without in H3. rewrite H2, H1 in H3.
  split; [exact H3|]. split.
  - apply resolve_employer_without. exact H4.
  - apply resolve_jobsource_without. exact H5.
Qed.

Lemma job_entry_options (el sl : list (key * list (string * pyval)))
    (ie id : bool) (row : Series) (entry : list (string * pyval)) :
  ConcatJobs.job_entry el sl ie id row = Ok entry ->
  dict_has "job_embedding" entry = ie /\ dict_has "description" entry = id.
Proof.
  intros H.
  apply job_entry_steps in H as (e0 & e1 & e2 & e3 & e4 & H0 & H1 & H2 & H3 & H4 & H5).
  unfold dict_has.
  rewrite !(resolve_jobsource_get _ _ _ _ _ H5) by discriminate.
  rewrite !(resolve_employer_get _ _ _ _ _ H4) by discriminate.
  rewrite !(add_original_id_get _ _ _ H3) by discriminate.
  apply base_entry_keys in H0 as (Hkeys & _).
  assert (Hd : dict_get "description" e0 = None).
  { apply dict_get_not_key. rewrite Hkeys. simpl.
    intros H; repeat (destruct H as [H|H]; [discriminate|]); contradiction. }
  assert (He : dict_get "job_embedding" e0 = None).
  { apply dict_get_not_key. rewrite Hkeys. simpl.
    intros H; repeat (destruct H as [H|H]; [discriminate|]); contradiction. }
  unfold ConcatJobs.add_description in H1. unfold ConcatJobs.add_embedding in H2.
  destruct id, ie; invert_bind H1; invert_bind H2;
    injection H1 as <-; injection H2 as <-;
    rewrite ?dict_get_set; simpl; rewrite ?Hd, ?He; split; reflexivity.
Qed.

(** The options decide no failure but that of reading their own column: a
    run with both options set succeeds only if the run with any other
    setting does. *)
Lemma job_entry_fewer_options (el sl : list (key * list (string * pyval)))
    (ie id : bool) (row : Series) (entry : list (string * pyval)) :
  ConcatJobs.job_entry el sl true true row = Ok entry ->
  exists entry', ConcatJobs.job_entry el sl ie id row = Ok entry'.
Proof.
  intros H.
  apply job_entry_steps in H as (e0 & e1 & e2 & e3 & e4 & H0 & H1 & H2 & H3 & H4 & H5).
  assert (Hd : exists d1, ConcatJobs.add_description id row e0 = Ok d1).
  { destruct id; [eauto | simpl; eauto]. }
  destruct Hd as (d1 & Hd1).
  assert (Hb : exists d2, ConcatJobs.add_embedding ie row d1 = Ok d2).
  { destruct ie; [|simpl; eauto].
    unfold ConcatJobs.add_embedding in *. apply bind_Ok in H2 as (x & -> & _).
    simpl. eauto. }
  destruct Hb as (d2 & Hd2).
  pose proof (add_description_without _ _ _ _ H1) as W1.
  pose proof (add_embedding_without _ _ _ _ H2) as W2.
  pose proof (add_description_without _ _ _ _ Hd1) as V1.
  pose proof (add_embedding_without _ _ _ _ Hd2) as V2.
  unfold ConcatJobs.job_entry. rewrite H0. simpl. rewrite Hd1. simpl. rewrite Hd2. simpl.
  assert (H3' : exists d3, ConcatJobs.add_original_id row d2 = Ok d3).
  { unfold ConcatJobs.add_original_id in *.
    apply bind_Ok in H3 as (b & -> & H3). simpl. destruct b; [|eauto].
    apply bind_Ok in H3 as (v & -> & H3). simpl.
    apply bind_Ok in H3 as (z & -> & H3). simpl. eauto. }
  destruct H3' as (d3 & ->). simpl.
  assert (H4' : exists d4, ConcatJobs.resolve_employer el row d3 = Ok d4).
  { unfold ConcatJobs.resolve_employer in *.
    apply bind_Ok in H4 as (fk & -> & H4). simpl.
    apply bind_Ok in H4 as (found & -> & H4). simpl.
    destruct found.
    - do 4 (let x := fresh in let E := fresh in
            apply bind_Ok in H4 as (x & E & H4); rewrite E; simpl).
      eauto.
    - apply bind_Ok in H4 as (b & -> & H4). simpl. eauto. }
  destruct H4' as (d4 & ->). simpl.
  unfold ConcatJobs.resolve_jobsource in *.
  apply bind_Ok in H5 as (fk & -> & H5). simpl.
  apply bind_Ok in H5 as (found & -> & H5). simpl.
  destruct found.
  - do 2 (let x := fresh in let E := fresh in
          apply bind_Ok in H5 as (x & E & H5); rewrite E; simpl).
    eauto.
  - apply bind_Ok in H5 as (b & -> & H5). simpl. eauto.
Qed.

Lemma build_unified_structure_fewer_options
    (jobs employers jobsources : DataFrame) (ie id : bool) (now : string)
    (u : ConcatJobs.unified) :
  ConcatJobs.build_unified_structure jobs employers jobsources true true now = Ok u ->
  exists u', ConcatJobs.build_unified_structure jobs employers jobsources ie id now
             = Ok u'.
Proof.
  intros H. apply build_unified_structure_jobs in H as (el & sl & Hel & Hsl & Hj & _).
  unfold ConcatJobs.build_unified_structure. rewrite Hel. simpl. rewrite Hsl. simpl.
  destruct (for_each_total (ConcatJobs.job_entry el sl ie id) (rows jobs)) as (js & ->).
  - apply Forall_forall. intros row Hrow.
    apply list_elem_of_lookup in Hrow as (i & Hi).
    destruct (for_each_lookup_rev _ _ _ Hj i row Hi) as (e & _ & He).
    eapply job_entry_fewer_options. exact He.
  - simpl. eauto.
Qed.

(** C9. Two runs of the assembler on the same relations under any two
    settings of [include_embeddings] and [include_descriptions] give job
    collections of one length whose records, taken in order, are equal once
    the [job_embedding] and [description] fields are left out; and a record
    has each of these two fields exactly when its option is set. *)
Theorem options_select_fields_only
    (jobs employers jobsources : DataFrame) (now1 now2 : string)
    (ie1 id1 ie2 id2 : bool) (u1 u2 : ConcatJobs.unified)
    (H1 : ConcatJobs.build_unified_structure jobs employers jobsources ie1 id1 now1 = Ok u1)
    (H2 : ConcatJobs.build_unified_structure jobs employers jobsources ie2 id2 now2 = Ok u2) :
  length (ConcatJobs.jobs u1) = length (ConcatJobs.jobs u2)
  /\ List.map without_optional (ConcatJobs.jobs u1)
     = List.map without_optional (ConcatJobs.jobs u2)
  /\ Forall (fun j => dict_has "job_embedding" j = ie1 /\ dict_has "description" j = id1)
       (ConcatJobs.jobs u1)
  /\ Forall (fun j => dict_has "job_embedding" j = ie2 /\ dict_has "description" j = id2)
       (ConcatJobs.jobs u2).
Proof.
  apply build_unified_structure_jobs in H1 as (el & sl & Hel & Hsl & Hj1 & _).
  apply build_unified_structure_jobs in H2 as (el' & sl' & Hel' & Hsl' & Hj2 & _).
  assert (el' = el) by congruence. assert (sl' = sl) by congruence. subst el' sl'.
  clear Hel' Hsl'.
  assert (Hlen : length (ConcatJobs.jobs u1) = length (ConcatJobs.jobs u2)).
  { apply for_each_length in Hj1, Hj2. congruence. }
  split; [exact Hlen|]. split; [|split].
  - apply list_eq. intros i. rewrite !list_lookup_fmap.
    destruct (ConcatJobs.jobs u1 !! i) as [j1|] eqn:E1.
    + destruct (for_each_lookup _ _ _ Hj1 i j1 E1) as (row & Hrow & Hje1).
      destruct (for_each_lookup_rev _ _ _ Hj2 i row Hrow) as (j2 & E2 & Hje2).
      rewrite E2. simpl. f_equal.
      apply job_entry_without_optional in Hje1 as (a0 & a3 & a4 & Ha0 & Ha3 & Ha4 & Ha).
      apply job_entry_without_optional in Hje2 as (b0 & b3 & b4 & Hb0 & Hb3 & Hb4 & Hb).
      congruence.
    + apply lookup_ge_None in E1. rewrite Hlen in E1.
      apply lookup_ge_None in E1. rewrite E1. reflexivity.
  - apply Forall_forall. intros j Hj.
    apply list_elem_of_lookup in Hj as (i & Hi).
    destruct (for_each_lookup _ _ _ Hj1 i j Hi) as (row & _ & Hje).
    eapply job_entry_options. exact Hje.
  - apply Forall_forall. intros j Hj.
    apply list_elem_of_lookup in Hj as (i & Hi).
    destruct (for_each_lookup _ _ _ Hj2 i j Hi) as (row & _ & Hje).
    eapply job_entry_options. exact Hje.
Qed.

Lemma options_select_fields_only_witness :
  length (ConcatJobs.jobs (Sample.document true true))
  = length (ConcatJobs.jobs (Sample.document false false))
  /\ List.map without_optional (ConcatJobs.jobs (Sample.document true true))
     = List.map without_optional (ConcatJobs.jobs (Sample.document false false))
  /\ Forall (fun j => dict_has "job_embedding" j = true /\ dict_has "description" j = true)
       (ConcatJobs.jobs (Sample.document true true))
  /\ Forall (fun j => dict_has "job_embedding" j = false /\ dict_has "description" j = false)
       (ConcatJobs.jobs (Sample.document false false)).
Proof.
  apply (options_select_fields_only Sample.all_jobs Sample.employers Sample.jobsources
           Sample.now Sample.now).
  - vm_compute. reflexivity.
  - vm_compute. reflexivity.
Defined.

(** ** The lookup indices *)

Lemma key_eqb_eq (a b : key) : key_eqb a b = true -> a = b /\ a <> KNaN.
Proof.
  destruct a, b; simpl; intros H; try discriminate.
  - split; [reflexivity | discriminate].
  - apply Bool.eqb_prop in H. subst. split; [reflexivity | discriminate].
  - apply andb_true_iff in H as (Hn & Hd).
    apply Z.eqb_eq in Hn. apply Pos.eqb_eq in Hd. subst.
    split; [reflexivity | discriminate].
  - apply String.eqb_eq in H. subst. split; [reflexivity | discriminate].
Qed.

Lemma key_eqb_refl (k : key) : k <> KNaN -> key_eqb k k = true.
Proof.
  destruct k; simpl; intros H.
  - reflexivity.
  - contradiction.
  - apply Bool.eqb_reflx.
  - rewrite Z.eqb_refl, Pos.eqb_refl. reflexivity.
  - apply String.eqb_refl.
Qed.

Lemma lookup_get_set {V : Type} (k k' : key) (v : V) (d : list (key * V)) :
  lookup_get k (lookup_set k' v d) =
  if key_eqb k' k then Some v else lookup_get k d.
Proof.
  induction d as [|[k0 v0] d IH]; simpl; [reflexivity|].
  destruct (key_eqb k0 k') eqn:E0; simpl.
  - apply key_eqb_eq in E0 as (-> & _).
    destruct (key_eqb k' k); reflexivity.
  - rewrite IH. destruct (key_eqb k0 k) eqn:E1; [|reflexivity].
    destruct (key_eqb k' k) eqn:E2; [|reflexivity].
    apply key_eqb_eq in E1 as (-> & _). apply key_eqb_eq in E2 as (-> & Hn).
    rewrite key_eqb_refl in E0 by exact Hn. discriminate.
Qed.

Lemma lookup_get_app {V : Type} (k : key) (d1 d2 : list (key * V)) :
  lookup_get k (d1 ++ d2) =
  match lookup_get k d1 with Some v => Some v | None => lookup_get k d2 end.
Proof.
  induction d1 as [|[k0 v0] d1 IH]; simpl; [reflexivity|].
  destruct (key_eqb k0 k); [reflexivity | exact IH].
Qed.

(** Last occurrence wins. *)
Lemma lookup_get_index_all {V : Type} (k : key) (pairs d : list (key * V)) :
  lookup_get k (index_all pairs d) =
  match lookup_get k (rev pairs) with Some v => Some v | None => lookup_get k d end.
Proof.
  unfold index_all. revert d.
  induction pairs as [|[k' v'] pairs IH]; intros d; simpl; [reflexivity|].
  rewrite IH, lookup_get_app, lookup_get_set. simpl.
  destruct (lookup_get k (rev pairs)); [reflexivity|].
  destruct (key_eqb k' k); reflexivity.
Qed.











Lemma build_lookup_index_all
    (entry_of : Series -> result (pyval * list (string * pyval)))
    (rs : list Series) (d lookup : list (key * list (string * pyval))) :
  ConcatJobs.build_lookup entry_of rs d = Ok lookup ->
  exists pairs, keyed_entries entry_of rs = Ok pairs /\ lookup = index_all pairs d.
Proof.
  unfold keyed_entries. revert d.
  induction rs as [|row rs IH]; intros d H; simpl in *.
  - injection H as <-. exists []. split; reflexivity.
  - apply bind_Ok in H as (e & He & H). apply bind_Ok in H as (k & Hk & H).
    rewrite He. simpl. rewrite Hk. simpl.
    apply IH in H as (pairs & Hp & ->). rewrite Hp. simpl.
    exists ((k, snd e) :: pairs). split; reflexivity.
Qed.

(** The index has a key exactly when some row of the relation carries it. *)
Lemma lookup_get_Some_iff {V : Type} (k : key) (d : list (key * V)) :
  lookup_get k d <> None <-> exists p, In p d /\ key_eqb (fst p) k = true.
Proof.
  induction d as [|[k0 v0] d IH]; simpl.
  - split; [congruence | intros (p & [] & _)].
  - destruct (key_eqb k0 k) eqn:E.
    + split; [|discriminate]. intros _. exists (k0, v0). split; [left; reflexivity | exact E].
    + rewrite IH. split.
      * intros (p & Hp & Hk). exists p. split; [right; exact Hp | exact Hk].
      * intros (p & [<-|Hp] & Hk); [simpl in Hk; congruence|]. eauto.
Qed.

Lemma index_has_key_iff (entry_of : Series -> result (pyval * list (string * pyval)))
    (rs : list Series) (lookup : list (key * list (string * pyval))) (k : key) :
  ConcatJobs.build_lookup entry_of rs [] = Ok lookup ->
  exists pairs, keyed_entries entry_of rs = Ok pairs
    /\ (lookup_get k lookup <> None
        <-> exists p, In p pairs /\ key_eqb (fst p) k = true).
Proof.
  intros H. apply build_lookup_index_all in H as (pairs & Hp & ->).
  exists pairs. split; [exact Hp|].
  rewrite lookup_get_index_all. simpl.
  transitivity (lookup_get k (rev pairs) <> None).
  - destruct (lookup_get k (rev pairs)); split; congruence.
  - rewrite lookup_get_Some_iff. split; intros (p & Hin & Hk); exists p; split;
      try exact Hk; apply in_rev; try exact Hin. rewrite rev_involutive. exact Hin.
Qed.

(** ** The projection *)

Lemma alloc_spec (o : FreshDataset.object) (h h' : gmap positive FreshDataset.object)
    (l : positive) :
  FreshDataset.alloc o h = (h', l) -> h !! l = None /\ h' = <[l := o]> h.
Proof.
  unfold FreshDataset.alloc. intros H. injection H as <- <-.
  split; [|reflexivity].
  apply not_elem_of_dom. apply is_fresh.
Qed.

Lemma Forall2_impl_Forall {A B : Type} (P : A -> Prop) (R R' : A -> B -> Prop)
    (xs : list A) (ys : list B) :
  Forall P xs -> Forall2 R xs ys ->
  (forall x y, P x -> R x y -> R' x y) -> Forall2 R' xs ys.
Proof.
  intros HP HR Himpl. revert HP.
  induction HR as [|x y xs ys Hxy HR IH]; intros HP; constructor.
  - apply Himpl; [|exact Hxy]. apply Forall_cons in HP as (Hx & _). exact Hx.
  - apply IH. apply Forall_cons in HP as (_ & HP). exact HP.
Qed.

Lemma clean_jobs_spec (js : list FreshDataset.value) :
  forall (h : gmap positive FreshDataset.object) (jobs_cleaned : positive)
         (acc : list FreshDataset.value),
    h !! jobs_cleaned = Some (FreshDataset.List acc) ->
    Forall (fun job => exists entries, is_record h job entries) js ->
    exists h' copies,
      FreshDataset.clean_jobs h jobs_cleaned js = Ok h'
      /\ (forall l o, l <> jobs_cleaned -> h !! l = Some o -> h' !! l = Some o)
      /\ h' !! jobs_cleaned = Some (FreshDataset.List (acc ++ copies))
      /\ Forall2 (is_cleaned_copy h h') js copies.
Proof.
  induction js as [|job js IH]; intros h jc acc Hjc Hjs.
  - exists h, []. simpl. rewrite app_nil_r. repeat split; auto.
  - apply Forall_cons in Hjs as ((entries & lj & -> & Hlj) & Hjs).
    cbn [FreshDataset.clean_jobs FreshDataset.items]. rewrite Hlj.
    cbn [bind].
    destruct (FreshDataset.alloc
                (FreshDataset.Dict (dict_without "CategorizedData" entries)) h)
      as [h1 l1] eqn:Ea.
    apply alloc_spec in Ea as (Hl1 & ->).
    assert (Hne : l1 <> jc) by congruence.
    unfold FreshDataset.append.
    rewrite lookup_insert_ne by exact Hne. rewrite Hjc. cbn [bind].
    set (h2 := <[jc := FreshDataset.List (acc ++ [FreshDataset.Ref l1])]>
                 (<[l1 := FreshDataset.Dict (dict_without "CategorizedData" entries)]> h)).
    assert (Hkeep : forall l o, l <> jc -> h !! l = Some o -> h2 !! l = Some o).
    { intros l o Hl Ho. unfold h2.
      rewrite lookup_insert_ne by congruence.
      rewrite lookup_insert_ne by congruence. exact Ho. }
    assert (Hback : forall l, h2 !! l = None -> h !! l = None).
    { intros l Hl. unfold h2 in Hl.
      destruct (decide (jc = l)) as [->|Hjl];
        [rewrite lookup_insert_eq in Hl; discriminate|].
      rewrite lookup_insert_ne in Hl by exact Hjl.
      destruct (decide (l1 = l)) as [->|Hl1l];
        [rewrite lookup_insert_eq in Hl; discriminate|].
      rewrite lookup_insert_ne in Hl by exact Hl1l. exact Hl. }
    destruct (IH h2 jc (acc ++ [FreshDataset.Ref l1]))
      as (h' & copies & Hrun & Hpres & Hout & Hcopies).
    + unfold h2. apply lookup_insert_eq.
    + eapply Forall_impl; [exact Hjs|].
      intros j (its & l & -> & Hl). exists its, l. split; [reflexivity|].
      apply Hkeep; [congruence | exact Hl].
    + exists h', (FreshDataset.Ref l1 :: copies).
      split; [exact Hrun|]. split; [|split].
      * intros l o Hl Ho. apply Hpres; [exact Hl|]. apply Hkeep; assumption.
      * rewrite Hout, <- app_assoc. reflexivity.
      * constructor.
        -- exists entries, l1. split; [exists lj; split; [reflexivity | exact Hlj]|].
           split; [reflexivity|]. split; [exact Hl1|].
           apply Hpres; [exact Hne|]. unfold h2.
           rewrite lookup_insert_ne by congruence. apply lookup_insert_eq.
        -- eapply Forall2_impl_Forall; [exact Hjs | exact Hcopies|].
           intros j c (its0 & l0 & -> & Hl0) (its & l & (lj' & Hj & Hlj') & -> & Hnone & Hcopy).
           injection Hj as <-.
           assert (Hl0' : h2 !! l0 = Some (FreshDataset.Dict its0)).
           { apply Hkeep; [congruence | exact Hl0]. }
           assert (its = its0) by congruence. subst its.
           exists its0, l. split; [exists l0; split; [reflexivity | exact Hl0]|].
           split; [reflexivity|]. split; [apply Hback; exact Hnone | exact Hcopy].
Qed.

Lemma lookup_None_mono (h h' : gmap positive FreshDataset.object) (l : positive) :
  (forall l o, h !! l = Some o -> h' !! l = Some o) ->
  h' !! l = None -> h !! l = None.
Proof.
  intros Hsub Hl. destruct (h !! l) as [o|] eqn:E; [|reflexivity].
  apply Hsub in E. congruence.
Qed.

Lemma insert_fresh_keeps (h : gmap positive FreshDataset.object) (l : positive)
    (o : FreshDataset.object) :
  h !! l = None -> forall l' o', h !! l' = Some o' -> <[l := o]> h !! l' = Some o'.
Proof.
  intros Hl l' o' Hl'. rewrite lookup_insert_ne by congruence. exact Hl'.
Qed.

(** What [main] does on a document whose jobs, when it has any, are dicts. *)
Lemma main_spec (h : gmap positive FreshDataset.object) (lu : positive)
    (d : list (string * FreshDataset.value)) (js : list FreshDataset.value) :
  h !! lu = Some (FreshDataset.Dict d) ->
  has_jobs h d js ->
  exists h' lo lc employers jobsources cleaned,
    FreshDataset.main h (FreshDataset.Ref lu) = Ok (h', FreshDataset.Ref lo)
    /\ (forall l o, h !! l = Some o -> h' !! l = Some o)
    /\ h !! lo = None
    /\ h' !! lo = Some (FreshDataset.Dict
                          [("employers", employers); ("jobsources", jobsources);
                           ("jobs", FreshDataset.Ref lc)])
    /\ kept_or_empty h h' d "employers" employers
    /\ kept_or_empty h h' d "jobsources" jobsources
    /\ h !! lc = None
    /\ h' !! lc = Some (FreshDataset.List cleaned)
    /\ Forall2 (is_cleaned_copy h h') js cleaned.
Proof.
  intros Hlu Hjobs. unfold FreshDataset.main.
  destruct (FreshDataset.alloc (FreshDataset.List []) h) as [h1 jc] eqn:E1.
  apply alloc_spec in E1 as (Hjc & ->).
  set (h1 := <[jc := FreshDataset.List []]> h).
  assert (S1 : forall l o, h !! l = Some o -> h1 !! l = Some o)
    by (apply insert_fresh_keeps; exact Hjc).
  destruct (FreshDataset.alloc (FreshDataset.List []) h1) as [h2' nj] eqn:E2.
  apply alloc_spec in E2 as (Hnj & ->).
  set (h2 := <[nj := FreshDataset.List []]> h1).
  assert (S2 : forall l o, h1 !! l = Some o -> h2 !! l = Some o)
    by (apply insert_fresh_keeps; exact Hnj).
  assert (Hjc2 : h2 !! jc = Some (FreshDataset.List [])).
  { apply S2. unfold h1. apply lookup_insert_eq. }
  assert (Hnj2 : h2 !! nj = Some (FreshDataset.List [])).
  { unfold h2. apply lookup_insert_eq. }
  unfold FreshDataset.dict_get_default at 1.
  rewrite (S2 _ _ (S1 _ _ Hlu)). cbn [bind].
  assert (Hiter : FreshDataset.iterate h2
                    match dict_get "jobs" d with
                    | Some v => v
                    | None => FreshDataset.Ref nj
                    end = Ok js
                  /\ Forall (fun job => exists entries, is_record h job entries) js).
  { destruct Hjobs as [(Hnone & ->)|(lj & Hsome & Hlj & Hall)].
    - rewrite Hnone. simpl. rewrite Hnj2. split; [reflexivity | constructor].
    - rewrite Hsome. simpl. rewrite (S2 _ _ (S1 _ _ Hlj)).
      split; [reflexivity | exact Hall]. }
  destruct Hiter as (-> & Hall). cbn [bind].
  destruct (clean_jobs_spec js h2 jc [] Hjc2) as (h3 & cleaned & -> & S3 & Hjc3 & Hcopies).
  { eapply Forall_impl; [exact Hall|].
    intros j (its & l & -> & Hl). exists its, l. split; [reflexivity|].
    apply S2, S1, Hl. }
  cbn [bind]. simpl in Hjc3.
  assert (S03 : forall l o, h !! l = Some o -> h3 !! l = Some o).
  { intros l o Hl. apply S3; [congruence|]. apply S2, S1, Hl. }
  destruct (FreshDataset.alloc (FreshDataset.List []) h3) as [h4' ne] eqn:E4.
  apply alloc_spec in E4 as (Hne & ->).
  set (h4 := <[ne := FreshDataset.List []]> h3).
  assert (S4 : forall l o, h3 !! l = Some o -> h4 !! l = Some o)
    by (apply insert_fresh_keeps; exact Hne).
  unfold FreshDataset.dict_get_default at 1.
  rewrite (S4 _ _ (S03 _ _ Hlu)). cbn [bind].
  destruct (FreshDataset.alloc (FreshDataset.List []) h4) as [h5' ns] eqn:E5.
  apply alloc_spec in E5 as (Hns & ->).
  set (h5 := <[ns := FreshDataset.List []]> h4).
  assert (S5 : forall l o, h4 !! l = Some o -> h5 !! l = Some o)
    by (apply insert_fresh_keeps; exact Hns).
  unfold FreshDataset.dict_get_default.
  rewrite (S5 _ _ (S4 _ _ (S03 _ _ Hlu))). cbn [bind].
  match goal with
  | |- context [FreshDataset.alloc ?o h5] =>
      destruct (FreshDataset.alloc o h5) as [h6' lo] eqn:E6
  end.
  apply alloc_spec in E6 as (Hlo & ->).
  match goal with
  | |- context [Ok (<[lo := ?o]> h5, _)] => set (h6 := <[lo := o]> h5)
  end.
  assert (S6 : forall l o, h5 !! l = Some o -> h6 !! l = Some o)
    by (apply insert_fresh_keeps; exact Hlo).
  assert (S36 : forall l o, h3 !! l = Some o -> h6 !! l = Some o).
  { intros l o Hl. apply S6, S5, S4, Hl. }
  assert (S06 : forall l o, h !! l = Some o -> h6 !! l = Some o).
  { intros l o Hl. apply S36, S03, Hl. }
  exists h6, lo, jc. do 2 eexists. exists cleaned.
  split; [reflexivity|]. split; [exact S06|].
  split; [apply (lookup_None_mono h h5); [intros l o Hl; apply S5, S4, S03, Hl | exact Hlo]|].
  split; [unfold h6; apply lookup_insert_eq|].
  split; [|split; [|split; [exact Hjc|split; [apply S36; exact Hjc3|]]]].
  - unfold kept_or_empty. destruct (dict_get "employers" d); [reflexivity|].
    exists ne. split; [reflexivity|]. split.
    + apply (lookup_None_mono h h3); [exact S03 | exact Hne].
    + apply S6, S5. unfold h4. apply lookup_insert_eq.
  - unfold kept_or_empty. destruct (dict_get "jobsources" d); [reflexivity|].
    exists ns. split; [reflexivity|]. split.
    + apply (lookup_None_mono h h4); [intros l o Hl; apply S4, S03, Hl | exact Hns].
    + apply S6. unfold h5. apply lookup_insert_eq.
  - eapply Forall2_impl_Forall; [exact Hall | exact Hcopies|].
    intros j c (its0 & l0 & -> & Hl0) (its & l & (lj' & Hj & Hlj') & -> & Hnone & Hcopy).
    injection Hj as <-.
    assert (its = its0).
    { pose proof (S2 _ _ (S1 _ _ Hl0)) as Hl2. congruence. }
    subst its.
    exists its0, l. split; [exists l0; split; [reflexivity | exact Hl0]|].
    split; [reflexivity|]. split.
    + apply (lookup_None_mono h h2); [intros l' o' Hl'; apply S2, S1, Hl' | exact Hnone].
    + apply S36. exact Hcopy.
Qed.

(** The projection changes no object that was there before it ran, whatever
    the document. *)
Lemma clean_jobs_frame (js : list FreshDataset.value) :
  forall (h h' : gmap positive FreshDataset.object) (jobs_cleaned : positive),
    FreshDataset.clean_jobs h jobs_cleaned js = Ok h' ->
    forall l o, l <> jobs_cleaned -> h !! l = Some o -> h' !! l = Some o.
Proof.
  induction js as [|job js IH]; intros h h' jc H l o Hl Ho.
  - simpl in H. injection H as <-. exact Ho.
  - cbn [FreshDataset.clean_jobs] in H.
    apply bind_Ok in H as (entries & _ & H).
    destruct (FreshDataset.alloc
                (FreshDataset.Dict (dict_without "CategorizedData" entries)) h)
      as [h1 l1] eqn:Ea.
    apply alloc_spec in Ea as (Hl1 & ->).
    apply bind_Ok in H as (h2 & Happ & H).
    unfold FreshDataset.append in Happ.
    destruct (_ !! jc) as [[elems|]|]; try discriminate.
    injection Happ as <-.
    eapply IH; [exact H | exact Hl|].
    rewrite lookup_insert_ne by congruence.
    rewrite lookup_insert_ne by congruence. exact Ho.
Qed.

Lemma main_never_mutates (h h' : gmap positive FreshDataset.object)
    (doc out : FreshDataset.value) :
  FreshDataset.main h doc = Ok (h', out) ->
  forall l o, h !! l = Some o -> h' !! l = Some o.
Proof.
  unfold FreshDataset.main. intros H l o Ho.
  destruct (FreshDataset.alloc (FreshDataset.List []) h) as [h1 jc] eqn:E1.
  apply alloc_spec in E1 as (Hjc & ->).
  destruct (FreshDataset.alloc (FreshDataset.List []) (<[jc:=FreshDataset.List []]> h))
    as [h2 nj] eqn:E2.
  apply alloc_spec in E2 as (Hnj & ->).
  apply bind_Ok in H as (js & _ & H). apply bind_Ok in H as (js' & _ & H).
  apply bind_Ok in H as (h3 & Hloop & H).
  destruct (FreshDataset.alloc (FreshDataset.List []) h3) as [h4 ne] eqn:E4.
  apply alloc_spec in E4 as (Hne & ->).
  apply bind_Ok in H as (emp & _ & H).
  destruct (FreshDataset.alloc (FreshDataset.List []) (<[ne:=FreshDataset.List []]> h3))
    as [h5 ns] eqn:E5.
  apply alloc_spec in E5 as (Hns & ->).
  apply bind_Ok in H as (src & _ & H).
  match type of H with
  | context [FreshDataset.alloc ?ob ?hh] =>
      destruct (FreshDataset.alloc ob hh) as [h6 lo] eqn:E6
  end.
  apply alloc_spec in E6 as (Hlo & ->).
  injection H as <- <-.
  assert (H3 : h3 !! l = Some o).
  { eapply clean_jobs_frame; [exact Hloop | congruence |].
    apply insert_fresh_keeps; [exact Hnj|].
    apply insert_fresh_keeps; [exact Hjc | exact Ho]. }
  apply insert_fresh_keeps; [exact Hlo|].
  apply insert_fresh_keeps; [exact Hns|].
  apply insert_fresh_keeps; [exact Hne | exact H3].
Qed.

Lemma sample_without_jobs_accepted :
  ~ rejected Sample.store_without_jobs (FreshDataset.Ref 1%positive).
Proof. intros (e & H). vm_compute in H. discriminate. Qed.

(** C6, as the code has it.  A document whose [jobs] are missing or are a
    list of objects is not refused for lacking one of the collections
    [employers], [jobsources] and [jobs]: the projection returns, and the
    reduced document has the document's own value for each collection that
    is there and a new empty list in the place of each one that is
    missing. *)
Theorem missing_collections_are_empty
    (h : gmap positive FreshDataset.object) (lu : positive)
    (d : list (string * FreshDataset.value)) (js : list FreshDataset.value)
    (Hdoc : h !! lu = Some (FreshDataset.Dict d))
    (Hjobs : has_jobs h d js) :
  exists h' lo lc employers jobsources cleaned,
    FreshDataset.main h (FreshDataset.Ref lu) = Ok (h', FreshDataset.Ref lo)
    /\ h' !! lo = Some (FreshDataset.Dict
                          [("employers", employers); ("jobsources", jobsources);
                           ("jobs", FreshDataset.Ref lc)])
    /\ kept_or_empty h h' d "employers" employers
    /\ kept_or_empty h h' d "jobsources" jobsources
    /\ h' !! lc = Some (FreshDataset.List cleaned)
    /\ (dict_get "jobs" d = None -> cleaned = []).
Proof.
  destruct (main_spec h lu d js Hdoc Hjobs)
    as (h' & lo & lc & emp & src & cleaned
        & Hmain & _ & _ & Hout & Hemp & Hsrc & _ & Hlc & Hcopies).
  exists h', lo, lc, emp, src, cleaned.
  repeat (split; [assumption|]).
  intros Hnone.
  destruct Hjobs as [(_ & ->)|(l & Hsome & _)]; [|congruence].
  apply Forall2_nil_inv_l in Hcopies. exact Hcopies.
Qed.

Lemma missing_collections_are_empty_witness :
  exists h' lo lc employers jobsources cleaned,
    FreshDataset.main Sample.store_without_jobs (FreshDataset.Ref 1%positive)
    = Ok (h', FreshDataset.Ref lo)
    /\ h' !! lo = Some (FreshDataset.Dict
                          [("employers", employers); ("jobsources", jobsources);
                           ("jobs", FreshDataset.Ref lc)])
    /\ kept_or_empty Sample.store_without_jobs h'
         [("metadata", FreshDataset.Ref 2%positive);
          ("employers", FreshDataset.Ref 3%positive)] "employers" employers
    /\ kept_or_empty Sample.store_without_jobs h'
         [("metadata", FreshDataset.Ref 2%positive);
          ("employers", FreshDataset.Ref 3%positive)] "jobsources" jobsources
    /\ h' !! lc = Some (FreshDataset.List cleaned)
    /\ (dict_get "jobs" [("metadata", FreshDataset.Ref 2%positive);
                         ("employers", FreshDataset.Ref 3%positive)] = None ->
        cleaned = []).
Proof.
  apply (missing_collections_are_empty Sample.store_without_jobs 1%positive
           [("metadata", FreshDataset.Ref 2%positive);
            ("employers", FreshDataset.Ref 3%positive)] []).
  - reflexivity.
  - left. split; reflexivity.
Defined.

(** C7. On a unified document (a dict with the three collections, its jobs
    dicts) the projection returns a new dict with exactly the keys
    [employers], [jobsources] and [jobs]: the first two hold the very values
    of the input, there is no [metadata], and [jobs] is a new list with, for
    each job in order, a new dict that has the entries of the job but
    [CategorizedData], each with the value it has in the job.  Every object
    of the input is in the final store as it was. *)
Theorem projection_drops_metadata_only
    (h : gmap positive FreshDataset.object) (lu lj : positive)
    (d : list (string * FreshDataset.value)) (js : list FreshDataset.value)
    (employers jobsources : FreshDataset.value)
    (Hdoc : h !! lu = Some (FreshDataset.Dict d))
    (Hemployers : dict_get "employers" d = Some employers)
    (Hjobsources : dict_get "jobsources" d = Some jobsources)
    (Hjobs : dict_get "jobs" d = Some (FreshDataset.Ref lj))
    (Hlist : h !! lj = Some (FreshDataset.List js))
    (Hrecords : Forall (fun job => exists entries, is_record h job entries) js) :
  exists h' lo lc cleaned,
    FreshDataset.main h (FreshDataset.Ref lu) = Ok (h', FreshDataset.Ref lo)
    /\ (forall l o, h !! l = Some o -> h' !! l = Some o)
    /\ h !! lo = None
    /\ h' !! lo = Some (FreshDataset.Dict
                          [("employers", employers); ("jobsources", jobsources);
                           ("jobs", FreshDataset.Ref lc)])
    /\ h !! lc = None
    /\ h' !! lc = Some (FreshDataset.List cleaned)
    /\ Forall2 (is_cleaned_copy h h') js cleaned
    /\ (forall (entries : list (string * FreshDataset.value)) (k : string),
          dict_get k (dict_without "CategorizedData" entries)
          = if String.eqb k "CategorizedData" then None else dict_get k entries).
Proof.
  destruct (main_spec h lu d js Hdoc) as
    (h' & lo & lc & emp & src & cleaned
     & Hmain & Hkeep & Hlo & Hout & Hemp & Hsrc & Hlc & Hlc' & Hcopies).
  { right. exists lj. repeat split; assumption. }
  unfold kept_or_empty in Hemp, Hsrc.
  rewrite Hemployers in Hemp. rewrite Hjobsources in Hsrc. subst emp src.
  exists h', lo, lc, cleaned.
  repeat (split; [assumption|]).
  intros entries k. apply dict_get_without.
Qed.

Lemma projection_drops_metadata_only_witness :
  exists h' lo lc cleaned,
    FreshDataset.main Sample.store_with_job (FreshDataset.Ref 1%positive)
    = Ok (h', FreshDataset.Ref lo)
    /\ (forall l o, Sample.store_with_job !! l = Some o -> h' !! l = Some o)
    /\ Sample.store_with_job !! lo = None
    /\ h' !! lo = Some (FreshDataset.Dict
                          [("employers", FreshDataset.Ref 3%positive);
                           ("jobsources", FreshDataset.Ref 4%positive);
                           ("jobs", FreshDataset.Ref lc)])
    /\ Sample.store_with_job !! lc = None
    /\ h' !! lc = Some (FreshDataset.List cleaned)
    /\ Forall2 (is_cleaned_copy Sample.store_with_job h')
         [FreshDataset.Ref 6%positive] cleaned
    /\ (forall (entries : list (string * FreshDataset.value)) (k : string),
          dict_get k (dict_without "CategorizedData" entries)
          = if String.eqb k "CategorizedData" then None else dict_get k entries).
Proof.
  apply (projection_drops_metadata_only Sample.store_with_job 1%positive 5%positive
           [("metadata", FreshDataset.Ref 2%positive);
            ("employers", FreshDataset.Ref 3%positive);
            ("jobsources", FreshDataset.Ref 4%positive);
            ("jobs", FreshDataset.Ref 5%positive)]
           [FreshDataset.Ref 6%positive]).
  - reflexivity.
  - reflexivity.
  - reflexivity.
  - reflexivity.
  - reflexivity.
  - constructor; [|constructor].
    eexists. exists 6%positive. split; reflexivity.
Defined.

(** * Further properties of the scripts *)

(** ** Loops *)

Lemma for_each_app {A B : Type} (f : A -> result B) (xs1 xs2 : list A) (ys : list B) :
  for_each f (xs1 ++ xs2) = Ok ys ->
  exists ys1 ys2, ys = ys1 ++ ys2
    /\ for_each f xs1 = Ok ys1 /\ for_each f xs2 = Ok ys2.
Proof.
  revert ys. induction xs1 as [|x xs1 IH]; intros ys H; simpl in *.
  - exists [], ys. auto.
  - apply bind_Ok in H as (y & Hy & H). apply bind_Ok in H as (ys' & Hys & H).
    injection H as <-. apply IH in Hys as (ys1 & ys2 & -> & H1 & H2).
    exists (y :: ys1), ys2. rewrite Hy, H1. simpl. auto.
Qed.

Lemma for_each_Forall {A B : Type} (f : A -> result B) (P : A -> Prop) (Q : B -> Prop)
    (xs : list A) (ys : list B) :
  for_each f xs = Ok ys -> Forall P xs ->
  (forall x y, P x -> f x = Ok y -> Q y) -> Forall Q ys.
Proof.
  intros H HP HQ. revert ys H.
  induction HP as [|x xs Hx HP IH]; intros ys H; simpl in H.
  - injection H as <-. constructor.
  - apply bind_Ok in H as (y & Hy & H). apply bind_Ok in H as (ys' & Hys & H).
    injection H as <-. constructor; [eapply HQ; eassumption | apply IH; exact Hys].
Qed.

(** A loop whose body can fail in one way only fails in that way as soon as
    some element makes it fail. *)
Lemma for_each_raises {A B : Type} (f : A -> result B) (e : exn) (xs : list A) :
  Forall (fun x => f x = Raise e \/ exists y, f x = Ok y) xs ->
  Exists (fun x => f x = Raise e) xs ->
  for_each f xs = Raise e.
Proof.
  induction 1 as [|x xs Hx Hxs IH]; intros Hex.
  - inversion Hex.
  - simpl. destruct Hx as [->|(y & Hy)]; [reflexivity|].
    rewrite Hy. simpl. rewrite IH; [reflexivity|].
    inversion Hex as [? ? Hbad|? ? Hrest]; subst; [congruence | exact Hrest].
Qed.

Lemma filter_all {A : Type} (f : A -> bool) (l : list A) :
  Forall (fun x => f x = true) l -> List.filter f l = l.
Proof.
  induction 1 as [|x l Hx _ IH]; simpl; [reflexivity|]. rewrite Hx, IH. reflexivity.
Qed.

Lemma filter_none {A : Type} (f : A -> bool) (l : list A) :
  Forall (fun x => f x = false) l -> List.filter f l = [].
Proof.
  induction 1 as [|x l Hx _ IH]; simpl; [reflexivity|]. rewrite Hx, IH. reflexivity.
Qed.

(** ** The counts of the metadata block *)

Lemma build_unified_structure_counts (jobs employers jobsources : DataFrame)
    (ie id : bool) (now : string) (u : ConcatJobs.unified) :
  ConcatJobs.build_unified_structure jobs employers jobsources ie id now = Ok u ->
  dict_get "total_jobs" (ConcatJobs.metadata u)
  = Some (VInt (Z.of_nat (length (ConcatJobs.jobs u))))
  /\ dict_get "active_jobs" (ConcatJobs.metadata u)
     = Some (VInt (ConcatJobs.count_from "active" (ConcatJobs.jobs u)))
  /\ dict_get "archived_jobs" (ConcatJobs.metadata u)
     = Some (VInt (ConcatJobs.count_from "archived" (ConcatJobs.jobs u)))
  /\ dict_get "include_embeddings" (ConcatJobs.metadata u) = Some (VBool ie)
  /\ dict_get "include_descriptions" (ConcatJobs.metadata u) = Some (VBool id)
  /\ dict_get "generated_at" (ConcatJobs.metadata u) = Some (VStr now).
Proof.
  unfold ConcatJobs.build_unified_structure. intros H.
  apply bind_Ok in H as (el & Hel & H).
  apply bind_Ok in H as (sl & Hsl & H).
  apply bind_Ok in H as (js & Hjs & H).
  injection H as <-. simpl. repeat split; reflexivity.
Qed.

(** The records of the document, split by the relation their rows came from. *)
Lemma main_jobs_split (a b employers jobsources : DataFrame) (ie xd : bool)
    (now : string) (u : ConcatJobs.unified) :
  ConcatJobs.main a b employers jobsources ie xd now = Ok u ->
  exists ja jb,
    ConcatJobs.jobs u = ja ++ jb
    /\ length ja = length (rows a) /\ length jb = length (rows b)
    /\ Forall (fun j => dict_get "source_table" j = Some (VStr "active")) ja
    /\ Forall (fun j => dict_get "source_table" j = Some (VStr "archived")) jb.
Proof.
  intros Hu. apply main_stages in Hu as (parsed & Hp & Hu).
  apply parse_categorized_data_rows in Hp as (_ & Hp).
  apply build_unified_structure_jobs in Hu as (el & sl & _ & _ & Hj & _).
  destruct (rows_normalize_job_schemas a b)
    as (cols & inject & _ & _ & _ & Hst & _ & _ & _ & _ & Hrows).
  apply existsb_eqb_In in Hst.
  rewrite Hrows in Hp.
  apply for_each_app in Hp as (pa & pb & Hparsed & Hpa & Hpb).
  rewrite Hparsed in Hj.
  apply for_each_app in Hj as (ja & jb & Hjobs & Hja & Hjb).
  exists ja, jb. split; [exact Hjobs|].
  pose proof (for_each_length _ _ _ Hja) as La.
  pose proof (for_each_length _ _ _ Hjb) as Lb.
  pose proof (for_each_length _ _ _ Hpa) as La'.
  pose proof (for_each_length _ _ _ Hpb) as Lb'.
  rewrite length_map in La', Lb'.
  split; [congruence|]. split; [congruence|].
  assert (Htag : forall (tag : string) (f : Series -> Series) (rs : list Series)
                        (ps : list Series) (js : list (list (string * pyval))),
             (forall r, dict_get "source_table" (f r) = Some (VStr tag)) ->
             for_each
               (fun row =>
                  let* v := item row "CategorizedData" in
                  let* p := ConcatJobs.parse_json_column v in
                  Ok (dict_set "CategorizedData" p row)) (List.map f rs) = Ok ps ->
             for_each (ConcatJobs.job_entry el sl ie (negb xd)) ps = Ok js ->
             Forall (fun j => dict_get "source_table" j = Some (VStr tag)) js).
  { intros tag f rs ps js Hf Hps Hjs.
    eapply for_each_Forall; [exact Hjs| |].
    - eapply for_each_Forall; [exact Hps| |].
      + apply Forall_forall. intros r Hr. apply list_elem_of_In, in_map_iff in Hr.
        exact Hr.
      + intros r r' (r0 & <- & _) Hr'. simpl in Hr'.
        apply bind_Ok in Hr' as (v & _ & Hr'). apply bind_Ok in Hr' as (p & _ & Hr').
        injection Hr' as <-.
        instantiate (1 := fun r' => dict_get "source_table" r' = Some (VStr tag)).
        simpl. rewrite dict_get_set_ne by discriminate. apply Hf.
    - intros r j Hr Hje. simpl in Hr.
      rewrite (job_entry_source_table _ _ _ _ _ _ Hje). exact Hr. }
  split.
  - eapply Htag; [|exact Hpa | exact Hja].
    intros r. cbv beta. rewrite dict_get_reindex, Hst, dict_get_set_eq. reflexivity.
  - eapply Htag; [|exact Hpb | exact Hjb].
    intros r. cbv beta. rewrite dict_get_reindex, Hst, dict_get_set_eq. reflexivity.
Qed.

Lemma count_from_tagged (tag other : string) (js : list (list (string * pyval))) :
  Forall (fun j => dict_get "source_table" j = Some (VStr other)) js ->
  ConcatJobs.count_from tag js
  = if String.eqb other tag then Z.of_nat (length js) else 0.
Proof.
  intros H. unfold ConcatJobs.count_from.
  destruct (String.eqb other tag) eqn:E.
  - rewrite filter_all; [reflexivity|].
    eapply Forall_impl; [exact H|]. intros j Hj. unfold get. rewrite Hj. exact E.
  - rewrite filter_none; [reflexivity|].
    eapply Forall_impl; [exact H|]. intros j Hj. unfold get. rewrite Hj. exact E.
Qed.

Lemma count_from_app (tag : string) (js1 js2 : list (list (string * pyval))) :
  ConcatJobs.count_from tag (js1 ++ js2)
  = ConcatJobs.count_from tag js1 + ConcatJobs.count_from tag js2.
Proof.
  unfold ConcatJobs.count_from. rewrite List.filter_app, length_app. lia.
Qed.

(** X1. In the document that [main] assembles, [total_jobs] is the number of
    rows of the two relations together, [active_jobs] the number of rows of
    the active relation and [archived_jobs] that of the archived one. *)
Theorem metadata_counts_rows
    (a b employers jobsources : DataFrame) (ie xd : bool) (now : string)
    (u : ConcatJobs.unified)
    (Hmain : ConcatJobs.main a b employers jobsources ie xd now = Ok u) :
  dict_get "total_jobs" (ConcatJobs.metadata u)
  = Some (VInt (Z.of_nat (length (rows a) + length (rows b))))
  /\ dict_get "active_jobs" (ConcatJobs.metadata u)
     = Some (VInt (Z.of_nat (length (rows a))))
  /\ dict_get "archived_jobs" (ConcatJobs.metadata u)
     = Some (VInt (Z.of_nat (length (rows b)))).
Proof.
  pose proof (main_jobs_split _ _ _ _ _ _ _ _ Hmain)
    as (ja & jb & Hjobs & La & Lb & Ta & Tb).
  apply main_stages in Hmain as (parsed & _ & Hu).
  apply build_unified_structure_counts in Hu as (Ht & Hact & Harc & _).
  rewrite Ht, Hact, Harc, Hjobs, length_app, !count_from_app.
  rewrite (count_from_tagged "active" "active" ja Ta).
  rewrite (count_from_tagged "active" "archived" jb Tb).
  rewrite (count_from_tagged "archived" "active" ja Ta).
  rewrite (count_from_tagged "archived" "archived" jb Tb).
  simpl. rewrite La, Lb. repeat split; do 2 f_equal; lia.
Qed.

Lemma metadata_counts_rows_witness :
  dict_get "total_jobs" (ConcatJobs.metadata (Sample.document false true))
  = Some (VInt (Z.of_nat (length (rows Sample.active) + length (rows Sample.archived))))
  /\ dict_get "active_jobs" (ConcatJobs.metadata (Sample.document false true))
     = Some (VInt (Z.of_nat (length (rows Sample.active))))
  /\ dict_get "archived_jobs" (ConcatJobs.metadata (Sample.document false true))
     = Some (VInt (Z.of_nat (length (rows Sample.archived)))).
Proof.
  apply (metadata_counts_rows Sample.active Sample.archived Sample.employers
           Sample.jobsources false false Sample.now).
  vm_compute. reflexivity.
Defined.

(** ** The columns of the normalized relation *)

Lemma has_column_set_column (c k : string) (v : pyval) (df : DataFrame) :
  has_column c (set_column k v df) = has_column c df || String.eqb c k.
Proof.
  unfold has_column at 1. simpl. destruct (has_column k df) eqn:E.
  - fold (has_column c df). destruct (String.eqb_spec c k) as [->|_].
    + rewrite E. reflexivity.
    + rewrite orb_false_r. reflexivity.
  - rewrite existsb_app. simpl. rewrite orb_false_r. reflexivity.
Qed.

Lemma has_column_concat (c : string) (a b : DataFrame) :
  has_column c (concat a b) = has_column c a || has_column c b.
Proof.
  unfold has_column at 1. simpl. rewrite existsb_app. fold (has_column c a).
  destruct (has_column c a) eqn:Ea; simpl; [reflexivity|].
  unfold has_column at 2. induction (columns b) as [|x xs IH]; simpl; [reflexivity|].
  destruct (String.eqb_spec c x) as [<-|Hx].
  - rewrite Ea. simpl. rewrite String.eqb_refl. reflexivity.
  - destruct (has_column x a); simpl; [exact IH|].
    destruct (String.eqb_spec c x); [contradiction | exact IH].
Qed.

Lemma has_column_normalize_job_schemas (c : string) (a b : DataFrame) :
  has_column c (ConcatJobs.normalize_job_schemas a b)
  = has_column c a || has_column c b
    || String.eqb c "original_id" || String.eqb c "source_table".
Proof.
  unfold ConcatJobs.normalize_job_schemas, copy.
  rewrite has_column_concat, !has_column_set_column.
  destruct (has_column "original_id" a) eqn:Ho; simpl negb; cbv iota.
  - destruct (String.eqb_spec c "original_id") as [->|_].
    + rewrite Ho. reflexivity.
    + destruct (has_column c a), (has_column c b), (String.eqb c "source_table");
        reflexivity.
  - rewrite has_column_set_column.
    destruct (has_column c a), (has_column c b), (String.eqb c "original_id"),
      (String.eqb c "source_table"); reflexivity.
Qed.

(** X2. When neither job relation has a [CategorizedData] column, [main]
    stops with a KeyError, whatever the rows and the other relations are. *)
Theorem main_requires_categorized_data
    (a b employers jobsources : DataFrame) (ie xd : bool) (now : string)
    (Ha : has_column "CategorizedData" a = false)
    (Hb : has_column "CategorizedData" b = false) :
  ConcatJobs.main a b employers jobsources ie xd now = Raise KeyError.
Proof.
  unfold ConcatJobs.main, ConcatJobs.parse_categorized_data.
  rewrite has_column_normalize_job_schemas, Ha, Hb. reflexivity.
Qed.

Lemma main_requires_categorized_data_witness :
  ConcatJobs.main (Sample.frame ["id"; "job_title"] [[VInt 1; VStr "Engineer"]])
    (Sample.frame ["id"; "job_title"; "original_id"] [])
    Sample.employers Sample.jobsources false false Sample.now
  = Raise KeyError.
Proof.
  apply main_requires_categorized_data; reflexivity.
Defined.

(** ** The cells behind a record *)

Lemma item_or_none_spec (row : Series) (c : string) (x : pyval) :
  ConcatJobs.item_or_none row c = Ok x ->
  exists v, dict_get c row = Some v /\ x = or_none v.
Proof.
  unfold ConcatJobs.item_or_none. intros H.
  apply bind_Ok in H as (v & Hv & H). apply bind_Ok in H as (b & Hb & H).
  injection H as <-. apply item_Ok in Hv. apply pd_notna_Ok in Hb.
  exists v. split; [exact Hv|]. unfold or_none. rewrite Hb. destruct b; reflexivity.
Qed.

Lemma item_bool_spec (row : Series) (c : string) (x : pyval) :
  ConcatJobs.item_bool row c = Ok x ->
  exists v, dict_get c row = Some v /\ flag_of v = Some x.
Proof.
  unfold ConcatJobs.item_bool. intros H.
  apply bind_Ok in H as (v & Hv & H). apply bind_Ok in H as (b & Hb & H).
  injection H as <-. apply item_Ok in Hv. apply pd_notna_Ok in Hb.
  exists v. split; [exact Hv|]. unfold flag_of. rewrite Hb. destruct b; reflexivity.
Qed.

Lemma item_int_or_spec (d : pyval) (row : Series) (c : string) (x : pyval) :
  ConcatJobs.item_int_or d row c = Ok x ->
  exists v, dict_get c row = Some v /\ int_or d v = Some x.
Proof.
  unfold ConcatJobs.item_int_or. intros H.
  apply bind_Ok in H as (v & Hv & H). apply bind_Ok in H as (b & Hb & H).
  apply item_Ok in Hv. apply pd_notna_Ok in Hb.
  exists v. split; [exact Hv|]. unfold int_or. rewrite Hb. destruct b; simpl.
  - apply bind_Ok in H as (z & -> & H). injection H as <-. reflexivity.
  - injection H as <-. reflexivity.
Qed.

Lemma base_entry_fields (row : Series) (e : list (string * pyval)) :
  ConcatJobs.base_entry row = Ok e ->
  (forall f, In f text_fields ->
     exists v, dict_get f row = Some v /\ dict_get f e = Some (or_none v))
  /\ (forall f, In f flag_fields ->
        exists v x, dict_get f row = Some v /\ flag_of v = Some x
                    /\ dict_get f e = Some x)
  /\ (exists v x, dict_get "id" row = Some v /\ int_or VNone v = Some x
                  /\ dict_get "id" e = Some x)
  /\ (exists v x, dict_get "clicks" row = Some v /\ int_or (VInt 0) v = Some x
                  /\ dict_get "clicks" e = Some x).
Proof.
  unfold ConcatJobs.base_entry. intros H.
  apply bind_Ok in H as (id & Hid & H).
  apply bind_Ok in H as (job_title & Hjob_title & H).
  apply bind_Ok in H as (url & Hurl & H).
  apply bind_Ok in H as (department & Hdepartment & H).
  apply bind_Ok in H as (level & Hlevel & H).
  apply bind_Ok in H as (location & Hlocation & H).
  apply bind_Ok in H as (schedule & Hschedule & H).
  apply bind_Ok in H as (main & Hmain & H).
  apply bind_Ok in H as (sync & Hsync & H).
  apply bind_Ok in H as (ignore & Hignore & H).
  apply bind_Ok in H as (removed & Hremoved & H).
  apply bind_Ok in H as (manual & Hmanual & H).
  apply bind_Ok in H as (archived & Harchived & H).
  apply bind_Ok in H as (ideal & Hideal & H).
  apply bind_Ok in H as (created_at & Hcreated_at & H).
  apply bind_Ok in H as (updated_at & Hupdated_at & H).
  apply bind_Ok in H as (source_table & Hsource_table & H).
  apply bind_Ok in H as (categorized & Hcategorized & H).
  apply bind_Ok in H as (clicks & Hclicks & H).
  injection H as <-.
  repeat match goal with
         | Hx : ConcatJobs.item_or_none _ _ = Ok _ |- _ =>
             apply item_or_none_spec in Hx as (? & ? & ->)
         | Hx : ConcatJobs.item_bool _ _ = Ok _ |- _ =>
             apply item_bool_spec in Hx as (? & ? & ?)
         | Hx : ConcatJobs.item_int_or _ _ _ = Ok _ |- _ =>
             apply item_int_or_spec in Hx as (? & ? & ?)
         end.
  split; [|split; [|split]].
  - intros f Hf. unfold text_fields in Hf. simpl in Hf.
    repeat (destruct Hf as [<-|Hf]; [eexists; split; [eassumption | reflexivity]|]).
    contradiction.
  - intros f Hf. unfold flag_fields in Hf. simpl in Hf.
    repeat (destruct Hf as [<-|Hf];
            [eexists; eexists; split; [eassumption | split; [eassumption | reflexivity]]|]).
    contradiction.
  - eexists; eexists; split; [eassumption | split; [eassumption | reflexivity]].
  - eexists; eexists; split; [eassumption | split; [eassumption | reflexivity]].
Qed.

(** The steps after the literal leave its fields as they are. *)
Lemma job_entry_base (el sl : list (key * list (string * pyval)))
    (ie id : bool) (row : Series) (entry : list (string * pyval)) :
  ConcatJobs.job_entry el sl ie id row = Ok entry ->
  exists e0, ConcatJobs.base_entry row = Ok e0
    /\ forall k, ~ In k added_fields -> dict_get k entry = dict_get k e0.
Proof.
  intros H.
  apply job_entry_steps in H as (e0 & e1 & e2 & e3 & e4 & H0 & H1 & H2 & H3 & H4 & H5).
  exists e0. split; [exact H0|]. intros k Hk. unfold added_fields in Hk. simpl in Hk.
  rewrite (resolve_jobsource_get _ _ _ _ k H5) by (intros ->; tauto).
  rewrite (resolve_employer_get _ _ _ _ k H4) by (intros ->; tauto).
  rewrite (add_original_id_get _ _ _ H3) by (intros ->; tauto).
  rewrite (add_embedding_get _ _ _ _ H2) by (intros ->; tauto).
  rewrite (add_description_get _ _ _ _ H1) by (intros ->; tauto).
  reflexivity.
Qed.

(** The row of the normalized relation at a place: the row of the two
    inputs at that place, on the labels of the normalized relation. *)
Lemma normalized_row_at (a b : DataFrame) (i : nat) (nrow : Series) :
  rows (ConcatJobs.normalize_job_schemas a b) !! i = Some nrow ->
  exists r, (rows a ++ rows b) !! i = Some r
    /\ forall c, c <> "original_id" -> c <> "source_table" ->
         dict_get c nrow
         = if has_column c (ConcatJobs.normalize_job_schemas a b)
           then Some (cell r c) else None.
Proof.
  destruct (rows_normalize_job_schemas a b)
    as (cols & inject & Hcols & _ & _ & _ & _ & Hinj & _ & _ & Hrows).
  rewrite Hrows. unfold has_column. rewrite Hcols. intros H.
  apply lookup_app_Some in H as [H|(Hle & H)].
  - rewrite list_lookup_fmap in H.
    destruct (rows a !! i) as [r|] eqn:Hr; [|discriminate]. injection H as <-.
    exists r. split.
    + rewrite lookup_app_l by (eapply lookup_lt_Some; eassumption). exact Hr.
    + intros c Ho Hs. rewrite dict_get_reindex.
      rewrite dict_get_set_ne by exact Hs. rewrite (Hinj r c Ho). reflexivity.
  - rewrite length_map in Hle, H. rewrite list_lookup_fmap in H.
    destruct (rows b !! (i - length (rows a))%nat) as [r|] eqn:Hr; [|discriminate].
    injection H as <-. exists r. split.
    + rewrite lookup_app_r by exact Hle. exact Hr.
    + intros c Ho Hs. rewrite dict_get_reindex.
      rewrite dict_get_set_ne by exact Hs. reflexivity.
Qed.

(** The record at a place of the document: the row behind it, the row of the
    normalized relation, the parsed payload and the two indexes. *)
Lemma main_job_at (a b employers jobsources : DataFrame) (ie xd : bool)
    (now : string) (u : ConcatJobs.unified) (i : nat) (j : list (string * pyval)) :
  ConcatJobs.main a b employers jobsources ie xd now = Ok u ->
  ConcatJobs.jobs u !! i = Some j ->
  exists r nrow p el sl,
    (rows a ++ rows b) !! i = Some r
    /\ (forall c, c <> "original_id" -> c <> "source_table" ->
          dict_get c nrow
          = if has_column c (ConcatJobs.normalize_job_schemas a b)
            then Some (cell r c) else None)
    /\ rows (ConcatJobs.normalize_job_schemas a b) !! i = Some nrow
    /\ ConcatJobs.parse_json_column (cell r "CategorizedData") = Ok p
    /\ ConcatJobs.build_lookup ConcatJobs.employer_entry (rows employers) [] = Ok el
    /\ ConcatJobs.build_lookup ConcatJobs.jobsource_entry (rows jobsources) [] = Ok sl
    /\ ConcatJobs.job_entry el sl ie (negb xd) (dict_set "CategorizedData" p nrow) = Ok j.
Proof.
  intros Hu Hj. apply main_stages in Hu as (parsed & Hp & Hu).
  pose proof Hp as Hcol. unfold ConcatJobs.parse_categorized_data in Hcol.
  destruct (has_column "CategorizedData" (ConcatJobs.normalize_job_schemas a b))
    eqn:Hcd; [clear Hcol | discriminate].
  apply parse_categorized_data_rows in Hp as (_ & Hp).
  apply build_unified_structure_jobs in Hu as (el & sl & Hel & Hsl & Hjobs & _).
  destruct (for_each_lookup _ _ _ Hjobs i j Hj) as (prow & Hprow & Hentry).
  destruct (for_each_lookup _ _ _ Hp i prow Hprow) as (nrow & Hnrow & Hparse).
  simpl in Hparse.
  apply bind_Ok in Hparse as (v & Hv & Hparse).
  apply bind_Ok in Hparse as (p & Hpv & Hparse). injection Hparse as <-.
  destruct (normalized_row_at a b i nrow Hnrow) as (r & Hr & Hcells).
  exists r, nrow, p, el, sl. repeat split; try assumption.
  apply item_Ok in Hv. rewrite Hcells, Hcd in Hv by discriminate.
  injection Hv as <-. exact Hpv.
Qed.

(** X3. Through [main], a text field of the i-th record ([job_title], [url],
    [department], [level], [location], [schedule], [created_at],
    [updated_at]) is the cell of the i-th row of the active rows followed by
    the archived ones, and None where that cell is missing or the row's
    relation has no such column. *)
Theorem text_fields_pass_through
    (a b employers jobsources : DataFrame) (ie xd : bool) (now : string)
    (u : ConcatJobs.unified) (i : nat) (j : list (string * pyval)) (f : string)
    (Hmain : ConcatJobs.main a b employers jobsources ie xd now = Ok u)
    (Hj : ConcatJobs.jobs u !! i = Some j)
    (Hf : In f text_fields) :
  exists r, (rows a ++ rows b) !! i = Some r
    /\ dict_get f j = Some (or_none (cell r f)).
Proof.
  destruct (main_job_at _ _ _ _ _ _ _ _ _ _ Hmain Hj)
    as (r & nrow & p & el & sl & Hr & Hcells & _ & _ & _ & _ & Hentry).
  exists r. split; [exact Hr|].
  apply job_entry_base in Hentry as (e0 & H0 & Hsame).
  apply base_entry_fields in H0 as (Htext & _).
  destruct (Htext f Hf) as (v & Hv & Hfv).
  assert (Hne : f <> "CategorizedData" /\ f <> "original_id" /\ f <> "source_table"
                /\ ~ In f added_fields).
  { unfold text_fields in Hf. simpl in Hf.
    repeat (destruct Hf as [<-|Hf];
            [repeat split; try discriminate;
             (intros Hin; simpl in Hin;
              repeat (destruct Hin as [Hin|Hin]; [discriminate|]); contradiction)|]).
    contradiction. }
  destruct Hne as (Hcd & Ho & Hs & Hadd).
  rewrite (Hsame f Hadd), Hfv.
  rewrite dict_get_set_ne in Hv by exact Hcd.
  rewrite (Hcells f Ho Hs) in Hv.
  destruct (has_column f (ConcatJobs.normalize_job_schemas a b)); [|discriminate].
  injection Hv as <-. reflexivity.
Qed.

Lemma text_fields_pass_through_witness :
  exists r, (rows Sample.active ++ rows Sample.archived) !! 2%nat = Some r
    /\ dict_get "department" (List.nth 2 (ConcatJobs.jobs (Sample.document false true)) [])
       = Some (or_none (cell r "department")).
Proof.
  apply (text_fields_pass_through Sample.active Sample.archived Sample.employers
           Sample.jobsources false false Sample.now (Sample.document false true)).
  - vm_compute. reflexivity.
  - vm_compute. reflexivity.
  - unfold text_fields. simpl. tauto.
Defined.

Lemma parse_json_column_missing :
  ConcatJobs.parse_json_column VNaN = Ok VNone.
Proof. reflexivity. Qed.

(** X4. Through [main], a payload that is the text of a JSON object
    reaches the record as that object: when [parse_json_column] makes a dict
    of the cell of the i-th row, the [CategorizedData] of the i-th record is
    that dict.  When it makes None of it (a missing cell, an empty or
    malformed text, a relation that has no such column), the record's
    [CategorizedData] is a missing value. *)
Theorem categorized_data_of_row
    (a b employers jobsources : DataFrame) (ie xd : bool) (now : string)
    (u : ConcatJobs.unified) (i : nat) (j : list (string * pyval))
    (Hmain : ConcatJobs.main a b employers jobsources ie xd now = Ok u)
    (Hj : ConcatJobs.jobs u !! i = Some j) :
  exists r p v, (rows a ++ rows b) !! i = Some r
    /\ ConcatJobs.parse_json_column (cell r "CategorizedData") = Ok p
    /\ dict_get "CategorizedData" j = Some v
    /\ (forall d, p = VDict d -> v = VDict d)
    /\ (p = VNone -> pd_isna v = Ok true)
    /\ (dict_get "CategorizedData" r = None -> p = VNone).
Proof.
  destruct (main_job_at _ _ _ _ _ _ _ _ _ _ Hmain Hj)
    as (r & nrow & p & el & sl & Hr & _ & _ & Hp & _ & _ & Hentry).
  exists r, p, p. split; [exact Hr|]. split; [exact Hp|]. split.
  - apply job_entry_base in Hentry as (e0 & H0 & Hsame).
    rewrite Hsame.
    + apply base_entry_keys in H0 as (_ & _ & (cd & Hcd & ->)).
      apply item_Ok in Hcd. rewrite dict_get_set_eq in Hcd. symmetry. exact Hcd.
    + unfold added_fields. simpl. intros Hin.
      repeat (destruct Hin as [Hin|Hin]; [discriminate|]). contradiction.
  - split; [intros d Hd; exact Hd|]. split; [intros ->; reflexivity|].
    intros Hnone. unfold cell in Hp. rewrite Hnone in Hp.
    rewrite parse_json_column_missing in Hp. congruence.
Qed.

(** The first record of a run whose active job carries a JSON object. *)
Lemma categorized_data_of_row_witness :
  ConcatJobs.parse_json_column (VStr ("{" ++ Sample.quoted "level" ++ ": 3}"))
  = Ok (VDict [("level", VInt 3)])
  /\ exists r p v,
       (rows Sample.active_with_object ++ rows Sample.archived) !! 0%nat = Some r
       /\ ConcatJobs.parse_json_column (cell r "CategorizedData") = Ok p
       /\ dict_get "CategorizedData"
            (List.nth 0 (ConcatJobs.jobs Sample.document_with_object) []) = Some v
       /\ (forall d, p = VDict d -> v = VDict d)
       /\ (p = VNone -> pd_isna v = Ok true)
       /\ (dict_get "CategorizedData" r = None -> p = VNone).
Proof.
  split; [vm_compute; reflexivity|].
  apply (categorized_data_of_row Sample.active_with_object Sample.archived
           Sample.employers Sample.jobsources false false Sample.now
           Sample.document_with_object).
  - vm_compute. reflexivity.
  - vm_compute. reflexivity.
Defined.

Lemma field_not_added (f : string) :
  In f flag_fields \/ f = "id" \/ f = "clicks" ->
  f <> "CategorizedData" /\ f <> "original_id" /\ f <> "source_table"
  /\ ~ In f added_fields.
Proof.
  unfold flag_fields. simpl. intros H.
  repeat (destruct H as [H|H]; try contradiction; try subst f;
          try (repeat split; try discriminate;
               (intros Hin; simpl in Hin;
                repeat (destruct Hin as [Hin|Hin]; [discriminate|]); contradiction))).
Qed.

(** The cell that a field of the literal is read from, through [main]. *)
Lemma main_cell_at (a b employers jobsources : DataFrame) (ie xd : bool)
    (now : string) (u : ConcatJobs.unified) (i : nat) (j : list (string * pyval)) :
  ConcatJobs.main a b employers jobsources ie xd now = Ok u ->
  ConcatJobs.jobs u !! i = Some j ->
  exists r row e0,
    (rows a ++ rows b) !! i = Some r
    /\ ConcatJobs.base_entry row = Ok e0
    /\ (forall f, In f flag_fields \/ f = "id" \/ f = "clicks" ->
          dict_get f j = dict_get f e0
          /\ forall v, dict_get f row = Some v -> v = cell r f).
Proof.
  intros Hmain Hj.
  destruct (main_job_at _ _ _ _ _ _ _ _ _ _ Hmain Hj)
    as (r & nrow & p & el & sl & Hr & Hcells & _ & _ & _ & _ & Hentry).
  apply job_entry_base in Hentry as (e0 & H0 & Hsame).
  exists r, (dict_set "CategorizedData" p nrow), e0.
  split; [exact Hr|]. split; [exact H0|].
  intros f Hf. apply field_not_added in Hf as (Hcd & Ho & Hs & Hadd).
  split; [apply Hsame; exact Hadd|].
  intros v Hv. rewrite dict_get_set_ne in Hv by exact Hcd.
  rewrite (Hcells f Ho Hs) in Hv.
  destruct (has_column f (ConcatJobs.normalize_job_schemas a b)); congruence.
Qed.

(** X5. Through [main], a flag of the i-th record ([main], [sync], [ignore],
    [removed], [manual], [Archived], [ideal]) is a boolean: the truth value
    that Python gives the cell of the i-th row, and False for a missing
    cell. *)
Theorem flags_are_truth_values
    (a b employers jobsources : DataFrame) (ie xd : bool) (now : string)
    (u : ConcatJobs.unified) (i : nat) (j : list (string * pyval)) (f : string)
    (Hmain : ConcatJobs.main a b employers jobsources ie xd now = Ok u)
    (Hj : ConcatJobs.jobs u !! i = Some j)
    (Hf : In f flag_fields) :
  exists r na, (rows a ++ rows b) !! i = Some r
    /\ pd_isna (cell r f) = Ok na
    /\ dict_get f j = Some (VBool (if na then false else py_bool (cell r f))).
Proof.
  destruct (main_cell_at _ _ _ _ _ _ _ _ _ _ Hmain Hj)
    as (r & row & e0 & Hr & H0 & Hcell).
  destruct (Hcell f (or_introl Hf)) as (Hsame & Hv).
  apply base_entry_fields in H0 as (_ & Hflags & _).
  destruct (Hflags f Hf) as (v & x & Hrow & Hflag & He0).
  apply Hv in Hrow. subst v. unfold flag_of in Hflag.
  destruct (pd_isna (cell r f)) as [na|] eqn:Hna; [|discriminate].
  injection Hflag as <-. exists r, na. rewrite Hsame. auto.
Qed.

Lemma flags_are_truth_values_witness :
  exists r na, (rows Sample.active ++ rows Sample.archived) !! 0%nat = Some r
    /\ pd_isna (cell r "ideal") = Ok na
    /\ dict_get "ideal" (List.nth 0 (ConcatJobs.jobs (Sample.document false true)) [])
       = Some (VBool (if na then false else py_bool (cell r "ideal"))).
Proof.
  apply (flags_are_truth_values Sample.active Sample.archived Sample.employers
           Sample.jobsources false false Sample.now (Sample.document false true)).
  - vm_compute. reflexivity.
  - vm_compute. reflexivity.
  - unfold flag_fields. simpl. tauto.
Defined.

(** X6. The [id] of the i-th record is the integer that [int] makes of the
    [id] cell of the i-th row that the assembler receives, or None for a
    missing cell; its [clicks] likewise, with 0 for a missing cell.  Neither
    is ever written as a float or as a text. *)
Theorem id_and_clicks_are_integers
    (jobs employers jobsources : DataFrame) (ie id : bool) (now : string)
    (u : ConcatJobs.unified) (i : nat) (entry : list (string * pyval))
    (Hbuild : ConcatJobs.build_unified_structure jobs employers jobsources ie id now = Ok u)
    (Hentry : ConcatJobs.jobs u !! i = Some entry) :
  exists row vid vclicks,
    rows jobs !! i = Some row
    /\ dict_get "id" row = Some vid /\ dict_get "clicks" row = Some vclicks
    /\ (pd_isna vid = Ok true /\ dict_get "id" entry = Some VNone
        \/ exists z, pd_isna vid = Ok false
             /\ py_int vid = Ok z /\ dict_get "id" entry = Some (VInt z))
    /\ (pd_isna vclicks = Ok true /\ dict_get "clicks" entry = Some (VInt 0)
        \/ exists z, pd_isna vclicks = Ok false
             /\ py_int vclicks = Ok z /\ dict_get "clicks" entry = Some (VInt z)).
Proof.
  apply build_unified_structure_jobs in Hbuild as (el & sl & _ & _ & Hjobs & _).
  destruct (for_each_lookup _ _ _ Hjobs i entry Hentry) as (row & Hrow & Hje).
  apply job_entry_base in Hje as (e0 & H0 & Hsame).
  apply base_entry_fields in H0
    as (_ & _ & (vid & xid & Hid & Hxid & Heid) & (vcl & xcl & Hcl & Hxcl & Hecl)).
  exists row, vid, vcl.
  split; [exact Hrow|]. split; [exact Hid|]. split; [exact Hcl|].
  assert (Hnum : forall f d v x,
             ~ In f added_fields -> int_or d v = Some x -> dict_get f e0 = Some x ->
             pd_isna v = Ok true /\ dict_get f entry = Some d
             \/ exists z, pd_isna v = Ok false
                  /\ py_int v = Ok z /\ dict_get f entry = Some (VInt z)).
  { intros f d v x Hf Hint He0. rewrite (Hsame f Hf), He0. unfold int_or in Hint.
    destruct (pd_isna v) as [[]|]; [| |discriminate].
    - injection Hint as <-. left. auto.
    - destruct (py_int v) as [z|]; [|discriminate].
      injection Hint as <-. right. exists z. auto. }
  assert (Hplain : forall f, f = "id" \/ f = "clicks" -> ~ In f added_fields).
  { intros f [->| ->] Hin; unfold added_fields in Hin; simpl in Hin;
      repeat (destruct Hin as [Hin|Hin]; [discriminate|]); contradiction. }
  split; [eapply Hnum; [apply Hplain; left; reflexivity | exact Hxid | exact Heid]
         | eapply Hnum; [apply Hplain; right; reflexivity | exact Hxcl | exact Hecl]].
Qed.

Lemma id_and_clicks_are_integers_witness :
  exists row vid vclicks,
    rows Sample.all_jobs !! 2%nat = Some row
    /\ dict_get "id" row = Some vid /\ dict_get "clicks" row = Some vclicks
    /\ (pd_isna vid = Ok true
        /\ dict_get "id" (List.nth 2 (ConcatJobs.jobs (Sample.document false true)) [])
           = Some VNone
        \/ exists z, pd_isna vid = Ok false
             /\ py_int vid = Ok z
             /\ dict_get "id" (List.nth 2 (ConcatJobs.jobs (Sample.document false true)) [])
                = Some (VInt z))
    /\ (pd_isna vclicks = Ok true
        /\ dict_get "clicks" (List.nth 2 (ConcatJobs.jobs (Sample.document false true)) [])
           = Some (VInt 0)
        \/ exists z, pd_isna vclicks = Ok false
             /\ py_int vclicks = Ok z
             /\ dict_get "clicks"
                  (List.nth 2 (ConcatJobs.jobs (Sample.document false true)) [])
                = Some (VInt z)).
Proof.
  apply (id_and_clicks_are_integers Sample.all_jobs Sample.employers
           Sample.jobsources false true Sample.now (Sample.document false true)).
  - vm_compute. reflexivity.
  - vm_compute. reflexivity.
Defined.

(** ** The fields of a record *)

Lemma keys_dict_set_new {V : Type} (k : string) (v : V) (d : list (string * V)) :
  ~ In k (List.map fst d) -> List.map fst (dict_set k v d) = List.map fst d ++ [k].
Proof.
  induction d as [|[k' v'] d IH]; simpl; intros H; [reflexivity|].
  destruct (String.eqb_spec k k') as [->|Hk].
  - exfalso. apply H. left. reflexivity.
  - simpl. f_equal. apply IH. intros Hin. apply H. right. exact Hin.
Qed.

Lemma keys_dict_set_old {V : Type} (k : string) (v : V) (d : list (string * V)) :
  List.map fst (dict_set k v d)
  = if dict_has k d then List.map fst d else List.map fst d ++ [k].
Proof.
  unfold dict_has. induction d as [|[k' v'] d IH]; simpl; [reflexivity|].
  destruct (String.eqb_spec k k') as [->|Hk]; simpl; [reflexivity|].
  rewrite IH. destruct (dict_get k d); reflexivity.
Qed.

Ltac absent_key Hkeys :=
  rewrite Hkeys; unfold record_fields, base_fields; simpl;
  repeat match goal with
         | |- context [if ?b then _ else _] => destruct b; simpl
         end;
  intros Hin; repeat (destruct Hin as [Hin|Hin]; [discriminate|]); contradiction.

Lemma job_entry_fields (el sl : list (key * list (string * pyval)))
    (ie id : bool) (row : Series) (entry : list (string * pyval)) :
  ConcatJobs.job_entry el sl ie id row = Ok entry ->
  exists employer_id jobsource_id,
    item row "employer_id" = Ok employer_id
    /\ item row "jobsource_id" = Ok jobsource_id
    /\ List.map fst entry
       = record_fields id ie (dict_has "original_id" entry)
           (resolves employer_id el) (resolves jobsource_id sl).
Proof.
  intros H.
  apply job_entry_steps in H as (e0 & e1 & e2 & e3 & e4 & H0 & H1 & H2 & H3 & H4 & H5).
  assert (Horig : dict_has "original_id" entry = dict_has "original_id" e3).
  { unfold dict_has.
    rewrite (resolve_jobsource_get _ _ _ _ "original_id" H5) by discriminate.
    rewrite (resolve_employer_get _ _ _ _ "original_id" H4) by discriminate.
    reflexivity. }
  apply base_entry_keys in H0 as (K0 & _).
  assert (K1 : List.map fst e1
               = base_fields ++ (if id then ["description"] else [])).
  { unfold ConcatJobs.add_description in H1. destruct id.
    - apply bind_Ok in H1 as (x & _ & H1). injection H1 as <-.
      rewrite keys_dict_set_new, K0; [reflexivity|].
      rewrite K0. simpl. intros Hin.
      repeat (destruct Hin as [Hin|Hin]; [discriminate|]). contradiction.
    - injection H1 as <-. rewrite K0, app_nil_r. reflexivity. }
  assert (K2 : List.map fst e2
               = base_fields ++ (if id then ["description"] else [])
                 ++ (if ie then ["job_embedding"] else [])).
  { unfold ConcatJobs.add_embedding in H2. destruct ie.
    - apply bind_Ok in H2 as (x & _ & H2). injection H2 as <-.
      rewrite keys_dict_set_new, K1, <- app_assoc; [reflexivity|].
      absent_key K1.
    - injection H2 as <-. rewrite K1, app_nil_r. reflexivity. }
  assert (K3 : List.map fst e3
               = base_fields ++ (if id then ["description"] else [])
                 ++ (if ie then ["job_embedding"] else [])
                 ++ (if dict_has "original_id" e3 then ["original_id"] else [])).
  { assert (Hno : ~ In "original_id" (List.map fst e2)) by absent_key K2.
    unfold ConcatJobs.add_original_id in H3.
    apply bind_Ok in H3 as ([] & _ & H3).
    - apply bind_Ok in H3 as (v & _ & H3). apply bind_Ok in H3 as (z & _ & H3).
      injection H3 as <-. unfold dict_has. rewrite dict_get_set_eq.
      rewrite keys_dict_set_new, K2, <- !app_assoc by exact Hno. reflexivity.
    - injection H3 as <-. unfold dict_has.
      rewrite (dict_get_not_key _ _ Hno), K2, app_nil_r. reflexivity. }
  rewrite <- Horig in K3.
  apply resolve_employer_spec in H4 as (fke & Hfke & H4).
  apply resolve_jobsource_spec in H5 as (fks & Hfks & H5).
  exists fke, fks. split; [exact Hfke|]. split; [exact Hfks|].
  assert (K4 : List.map fst e4
               = base_fields ++ (if id then ["description"] else [])
                 ++ (if ie then ["job_embedding"] else [])
                 ++ (if dict_has "original_id" entry then ["original_id"] else [])
                 ++ ["employer"]
                 ++ (if resolves fke el then [] else ["employer_id"])).
  { assert (Hno : ~ In "employer" (List.map fst e3)) by absent_key K3.
    destruct H4 as [(-> & k & emp & a1 & a2 & a3 & a4 & _ & _ & _ & _ & _ & _ & ->)
                   |(-> & ->)].
    - rewrite keys_dict_set_new, K3, <- !app_assoc by exact Hno. reflexivity.
    - assert (K : List.map fst (dict_set "employer" VNone e3)
                  = List.map fst e3 ++ ["employer"])
        by (apply keys_dict_set_new; exact Hno).
      rewrite keys_dict_set_new, K, K3, <- !app_assoc; [reflexivity|].
      rewrite K, K3.
      destruct id, ie, (dict_has "original_id" entry); simpl; intros Hin;
        repeat (destruct Hin as [Hin|Hin]; [discriminate|]); contradiction. }
  assert (Hno : ~ In "jobsource" (List.map fst e4)).
  { rewrite K4.
    destruct id, ie, (dict_has "original_id" entry), (resolves fke el); simpl;
      intros Hin; repeat (destruct Hin as [Hin|Hin]; [discriminate|]); contradiction. }
  assert (Hsrc : ~ In "jobsource_id" (List.map fst e4)).
  { rewrite K4.
    destruct id, ie, (dict_has "original_id" entry), (resolves fke el); simpl;
      intros Hin; repeat (destruct Hin as [Hin|Hin]; [discriminate|]); contradiction. }
  assert (K5 : List.map fst entry
               = List.map fst e4 ++ ["jobsource"]
                 ++ (if resolves fks sl then [] else ["jobsource_id"])).
  { clear K3 K4 Horig.
    destruct H5 as [(-> & k & src & a1 & a2 & _ & _ & _ & _ & ->)|(-> & ->)].
    - rewrite keys_dict_set_new by exact Hno. reflexivity.
    - assert (K : List.map fst (dict_set "jobsource" VNone e4)
                  = List.map fst e4 ++ ["jobsource"])
        by (apply keys_dict_set_new; exact Hno).
      rewrite keys_dict_set_new, K, <- !app_assoc; [reflexivity|].
      rewrite K. intros Hin. apply in_app_or in Hin as [Hin|[Hin|[]]].
      + apply Hsrc. exact Hin.
      + discriminate. }
  rewrite K5, K4. unfold record_fields. rewrite <- !app_assoc. reflexivity.
Qed.

Lemma record_fields_NoDup (id ie o e s : bool) : NoDup (record_fields id ie o e s).
Proof.
  destruct id, ie, o, e, s; apply (bool_decide_unpack _); vm_compute; reflexivity.
Qed.

(** X7. The fields of a job record, in order: the nineteen of the literal,
    then [description] and [job_embedding] as the options ask, [original_id]
    when the record has one, [employer] (followed by [employer_id] exactly
    when the employer is not resolved) and [jobsource] (followed by
    [jobsource_id] exactly when the source is not resolved); no field occurs
    twice. *)
Theorem record_schema
    (jobs employers jobsources : DataFrame) (ie id : bool) (now : string)
    (u : ConcatJobs.unified) (i : nat) (entry : list (string * pyval))
    (Hbuild : ConcatJobs.build_unified_structure jobs employers jobsources ie id now = Ok u)
    (Hentry : ConcatJobs.jobs u !! i = Some entry) :
  exists row employer_lookup jobsource_lookup employer_id jobsource_id,
    rows jobs !! i = Some row
    /\ ConcatJobs.build_lookup ConcatJobs.employer_entry (rows employers) []
       = Ok employer_lookup
    /\ ConcatJobs.build_lookup ConcatJobs.jobsource_entry (rows jobsources) []
       = Ok jobsource_lookup
    /\ item row "employer_id" = Ok employer_id
    /\ item row "jobsource_id" = Ok jobsource_id
    /\ List.map fst entry
       = record_fields id ie (dict_has "original_id" entry)
           (resolves employer_id employer_lookup)
           (resolves jobsource_id jobsource_lookup)
    /\ NoDup (List.map fst entry).
Proof.
  apply build_unified_structure_jobs in Hbuild as (el & sl & Hel & Hsl & Hjobs & _).
  destruct (for_each_lookup _ _ _ Hjobs i entry Hentry) as (row & Hrow & Hje).
  apply job_entry_fields in Hje as (fke & fks & Hfke & Hfks & Hkeys).
  exists row, el, sl, fke, fks. repeat split; try assumption.
  rewrite Hkeys. apply record_fields_NoDup.
Qed.

Lemma record_schema_witness :
  exists row employer_lookup jobsource_lookup employer_id jobsource_id,
    rows Sample.all_jobs !! 1%nat = Some row
    /\ ConcatJobs.build_lookup ConcatJobs.employer_entry (rows Sample.employers) []
       = Ok employer_lookup
    /\ ConcatJobs.build_lookup ConcatJobs.jobsource_entry (rows Sample.jobsources) []
       = Ok jobsource_lookup
    /\ item row "employer_id" = Ok employer_id
    /\ item row "jobsource_id" = Ok jobsource_id
    /\ List.map fst (List.nth 1 (ConcatJobs.jobs (Sample.document true true)) [])
       = record_fields true true
           (dict_has "original_id"
              (List.nth 1 (ConcatJobs.jobs (Sample.document true true)) []))
           (resolves employer_id employer_lookup)
           (resolves jobsource_id jobsource_lookup)
    /\ NoDup (List.map fst (List.nth 1 (ConcatJobs.jobs (Sample.document true true)) [])).
Proof.
  apply (record_schema Sample.all_jobs Sample.employers Sample.jobsources
           true true Sample.now (Sample.document true true)).
  - vm_compute. reflexivity.
  - vm_compute. reflexivity.
Defined.

(** ** What a cell becomes *)

Lemma or_none_not_nan (v : pyval) : is_nan (or_none v) = false.
Proof.
  unfold or_none. destruct (pd_isna v) as [[]|] eqn:E; [reflexivity| |];
    destruct v; try reflexivity; discriminate.
Qed.

Lemma flag_of_bool (v x : pyval) : flag_of v = Some x -> is_bool x = true.
Proof.
  unfold flag_of. destruct (pd_isna v); [|discriminate].
  intros H. injection H as <-. reflexivity.
Qed.

Lemma int_or_int (d v x : pyval) : int_or d v = Some x -> x = d \/ is_int x = true.
Proof.
  unfold int_or. destruct (pd_isna v) as [[]|]; [| |discriminate].
  - intros H. injection H as <-. left. reflexivity.
  - destruct (py_int v); [|discriminate]. intros H. injection H as <-.
    right. reflexivity.
Qed.

(** ** The entries of the reference collections *)

Lemma employer_entry_shape (row : Series) (id : pyval) (e : list (string * pyval)) :
  ConcatJobs.employer_entry row = Ok (id, e) ->
  employer_shape e /\ dict_get "id" e = Some id.
Proof.
  unfold ConcatJobs.employer_entry. intros H.
  apply bind_Ok in H as (rid & _ & H).
  apply bind_Ok in H as (name & Hname & H).
  apply bind_Ok in H as (alt_name & Halt & H).
  apply bind_Ok in H as (logo_url & Hlogo & H).
  apply bind_Ok in H as (fh & Hfh & H).
  apply bind_Ok in H as (c1 & Hc1 & H).
  apply bind_Ok in H as (c2 & Hc2 & H).
  injection H as <- <-. split; [|reflexivity].
  apply item_or_none_spec in Hname as (? & _ & ->).
  apply item_or_none_spec in Halt as (? & _ & ->).
  apply item_or_none_spec in Hlogo as (? & _ & ->).
  apply item_bool_spec in Hfh as (? & _ & Hfh). apply flag_of_bool in Hfh.
  apply item_int_or_spec in Hc1 as (? & _ & Hc1).
  apply int_or_int in Hc1 as [->|Hc1]; [|];
    apply item_int_or_spec in Hc2 as (? & _ & Hc2);
    apply int_or_int in Hc2 as [->|Hc2];
    repeat eexists; try apply or_none_not_nan; try assumption; reflexivity.
Qed.

Lemma jobsource_entry_shape (row : Series) (id : pyval) (s : list (string * pyval)) :
  ConcatJobs.jobsource_entry row = Ok (id, s) ->
  jobsource_shape s /\ dict_get "jobsource_id" s = Some id.
Proof.
  unfold ConcatJobs.jobsource_entry. intros H.
  apply bind_Ok in H as (rid & _ & H).
  apply bind_Ok in H as (label & Hlabel & H).
  apply bind_Ok in H as (description & Hdescription & H).
  injection H as <- <-. split; [|reflexivity].
  apply item_or_none_spec in Hlabel as (? & _ & ->).
  apply item_or_none_spec in Hdescription as (? & _ & ->).
  repeat eexists; apply or_none_not_nan.
Qed.

Lemma lookup_set_In {V : Type} (k k' : key) (v e : V) (d : list (key * V)) :
  In (k, e) (lookup_set k' v d) -> In (k, e) d \/ (k = k' /\ e = v).
Proof.
  induction d as [|[k0 v0] d IH]; simpl.
  - intros [H|[]]. injection H as <- <-. right. auto.
  - destruct (key_eqb k0 k') eqn:E; simpl.
    + intros [H|H]; [|left; right; exact H].
      injection H as <- <-. apply key_eqb_eq in E as (-> & _). right. auto.
    + intros [H|H]; [left; left; exact H|].
      apply IH in H as [H|H]; [left; right; exact H | right; exact H].
Qed.

(** What holds of every row's entry under its key holds of every entry of
    the index. *)
Lemma build_lookup_invariant
    (entry_of : Series -> result (pyval * list (string * pyval)))
    (P : key -> list (string * pyval) -> Prop) (rs : list Series) :
  (forall row id e k, entry_of row = Ok (id, e) -> key_of id = Ok k -> P k e) ->
  forall d lookup,
    ConcatJobs.build_lookup entry_of rs d = Ok lookup ->
    (forall k e, In (k, e) d -> P k e) ->
    forall k e, In (k, e) lookup -> P k e.
Proof.
  intros Hentry. induction rs as [|row rs IH]; simpl; intros d lookup H Hd k e Hin.
  - injection H as <-. apply Hd. exact Hin.
  - apply bind_Ok in H as ([id e0] & He0 & H). apply bind_Ok in H as (k0 & Hk0 & H).
    simpl in Hk0, H. eapply IH; [exact H| |exact Hin].
    intros k1 e1 H1. apply lookup_set_In in H1 as [H1|(-> & ->)].
    + apply Hd. exact H1.
    + eapply Hentry; eassumption.
Qed.

Lemma lookup_values_In {V : Type} (d : list (key * V)) (v : V) :
  In v (lookup_values d) -> exists k, In (k, v) d.
Proof.
  unfold lookup_values. intros H. apply in_map_iff in H as ([k v'] & <- & H).
  exists k. exact H.
Qed.

(** X8. Every entry of the employers collection has the seven fields [id],
    [name], [alt_name], [logo_url], [fh], [jobscount], [jobscount_online] in
    this order, with [fh] a boolean, the two counters integers and none of
    the three texts NaN; every entry of the job-sources collection has the
    three fields [jobsource_id], [jobsource], [description], the two texts
    never NaN. *)
Theorem reference_entries_shape
    (jobs employers jobsources : DataFrame) (ie id : bool) (now : string)
    (u : ConcatJobs.unified)
    (Hbuild : ConcatJobs.build_unified_structure jobs employers jobsources ie id now = Ok u) :
  Forall employer_shape (ConcatJobs.employers u)
  /\ Forall jobsource_shape (ConcatJobs.jobsources u).
Proof.
  apply build_unified_structure_jobs in Hbuild
    as (el & sl & Hel & Hsl & _ & -> & -> & _).
  split; apply Forall_forall; intros e He; apply list_elem_of_In in He;
    apply lookup_values_In in He as (k & He).
  - revert k e He.
    apply (build_lookup_invariant ConcatJobs.employer_entry
             (fun _ e => employer_shape e) (rows employers)) with (d := []);
      [|exact Hel|intros ? ? []].
    intros row rid e k He _. apply employer_entry_shape in He as (He & _). exact He.
  - revert k e He.
    apply (build_lookup_invariant ConcatJobs.jobsource_entry
             (fun _ e => jobsource_shape e) (rows jobsources)) with (d := []);
      [|exact Hsl|intros ? ? []].
    intros row rid e k He _. apply jobsource_entry_shape in He as (He & _). exact He.
Qed.

Lemma reference_entries_shape_witness :
  Forall employer_shape (ConcatJobs.employers (Sample.document false true))
  /\ Forall jobsource_shape (ConcatJobs.jobsources (Sample.document false true)).
Proof.
  apply (reference_entries_shape Sample.all_jobs Sample.employers Sample.jobsources
           false true Sample.now).
  vm_compute. reflexivity.
Defined.

(** ** Missing cells in a record *)

Lemma clean_entries_no_nan (except : list string) (d : list (string * pyval)) :
  clean_entries except d -> no_nan_but except d.
Proof.
  unfold clean_entries, no_nan_but. induction 1 as [|[k' v] d Hkv _ IH]; simpl.
  - intros k _ H. discriminate.
  - intros k Hk. destruct (String.eqb_spec k k') as [->|_]; [|apply IH; exact Hk].
    intros H. injection H as ->. destruct Hkv as [Hin|Hnan]; [tauto | discriminate].
Qed.

Lemma clean_entries_set (except : list string) (k : string) (v : pyval)
    (d : list (string * pyval)) :
  clean_entries except d -> is_nan v = false -> clean_entries except (dict_set k v d).
Proof.
  unfold clean_entries. intros Hd Hv. induction Hd as [|[k' v'] d Hkv Hd IH]; simpl.
  - constructor; [right; exact Hv | constructor].
  - destruct (String.eqb k k'); constructor; auto.
Qed.

Lemma is_bool_not_nan (v : pyval) : is_bool v = true -> is_nan v = false.
Proof. destruct v; simpl; congruence. Qed.

Lemma int_or_not_nan (d v x : pyval) :
  is_nan d = false -> int_or d v = Some x -> is_nan x = false.
Proof.
  intros Hd H. apply int_or_int in H as [->|H]; [exact Hd|].
  destruct x; simpl in *; congruence.
Qed.

Lemma base_entry_clean (row : Series) (e : list (string * pyval)) :
  ConcatJobs.base_entry row = Ok e ->
  clean_entries ["source_table"; "CategorizedData"] e.
Proof.
  unfold ConcatJobs.base_entry. intros H.
  apply bind_Ok in H as (id & Hid & H).
  apply bind_Ok in H as (job_title & Hjob_title & H).
  apply bind_Ok in H as (url & Hurl & H).
  apply bind_Ok in H as (department & Hdepartment & H).
  apply bind_Ok in H as (level & Hlevel & H).
  apply bind_Ok in H as (location & Hlocation & H).
  apply bind_Ok in H as (schedule & Hschedule & H).
  apply bind_Ok in H as (main & Hmain & H).
  apply bind_Ok in H as (sync & Hsync & H).
  apply bind_Ok in H as (ignore & Hignore & H).
  apply bind_Ok in H as (removed & Hremoved & H).
  apply bind_Ok in H as (manual & Hmanual & H).
  apply bind_Ok in H as (archived & Harchived & H).
  apply bind_Ok in H as (ideal & Hideal & H).
  apply bind_Ok in H as (created_at & Hcreated_at & H).
  apply bind_Ok in H as (updated_at & Hupdated_at & H).
  apply bind_Ok in H as (source_table & Hsource_table & H).
  apply bind_Ok in H as (categorized & Hcategorized & H).
  apply bind_Ok in H as (clicks & Hclicks & H).
  injection H as <-.
  repeat match goal with
         | Hx : ConcatJobs.item_or_none _ _ = Ok _ |- _ =>
             apply item_or_none_spec in Hx as (? & _ & ->)
         | Hx : ConcatJobs.item_bool _ _ = Ok _ |- _ =>
             apply item_bool_spec in Hx as (? & _ & Hx);
             apply flag_of_bool, is_bool_not_nan in Hx
         | Hx : ConcatJobs.item_int_or _ _ _ = Ok _ |- _ =>
             apply item_int_or_spec in Hx as (? & _ & Hx);
             apply int_or_not_nan in Hx; [|reflexivity]
         end.
  unfold clean_entries.
  repeat (constructor;
          [first [right; apply or_none_not_nan | right; assumption
                 | left; simpl; tauto]|]).
  constructor.
Qed.

Lemma job_entry_clean (el sl : list (key * list (string * pyval)))
    (ie id : bool) (row : Series) (entry : list (string * pyval)) :
  ConcatJobs.job_entry el sl ie id row = Ok entry ->
  clean_entries ["source_table"; "CategorizedData"] entry.
Proof.
  intros H.
  apply job_entry_steps in H as (e0 & e1 & e2 & e3 & e4 & H0 & H1 & H2 & H3 & H4 & H5).
  apply base_entry_clean in H0.
  assert (C1 : clean_entries ["source_table"; "CategorizedData"] e1).
  { unfold ConcatJobs.add_description in H1. destruct id.
    - apply bind_Ok in H1 as (x & Hx & H1). injection H1 as <-.
      apply item_or_none_spec in Hx as (? & _ & ->).
      apply clean_entries_set; [exact H0 | apply or_none_not_nan].
    - injection H1 as <-. exact H0. }
  assert (C2 : clean_entries ["source_table"; "CategorizedData"] e2).
  { unfold ConcatJobs.add_embedding in H2. destruct ie.
    - apply bind_Ok in H2 as (x & Hx & H2). injection H2 as <-.
      apply item_or_none_spec in Hx as (? & _ & ->).
      apply clean_entries_set; [exact C1 | apply or_none_not_nan].
    - injection H2 as <-. exact C1. }
  assert (C3 : clean_entries ["source_table"; "CategorizedData"] e3).
  { unfold ConcatJobs.add_original_id in H3. apply bind_Ok in H3 as ([] & _ & H3).
    - apply bind_Ok in H3 as (v & _ & H3). apply bind_Ok in H3 as (z & _ & H3).
      injection H3 as <-. apply clean_entries_set; [exact C2 | reflexivity].
    - injection H3 as <-. exact C2. }
  assert (C4 : clean_entries ["source_table"; "CategorizedData"] e4).
  { apply resolve_employer_spec in H4 as (fk & _ & H4).
    destruct H4 as [(_ & k & emp & a1 & a2 & a3 & a4 & _ & _ & _ & _ & _ & _ & ->)
                   |(_ & ->)].
    - apply clean_entries_set; [exact C3 | reflexivity].
    - apply clean_entries_set; [|apply or_none_not_nan].
      apply clean_entries_set; [exact C3 | reflexivity]. }
  apply resolve_jobsource_spec in H5 as (fk & _ & H5).
  destruct H5 as [(_ & k & src & a1 & a2 & _ & _ & _ & _ & ->)|(_ & ->)].
  - apply clean_entries_set; [exact C4 | reflexivity].
  - apply clean_entries_set; [|apply or_none_not_nan].
    apply clean_entries_set; [exact C4 | reflexivity].
Qed.

(** X9. No field of a job record that [main] writes is NaN, whatever cells
    are missing in the relations; the one exception is [CategorizedData],
    which is whatever the payload parses to. *)
Theorem missing_cells_are_never_nan
    (a b employers jobsources : DataFrame) (ie xd : bool) (now : string)
    (u : ConcatJobs.unified)
    (Hmain : ConcatJobs.main a b employers jobsources ie xd now = Ok u) :
  Forall (no_nan_but ["CategorizedData"]) (ConcatJobs.jobs u).
Proof.
  pose proof (main_jobs_split _ _ _ _ _ _ _ _ Hmain)
    as (ja & jb & Hjobs & _ & _ & Ta & Tb).
  assert (Htag : Forall (fun j => exists tag, dict_get "source_table" j = Some (VStr tag))
                   (ConcatJobs.jobs u)).
  { rewrite Hjobs. apply Forall_app. split.
    - eapply Forall_impl; [exact Ta|]. intros j Hj. exists "active". exact Hj.
    - eapply Forall_impl; [exact Tb|]. intros j Hj. exists "archived". exact Hj. }
  apply main_stages in Hmain as (parsed & _ & Hu).
  apply build_unified_structure_jobs in Hu as (el & sl & _ & _ & Hj & _).
  assert (Hclean : Forall (no_nan_but ["source_table"; "CategorizedData"])
                     (ConcatJobs.jobs u)).
  { eapply for_each_Forall with (P := fun _ => True); [exact Hj| |].
    - apply Forall_forall. intros; exact I.
    - intros row j _ Hje. apply clean_entries_no_nan.
      eapply job_entry_clean. exact Hje. }
  rewrite Forall_forall in Htag, Hclean. apply Forall_forall. intros j Hin k Hk.
  destruct (String.eqb_spec k "source_table") as [->|Hne].
  - destruct (Htag j Hin) as (tag & ->). discriminate.
  - apply (Hclean j Hin). simpl. simpl in Hk. intros [H|[H|[]]]; [congruence|].
    apply Hk. left. exact H.
Qed.

Lemma missing_cells_are_never_nan_witness :
  Forall (no_nan_but ["CategorizedData"]) (ConcatJobs.jobs (Sample.document false true)).
Proof.
  apply (missing_cells_are_never_nan Sample.active Sample.archived Sample.employers
           Sample.jobsources false false Sample.now).
  vm_compute. reflexivity.
Defined.

(** ** The identifier inside an embedded reference *)

Lemma lookup_get_pair {V : Type} (k : key) (d : list (key * V)) (v : V) :
  lookup_get k d = Some v -> In (k, v) d /\ k <> KNaN.
Proof.
  induction d as [|[k0 v0] d IH]; simpl; [discriminate|].
  destruct (key_eqb k0 k) eqn:E.
  - intros H. injection H as <-. apply key_eqb_eq in E as (Heq & Hk). subst k0.
    split; [left; reflexivity | exact Hk].
  - intros H. apply IH in H as (H & Hk). split; [right; exact H | exact Hk].
Qed.

Lemma build_lookup_filed (entry_of : Series -> result (pyval * list (string * pyval)))
    (id_field : string) (rs : list Series) (lookup : list (key * list (string * pyval))) :
  (forall row id e, entry_of row = Ok (id, e) -> dict_get id_field e = Some id) ->
  ConcatJobs.build_lookup entry_of rs [] = Ok lookup ->
  forall k e, lookup_get k lookup = Some e -> filed_under id_field k e /\ k <> KNaN.
Proof.
  intros Hid Hbuild k e Hget. apply lookup_get_pair in Hget as (Hin & Hk).
  split; [|exact Hk]. clear Hk. revert k e Hin.
  apply (build_lookup_invariant entry_of (filed_under id_field) rs) with (d := []);
    [|exact Hbuild|intros ? ? []].
  intros row id e k He Hkey. exists id. split; [eapply Hid; exact He | exact Hkey].
Qed.

Lemma job_entry_embedded_ids (el sl : list (key * list (string * pyval)))
    (ie id : bool) (row : Series) (entry : list (string * pyval)) :
  (forall k e, lookup_get k el = Some e -> filed_under "id" k e /\ k <> KNaN) ->
  (forall k e, lookup_get k sl = Some e -> filed_under "jobsource_id" k e /\ k <> KNaN) ->
  ConcatJobs.job_entry el sl ie id row = Ok entry ->
  (forall ref, dict_get "employer" entry = Some (VDict ref) ->
     exists fk rid k,
       dict_get "employer_id" row = Some fk /\ dict_get "id" ref = Some rid
       /\ key_of fk = Ok k /\ key_of rid = Ok k /\ k <> KNaN)
  /\ (forall ref, dict_get "jobsource" entry = Some (VDict ref) ->
        exists fk rid k,
          dict_get "jobsource_id" row = Some fk
          /\ dict_get "jobsource_id" ref = Some rid
          /\ key_of fk = Ok k /\ key_of rid = Ok k /\ k <> KNaN).
Proof.
  intros Hel Hsl H.
  apply job_entry_steps in H as (e0 & e1 & e2 & e3 & e4 & H0 & H1 & H2 & H3 & H4 & H5).
  pose proof (resolve_jobsource_get _ _ _ _ "employer" H5) as Hemp.
  apply resolve_employer_spec in H4 as (fke & Hfke & H4).
  apply resolve_jobsource_spec in H5 as (fks & Hfks & H5).
  apply item_Ok in Hfke. apply item_Ok in Hfks.
  split; intros ref Href.
  - rewrite Hemp in Href by discriminate.
    destruct H4 as [(_ & k & emp & a1 & a2 & a3 & a4 & Hk & Hget & Ha1 & _ & _ & _ & Heq)
                   |(_ & Heq)]; rewrite Heq in Href.
    + rewrite dict_get_set_eq in Href. injection Href as <-.
      destruct (Hel k emp Hget) as ((rid & Hrid & Hkey) & Hnan).
      apply item_Ok in Ha1. rewrite Hrid in Ha1. injection Ha1 as <-.
      exists fke, rid, k. repeat split; assumption.
    + rewrite dict_get_set_ne, dict_get_set_eq in Href by discriminate. discriminate.
  - destruct H5 as [(_ & k & src & a1 & a2 & Hk & Hget & Ha1 & _ & Heq)
                   |(_ & Heq)]; rewrite Heq in Href.
    + rewrite dict_get_set_eq in Href. injection Href as <-.
      destruct (Hsl k src Hget) as ((rid & Hrid & Hkey) & Hnan).
      apply item_Ok in Ha1. rewrite Hrid in Ha1. injection Ha1 as <-.
      exists fks, rid, k. repeat split; assumption.
    + rewrite dict_get_set_ne, dict_get_set_eq in Href by discriminate. discriminate.
Qed.

(** X10. The identifier inside an embedded reference is the one the row
    points to: when a record has an [employer] object, the [id] in it and the
    row's [employer_id] are the same dictionary key (so 10 and 10.0 agree),
    and that key is not NaN; the same holds of [jobsource] and the row's
    [jobsource_id]. *)
Theorem embedded_ids_match_foreign_keys
    (jobs employers jobsources : DataFrame) (ie id : bool) (now : string)
    (u : ConcatJobs.unified) (i : nat) (entry : list (string * pyval))
    (Hbuild : ConcatJobs.build_unified_structure jobs employers jobsources ie id now = Ok u)
    (Hentry : ConcatJobs.jobs u !! i = Some entry) :
  exists row, rows jobs !! i = Some row
    /\ (forall ref, dict_get "employer" entry = Some (VDict ref) ->
          exists fk rid k,
            dict_get "employer_id" row = Some fk /\ dict_get "id" ref = Some rid
            /\ key_of fk = Ok k /\ key_of rid = Ok k /\ k <> KNaN)
    /\ (forall ref, dict_get "jobsource" entry = Some (VDict ref) ->
          exists fk rid k,
            dict_get "jobsource_id" row = Some fk
            /\ dict_get "jobsource_id" ref = Some rid
            /\ key_of fk = Ok k /\ key_of rid = Ok k /\ k <> KNaN).
Proof.
  apply build_unified_structure_jobs in Hbuild as (el & sl & Hel & Hsl & Hjobs & _).
  destruct (for_each_lookup _ _ _ Hjobs i entry Hentry) as (row & Hrow & Hje).
  exists row. split; [exact Hrow|].
  eapply job_entry_embedded_ids; [| |exact Hje].
  - eapply build_lookup_filed; [|exact Hel].
    intros r rid e He. apply employer_entry_shape in He as (_ & He). exact He.
  - eapply build_lookup_filed; [|exact Hsl].
    intros r rid e He. apply jobsource_entry_shape in He as (_ & He). exact He.
Qed.

Lemma embedded_ids_match_foreign_keys_witness :
  exists row, rows Sample.all_jobs !! 0%nat = Some row
    /\ (forall ref,
          dict_get "employer" (List.nth 0 (ConcatJobs.jobs (Sample.document false true)) [])
          = Some (VDict ref) ->
          exists fk rid k,
            dict_get "employer_id" row = Some fk /\ dict_get "id" ref = Some rid
            /\ key_of fk = Ok k /\ key_of rid = Ok k /\ k <> KNaN)
    /\ (forall ref,
          dict_get "jobsource" (List.nth 0 (ConcatJobs.jobs (Sample.document false true)) [])
          = Some (VDict ref) ->
          exists fk rid k,
            dict_get "jobsource_id" row = Some fk
            /\ dict_get "jobsource_id" ref = Some rid
            /\ key_of fk = Ok k /\ key_of rid = Ok k /\ k <> KNaN).
Proof.
  apply (embedded_ids_match_foreign_keys Sample.all_jobs Sample.employers
           Sample.jobsources false true Sample.now (Sample.document false true)).
  - vm_compute. reflexivity.
  - vm_compute. reflexivity.
Defined.

(** ** Resolution against the rows of a relation *)

Lemma for_each_In {A B : Type} (f : A -> result B) (xs : list A) (ys : list B) :
  for_each f xs = Ok ys ->
  forall y, In y ys <-> exists x, In x xs /\ f x = Ok y.
Proof.
  revert ys. induction xs as [|x xs IH]; simpl; intros ys H y.
  - injection H as <-. split; [intros [] | intros (x & [] & _)].
  - apply bind_Ok in H as (y0 & Hy0 & H). apply bind_Ok in H as (ys' & Hys & H).
    injection H as <-. simpl. rewrite (IH ys' Hys y). split.
    + intros [<-|(x' & Hin & Hx')]; [exists x; auto | exists x'; auto].
    + intros (x' & [<-|Hin] & Hx'); [left; congruence | right; eauto].
Qed.

Lemma employer_entry_id (row : Series) (id : pyval) (e : list (string * pyval)) :
  ConcatJobs.employer_entry row = Ok (id, e) -> dict_get "id" row = Some id.
Proof.
  unfold ConcatJobs.employer_entry. intros H.
  apply bind_Ok in H as (rid & Hrid & H). invert_bind H.
  injection H as <- _. apply item_Ok. exact Hrid.
Qed.

Lemma jobsource_entry_id (row : Series) (id : pyval) (e : list (string * pyval)) :
  ConcatJobs.jobsource_entry row = Ok (id, e) ->
  dict_get "jobsource_id" row = Some id.
Proof.
  unfold ConcatJobs.jobsource_entry. intros H.
  apply bind_Ok in H as (rid & Hrid & H). invert_bind H.
  injection H as <- _. apply item_Ok. exact Hrid.
Qed.

Lemma present_key_not_nan (fk : pyval) (k : key) :
  pd_isna fk = Ok false -> key_of fk = Ok k -> k <> KNaN.
Proof.
  destruct fk; simpl; try discriminate; intros _ H; injection H as <-;
    discriminate.
Qed.

Lemma resolves_iff_row
    (entry_of : Series -> result (pyval * list (string * pyval)))
    (id_field : string) (rs : list Series)
    (lookup : list (key * list (string * pyval))) (fk : pyval) :
  (forall row id e, entry_of row = Ok (id, e) -> dict_get id_field row = Some id) ->
  ConcatJobs.build_lookup entry_of rs [] = Ok lookup ->
  resolves fk lookup = true <-> points_to id_field rs fk.
Proof.
  intros Hid Hbuild. unfold resolves, points_to.
  destruct (pd_isna fk) as [[]|] eqn:Hna;
    try (split; [discriminate | intros (H & _); discriminate]).
  destruct (key_of fk) as [k|] eqn:Hk;
    [|split; [discriminate | intros (_ & k & r & rid & H & _); discriminate]].
  destruct (index_has_key_iff entry_of rs lookup k Hbuild) as (pairs & Hpairs & Hiff).
  unfold keyed_entries in Hpairs.
  pose proof (for_each_In _ _ _ Hpairs) as Hin.
  pose proof (present_key_not_nan fk k Hna Hk) as Hnan.
  split.
  - intros H. split; [reflexivity|].
    assert (Hsome : lookup_get k lookup <> None)
      by (destruct (lookup_get k lookup); [discriminate | discriminate]).
    apply Hiff in Hsome as ([k' e] & Hp & Heq). simpl in Heq.
    apply key_eqb_eq in Heq as (Heq & _). subst k'.
    apply Hin in Hp as (r & Hr & Hrow). simpl in Hrow.
    apply bind_Ok in Hrow as ([rid e0] & He0 & Hrow).
    apply bind_Ok in Hrow as (k0 & Hk0 & Hrow). simpl in Hk0, Hrow.
    injection Hrow as -> _.
    exists k, r, rid. repeat split; try assumption. eapply Hid. exact He0.
  - intros (_ & k' & r & rid & Hk' & Hr & Hrid & Hkey).
    injection Hk' as <-.
    assert (Hsome : lookup_get k lookup <> None).
    { apply Hiff.
      assert (Hrow : exists y, In y pairs /\ fst y = k).
      { apply list_elem_of_In, list_elem_of_lookup in Hr as (n & Hn).
        destruct (for_each_lookup_rev _ _ _ Hpairs n r Hn) as (y & Hy & Hf).
        exists y. split; [eapply list_elem_of_In, list_elem_of_lookup_2; exact Hy|].
        simpl in Hf. apply bind_Ok in Hf as ([rid' e0] & He0 & Hf).
        apply bind_Ok in Hf as (k0 & Hk0 & Hf). simpl in Hk0, Hf.
        injection Hf as <-. simpl.
        apply Hid in He0. rewrite Hrid in He0. injection He0 as <-. congruence. }
      destruct Hrow as (y & Hy & Hfst). exists y. split; [exact Hy|].
      rewrite Hfst. apply key_eqb_refl. exact Hnan. }
    destruct (lookup_get k lookup); [reflexivity | contradiction].
Qed.

(** X11. A record has an employer other than None exactly when the row's
    [employer_id] is present and some row of the employers relation has an
    [id] that is the same dictionary key; and a source other than None
    exactly when its [jobsource_id] is present and some row of the
    job-sources relation has that [jobsource_id]. *)
Theorem resolved_iff_row_exists
    (jobs employers jobsources : DataFrame) (ie id : bool) (now : string)
    (u : ConcatJobs.unified) (i : nat) (entry : list (string * pyval))
    (Hbuild : ConcatJobs.build_unified_structure jobs employers jobsources ie id now = Ok u)
    (Hentry : ConcatJobs.jobs u !! i = Some entry) :
  exists row employer_id jobsource_id,
    rows jobs !! i = Some row
    /\ dict_get "employer_id" row = Some employer_id
    /\ dict_get "jobsource_id" row = Some jobsource_id
    /\ (dict_get "employer" entry <> Some VNone
        <-> points_to "id" (rows employers) employer_id)
    /\ (dict_get "jobsource" entry <> Some VNone
        <-> points_to "jobsource_id" (rows jobsources) jobsource_id).
Proof.
  apply build_unified_structure_jobs in Hbuild as (el & sl & Hel & Hsl & Hjobs & _).
  destruct (for_each_lookup _ _ _ Hjobs i entry Hentry) as (row & Hrow & Hje).
  apply job_entry_carries_refs in Hje
    as (fke & fks & Hfke & Hfks & (He & _) & (Hs & _)).
  apply item_Ok in Hfke. apply item_Ok in Hfks.
  exists row, fke, fks.
  split; [exact Hrow|]. split; [exact Hfke|]. split; [exact Hfks|].
  split; split.
  - intros H. apply (resolves_iff_row ConcatJobs.employer_entry "id" _ el);
      [apply employer_entry_id | exact Hel | apply He; exact H].
  - intros H. apply He.
    apply (resolves_iff_row ConcatJobs.employer_entry "id" (rows employers));
      [apply employer_entry_id | exact Hel | exact H].
  - intros H. apply (resolves_iff_row ConcatJobs.jobsource_entry "jobsource_id" _ sl);
      [apply jobsource_entry_id | exact Hsl | apply Hs; exact H].
  - intros H. apply Hs.
    apply (resolves_iff_row ConcatJobs.jobsource_entry "jobsource_id" (rows jobsources));
      [apply jobsource_entry_id | exact Hsl | exact H].
Qed.

Lemma resolved_iff_row_exists_witness :
  exists row employer_id jobsource_id,
    rows Sample.all_jobs !! 1%nat = Some row
    /\ dict_get "employer_id" row = Some employer_id
    /\ dict_get "jobsource_id" row = Some jobsource_id
    /\ (dict_get "employer" (List.nth 1 (ConcatJobs.jobs (Sample.document false true)) [])
        <> Some VNone
        <-> points_to "id" (rows Sample.employers) employer_id)
    /\ (dict_get "jobsource" (List.nth 1 (ConcatJobs.jobs (Sample.document false true)) [])
        <> Some VNone
        <-> points_to "jobsource_id" (rows Sample.jobsources) jobsource_id).
Proof.
  apply (resolved_iff_row_exists Sample.all_jobs Sample.employers Sample.jobsources
           false true Sample.now (Sample.document false true)).
  - vm_compute. reflexivity.
  - vm_compute. reflexivity.
Defined.

(** ** The optional columns *)

Lemma parsed_rows_lack (a b parsed : DataFrame) (c : string) :
  ConcatJobs.parse_categorized_data (ConcatJobs.normalize_job_schemas a b) = Ok parsed ->
  has_column c a = false -> has_column c b = false ->
  c <> "original_id" -> c <> "source_table" -> c <> "CategorizedData" ->
  Forall (fun r => dict_get c r = None) (rows parsed).
Proof.
  intros Hp Ha Hb Ho Hs Hcd.
  apply parse_categorized_data_rows in Hp as (_ & Hp).
  apply Forall_forall. intros prow Hin.
  apply list_elem_of_lookup in Hin as (i & Hi).
  destruct (for_each_lookup _ _ _ Hp i prow Hi) as (nrow & Hnrow & Hparse).
  simpl in Hparse. apply bind_Ok in Hparse as (v & _ & Hparse).
  apply bind_Ok in Hparse as (p & _ & Hparse). injection Hparse as <-.
  rewrite dict_get_set_ne by exact Hcd.
  destruct (normalized_row_at a b i nrow Hnrow) as (r & _ & Hcells).
  rewrite (Hcells c Ho Hs), has_column_normalize_job_schemas, Ha, Hb.
  destruct (String.eqb_spec c "original_id"); [contradiction|].
  destruct (String.eqb_spec c "source_table"); [contradiction|]. reflexivity.
Qed.

Lemma job_entry_missing_optional (el sl : list (key * list (string * pyval)))
    (ie id : bool) (row : Series) (entry : list (string * pyval)) :
  ConcatJobs.job_entry el sl ie id row = Ok entry ->
  (dict_get "job_embedding" row = None ->
   ConcatJobs.job_entry el sl true id row = Raise KeyError)
  /\ (dict_get "description" row = None ->
      ConcatJobs.job_entry el sl ie true row = Raise KeyError).
Proof.
  intros H.
  apply job_entry_steps in H as (e0 & e1 & e2 & e3 & e4 & H0 & H1 & H2 & H3 & H4 & H5).
  unfold ConcatJobs.job_entry. rewrite H0. simpl. split; intros Hnone.
  - rewrite H1. simpl.
    unfold ConcatJobs.add_embedding, ConcatJobs.item_or_none, item.
    rewrite Hnone. reflexivity.
  - unfold ConcatJobs.add_description, ConcatJobs.item_or_none, item.
    rewrite Hnone. reflexivity.
Qed.

Lemma for_each_first_raises {A B : Type} (f g : A -> result B) (e : exn)
    (xs : list A) (ys : list B) :
  for_each f xs = Ok ys -> xs <> [] ->
  (forall x y, In x xs -> f x = Ok y -> g x = Raise e) ->
  for_each g xs = Raise e.
Proof.
  destruct xs as [|x xs]; [congruence|]. simpl. intros H _ Hg.
  apply bind_Ok in H as (y & Hy & _).
  rewrite (Hg x y (or_introl eq_refl) Hy). reflexivity.
Qed.

Lemma main_missing_optional (a b employers jobsources : DataFrame)
    (ie xd ie' xd' : bool) (now : string) (u : ConcatJobs.unified) (c : string) :
  ConcatJobs.main a b employers jobsources ie xd now = Ok u ->
  rows a ++ rows b <> [] ->
  has_column c a = false -> has_column c b = false ->
  c <> "original_id" -> c <> "source_table" -> c <> "CategorizedData" ->
  (forall el sl row entry,
     ConcatJobs.job_entry el sl ie (negb xd) row = Ok entry ->
     dict_get c row = None ->
     ConcatJobs.job_entry el sl ie' (negb xd') row = Raise KeyError) ->
  ConcatJobs.main a b employers jobsources ie' xd' now = Raise KeyError.
Proof.
  intros Hok Hrows Ha Hb Ho Hs Hcd Hstep.
  apply main_stages in Hok as (parsed & Hp & Hu).
  pose proof (parsed_rows_lack a b parsed c Hp Ha Hb Ho Hs Hcd) as Hlack.
  unfold ConcatJobs.main. rewrite Hp. simpl.
  assert (Hne : rows parsed <> []).
  { apply parse_categorized_data_rows in Hp as (_ & Hp).
    apply for_each_length in Hp.
    destruct (rows_normalize_job_schemas a b) as (? & ? & H).
    decompose [and] H. clear H.
    match goal with
    | Hr : rows (ConcatJobs.normalize_job_schemas a b) = _ |- _ =>
        rewrite Hr, length_app, !length_map, <- length_app in Hp
    end.
    intros Hnil. rewrite Hnil in Hp. simpl in Hp.
    destruct (rows a ++ rows b); [congruence | discriminate]. }
  apply build_unified_structure_jobs in Hu as (el & sl & Hel & Hsl & Hjobs & _).
  unfold ConcatJobs.build_unified_structure. rewrite Hel, Hsl. simpl.
  rewrite (for_each_first_raises _
             (ConcatJobs.job_entry el sl ie' (negb xd')) KeyError _ _ Hjobs Hne);
    [reflexivity|].
  intros row entry Hin Hentry. eapply Hstep; [exact Hentry|].
  rewrite Forall_forall in Hlack. apply Hlack, list_elem_of_In. exact Hin.
Qed.

(** X12. The optional fields need their columns.  When the job relations
    have rows but neither has a [job_embedding] column, a run that succeeds
    without embeddings fails with a KeyError once embeddings are asked for;
    and when neither has a [description] column, a run that succeeds with
    descriptions excluded fails with a KeyError when they are included, which
    is the default. *)
Theorem optional_fields_need_their_columns
    (a b employers jobsources : DataFrame) (ie xd : bool) (now : string)
    (u : ConcatJobs.unified)
    (Hrows : rows a ++ rows b <> [])
    (Hmain : ConcatJobs.main a b employers jobsources ie xd now = Ok u) :
  (has_column "job_embedding" a = false -> has_column "job_embedding" b = false ->
   ConcatJobs.main a b employers jobsources true xd now = Raise KeyError)
  /\ (has_column "description" a = false -> has_column "description" b = false ->
      ConcatJobs.main a b employers jobsources ie false now = Raise KeyError).
Proof.
  split; intros Ha Hb.
  - eapply main_missing_optional; try eassumption; try discriminate.
    intros el sl row entry Hentry Hnone.
    apply job_entry_missing_optional in Hentry as (Hemb & _). apply Hemb. exact Hnone.
  - eapply main_missing_optional; try eassumption; try discriminate.
    intros el sl row entry Hentry Hnone.
    apply job_entry_missing_optional in Hentry as (_ & Hdesc). apply Hdesc. exact Hnone.
Qed.

Lemma optional_fields_need_their_columns_witness :
  (has_column "job_embedding" lean_jobs = false ->
   has_column "job_embedding" no_jobs = false ->
   ConcatJobs.main lean_jobs no_jobs Sample.employers Sample.jobsources
     true true Sample.now = Raise KeyError)
  /\ (has_column "description" lean_jobs = false ->
      has_column "description" no_jobs = false ->
      ConcatJobs.main lean_jobs no_jobs Sample.employers Sample.jobsources
        false false Sample.now = Raise KeyError).
Proof.
  eapply (optional_fields_need_their_columns lean_jobs no_jobs Sample.employers
            Sample.jobsources false true Sample.now).
  - vm_compute. discriminate.
  - vm_compute. reflexivity.
Defined.

(** ** The identifier from the prior system *)

(** X13. The [original_id] column is optional.  A record has an
    [original_id] exactly when its row has a cell under that label that is
    not missing, and it is then the integer that [int] makes of the cell; a
    row without the label, or with a missing cell, gives a record without the
    field and no error. *)
Theorem original_id_is_optional
    (jobs employers jobsources : DataFrame) (ie id : bool) (now : string)
    (u : ConcatJobs.unified) (i : nat) (entry : list (string * pyval))
    (Hbuild : ConcatJobs.build_unified_structure jobs employers jobsources ie id now = Ok u)
    (Hentry : ConcatJobs.jobs u !! i = Some entry) :
  exists row, rows jobs !! i = Some row
    /\ ((pd_isna (get row "original_id") = Ok true
         /\ dict_get "original_id" entry = None)
        \/ (exists v z, dict_get "original_id" row = Some v
              /\ pd_isna v = Ok false /\ py_int v = Ok z
              /\ dict_get "original_id" entry = Some (VInt z))).
Proof.
  apply build_unified_structure_jobs in Hbuild as (el & sl & _ & _ & Hjobs & _).
  destruct (for_each_lookup _ _ _ Hjobs i entry Hentry) as (row & Hrow & Hje).
  exists row. split; [exact Hrow|].
  destruct (pd_isna (get row "original_id")) as [[]|] eqn:Hna.
  - left. split; [reflexivity|]. eapply job_entry_original_id; eassumption.
  - right.
    apply job_entry_steps in Hje
      as (e0 & e1 & e2 & e3 & e4 & H0 & H1 & H2 & H3 & H4 & H5).
    rewrite (resolve_jobsource_get _ _ _ _ "original_id" H5) by discriminate.
    rewrite (resolve_employer_get _ _ _ _ "original_id" H4) by discriminate.
    unfold ConcatJobs.add_original_id, pd_notna in H3. rewrite Hna in H3.
    simpl in H3. apply bind_Ok in H3 as (v & Hv & H3).
    apply bind_Ok in H3 as (z & Hz & H3). injection H3 as <-.
    apply item_Ok in Hv. exists v, z.
    unfold get in Hna. rewrite Hv in Hna.
    repeat split; try assumption. apply dict_get_set_eq.
  - exfalso.
    apply job_entry_steps in Hje
      as (e0 & e1 & e2 & e3 & e4 & H0 & H1 & H2 & H3 & H4 & H5).
    unfold ConcatJobs.add_original_id, pd_notna in H3. rewrite Hna in H3.
    discriminate.
Qed.

Lemma original_id_is_optional_witness :
  exists row, rows Sample.all_jobs !! 2%nat = Some row
    /\ ((pd_isna (get row "original_id") = Ok true
         /\ dict_get "original_id"
              (List.nth 2 (ConcatJobs.jobs (Sample.document false true)) []) = None)
        \/ (exists v z, dict_get "original_id" row = Some v
              /\ pd_isna v = Ok false /\ py_int v = Ok z
              /\ dict_get "original_id"
                   (List.nth 2 (ConcatJobs.jobs (Sample.document false true)) [])
                 = Some (VInt z))).
Proof.
  apply (original_id_is_optional Sample.all_jobs Sample.employers Sample.jobsources
           false true Sample.now (Sample.document false true)).
  - vm_compute. reflexivity.
  - vm_compute. reflexivity.
Defined.

(** ** Rows that share an identifier *)

(** X14. When several rows of a reference relation share an identifier, a
    record that points to it embeds the last of them: the embedded employer
    repeats [id], [name], [alt_name] and [logo_url] of the entry built from
    the last employer row whose [id] is the key of the row's [employer_id],
    and the embedded source repeats [jobsource_id] and [jobsource] of the
    last such job-source row. *)
Theorem embedded_reference_is_last_row
    (jobs employers jobsources : DataFrame) (ie id : bool) (now : string)
    (u : ConcatJobs.unified) (i : nat) (entry : list (string * pyval))
    (Hbuild : ConcatJobs.build_unified_structure jobs employers jobsources ie id now = Ok u)
    (Hentry : ConcatJobs.jobs u !! i = Some entry) :
  exists row epairs spairs,
    rows jobs !! i = Some row
    /\ keyed_entries ConcatJobs.employer_entry (rows employers) = Ok epairs
    /\ keyed_entries ConcatJobs.jobsource_entry (rows jobsources) = Ok spairs
    /\ (forall ref, dict_get "employer" entry = Some (VDict ref) ->
          exists fk k last,
            dict_get "employer_id" row = Some fk /\ key_of fk = Ok k
            /\ lookup_get k (rev epairs) = Some last
            /\ projects ["id"; "name"; "alt_name"; "logo_url"] ref last)
    /\ (forall ref, dict_get "jobsource" entry = Some (VDict ref) ->
          exists fk k last,
            dict_get "jobsource_id" row = Some fk /\ key_of fk = Ok k
            /\ lookup_get k (rev spairs) = Some last
            /\ projects ["jobsource_id"; "jobsource"] ref last).
Proof.
  apply build_unified_structure_jobs in Hbuild as (el & sl & Hel & Hsl & Hjobs & _).
  destruct (for_each_lookup _ _ _ Hjobs i entry Hentry) as (row & Hrow & Hje).
  apply build_lookup_index_all in Hel as (epairs & Hep & Hel).
  apply build_lookup_index_all in Hsl as (spairs & Hsp & Hsl).
  exists row, epairs, spairs.
  split; [exact Hrow|]. split; [exact Hep|]. split; [exact Hsp|].
  apply job_entry_steps in Hje
    as (e0 & e1 & e2 & e3 & e4 & H0 & H1 & H2 & H3 & H4 & H5).
  pose proof (resolve_jobsource_get _ _ _ _ "employer" H5) as Hemp.
  apply resolve_employer_spec in H4 as (fke & Hfke & H4).
  apply resolve_jobsource_spec in H5 as (fks & Hfks & H5).
  apply item_Ok in Hfke. apply item_Ok in Hfks.
  split; intros ref Href.
  - rewrite Hemp in Href by discriminate.
    destruct H4 as [(_ & k & emp & a1 & a2 & a3 & a4 & Hk & Hget & Ha1 & Ha2 & Ha3
                     & Ha4 & Heq)
                   |(_ & Heq)]; rewrite Heq in Href.
    + rewrite dict_get_set_eq in Href. injection Href as <-.
      exists fke, k, emp. split; [exact Hfke|]. split; [exact Hk|]. split.
      * rewrite Hel, lookup_get_index_all in Hget. simpl in Hget.
        destruct (lookup_get k (rev epairs)); [exact Hget | discriminate].
      * apply item_Ok in Ha1, Ha2, Ha3, Ha4. split; [reflexivity|].
        intros f [<-|[<-|[<-|[<-|[]]]]]; simpl; congruence.
    + rewrite dict_get_set_ne, dict_get_set_eq in Href by discriminate. discriminate.
  - destruct H5 as [(_ & k & src & a1 & a2 & Hk & Hget & Ha1 & Ha2 & Heq)
                   |(_ & Heq)]; rewrite Heq in Href.
    + rewrite dict_get_set_eq in Href. injection Href as <-.
      exists fks, k, src. split; [exact Hfks|]. split; [exact Hk|]. split.
      * rewrite Hsl, lookup_get_index_all in Hget. simpl in Hget.
        destruct (lookup_get k (rev spairs)); [exact Hget | discriminate].
      * apply item_Ok in Ha1, Ha2. split; [reflexivity|].
        intros f [<-|[<-|[]]]; simpl; congruence.
    + rewrite dict_get_set_ne, dict_get_set_eq in Href by discriminate. discriminate.
Qed.

Lemma embedded_reference_is_last_row_witness :
  exists row epairs spairs,
    rows Sample.all_jobs !! 0%nat = Some row
    /\ keyed_entries ConcatJobs.employer_entry (rows Sample.employers) = Ok epairs
    /\ keyed_entries ConcatJobs.jobsource_entry (rows Sample.jobsources) = Ok spairs
    /\ (forall ref,
          dict_get "employer" (List.nth 0 (ConcatJobs.jobs (Sample.document false true)) [])
          = Some (VDict ref) ->
          exists fk k last,
            dict_get "employer_id" row = Some fk /\ key_of fk = Ok k
            /\ lookup_get k (rev epairs) = Some last
            /\ projects ["id"; "name"; "alt_name"; "logo_url"] ref last)
    /\ (forall ref,
          dict_get "jobsource" (List.nth 0 (ConcatJobs.jobs (Sample.document false true)) [])
          = Some (VDict ref) ->
          exists fk k last,
            dict_get "jobsource_id" row = Some fk /\ key_of fk = Ok k
            /\ lookup_get k (rev spairs) = Some last
            /\ projects ["jobsource_id"; "jobsource"] ref last).
Proof.
  apply (embedded_reference_is_last_row Sample.all_jobs Sample.employers
           Sample.jobsources false true Sample.now (Sample.document false true)).
  - vm_compute. reflexivity.
  - vm_compute. reflexivity.
Defined.

(** ** What the projection refuses *)

Lemma dict_get_default_not_dict (h : gmap positive FreshDataset.object)
    (d default : FreshDataset.value) (k : string) :
  is_dict_in h d = false ->
  FreshDataset.dict_get_default h d k default = Raise AttributeError.
Proof.
  unfold is_dict_in, FreshDataset.dict_get_default.
  destruct d as [a|l]; [reflexivity|].
  destruct (h !! l) as [[xs|es]|]; try reflexivity. discriminate.
Qed.

Lemma is_dict_in_alloc_list (h h' : gmap positive FreshDataset.object)
    (l : positive) (xs : list FreshDataset.value) (v : FreshDataset.value) :
  FreshDataset.alloc (FreshDataset.List xs) h = (h', l) ->
  is_dict_in h v = false -> is_dict_in h' v = false.
Proof.
  intros Ha Hv. apply alloc_spec in Ha as (Hl & ->).
  unfold is_dict_in in *. destruct v as [a|l0]; [reflexivity|].
  destruct (decide (l0 = l)) as [->|Hne].
  - rewrite lookup_insert_eq. reflexivity.
  - rewrite lookup_insert_ne by congruence. exact Hv.
Qed.

(** X15. A document that is not a JSON object is refused: on a document
    whose top level is a list (the layout of the mock dataset), a string, a
    number or null, the projection stops with an AttributeError before it
    builds anything. *)
Theorem projection_needs_an_object
    (h : gmap positive FreshDataset.object) (doc : FreshDataset.value)
    (Hdoc : is_dict_in h doc = false) :
  FreshDataset.main h doc = Raise AttributeError.
Proof.
  unfold FreshDataset.main.
  destruct (FreshDataset.alloc (FreshDataset.List []) h) as [h1 jc] eqn:E1.
  destruct (FreshDataset.alloc (FreshDataset.List []) h1) as [h2 nj] eqn:E2.
  rewrite dict_get_default_not_dict; [reflexivity|].
  eapply is_dict_in_alloc_list; [exact E2|].
  eapply is_dict_in_alloc_list; [exact E1 | exact Hdoc].
Qed.

Lemma projection_needs_an_object_witness :
  FreshDataset.main Sample.store_with_job (FreshDataset.Ref 5%positive)
  = Raise AttributeError.
Proof.
  apply projection_needs_an_object. vm_compute. reflexivity.
Defined.

Lemma clean_jobs_raises (js : list FreshDataset.value) :
  forall (h : gmap positive FreshDataset.object) (jobs_cleaned : positive) (e : exn),
    FreshDataset.clean_jobs h jobs_cleaned js = Raise e -> e = AttributeError.
Proof.
  induction js as [|job js IH]; intros h jc e H; [discriminate|].
  cbn [FreshDataset.clean_jobs] in H.
  destruct (FreshDataset.items h job) as [entries|e0] eqn:Hitems.
  - cbn [bind] in H.
    destruct (FreshDataset.alloc
                (FreshDataset.Dict (dict_without "CategorizedData" entries)) h)
      as [h1 l1] eqn:Ea.
    destruct (FreshDataset.append h1 jc (FreshDataset.Ref l1)) as [h2|e1] eqn:Happ.
    + cbn [bind] in H. eapply IH. exact H.
    + cbn [bind] in H. injection H as <-.
      unfold FreshDataset.append in Happ.
      destruct (h1 !! jc) as [[xs|es]|]; congruence.
  - cbn [bind] in H. injection H as <-.
    unfold FreshDataset.items in Hitems.
    destruct job as [a|l]; [congruence|].
    destruct (h !! l) as [[xs|es]|]; congruence.
Qed.

Lemma dict_get_default_raises (h : gmap positive FreshDataset.object)
    (d default : FreshDataset.value) (k : string) (e : exn) :
  FreshDataset.dict_get_default h d k default = Raise e -> e = AttributeError.
Proof.
  unfold FreshDataset.dict_get_default. destruct d as [a|l]; [congruence|].
  destruct (h !! l) as [[xs|es]|]; congruence.
Qed.

Lemma iterate_raises (h : gmap positive FreshDataset.object)
    (v : FreshDataset.value) (e : exn) :
  FreshDataset.iterate h v = Raise e -> e = TypeError.
Proof.
  unfold FreshDataset.iterate. destruct v as [[]|l]; try congruence.
  destruct (h !! l) as [[xs|es]|]; congruence.
Qed.

(** X16. The projection never raises a KeyError: a collection that the
    document lacks is replaced by an empty one.  Whatever the document, the
    only exceptions it raises before writing are AttributeError (something
    that should be an object is not) and TypeError (the jobs cannot be
    iterated). *)
Theorem projection_raises_only
    (h : gmap positive FreshDataset.object) (doc : FreshDataset.value) (e : exn)
    (Hraise : FreshDataset.main h doc = Raise e) :
  e = AttributeError \/ e = TypeError.
Proof.
  unfold FreshDataset.main in Hraise.
  destruct (FreshDataset.alloc (FreshDataset.List []) h) as [h1 jc] eqn:E1.
  destruct (FreshDataset.alloc (FreshDataset.List []) h1) as [h2 nj] eqn:E2.
  destruct (FreshDataset.dict_get_default h2 doc "jobs" (FreshDataset.Ref nj))
    as [v|e0] eqn:Hget; cbn [bind] in Hraise;
    [|injection Hraise as <-; left; eapply dict_get_default_raises; exact Hget].
  destruct (FreshDataset.iterate h2 v) as [js|e0] eqn:Hiter; cbn [bind] in Hraise;
    [|injection Hraise as <-; right; eapply iterate_raises; exact Hiter].
  destruct (FreshDataset.clean_jobs h2 jc js) as [h3|e0] eqn:Hloop;
    cbn [bind] in Hraise;
    [|injection Hraise as <-; left; eapply clean_jobs_raises; exact Hloop].
  destruct (FreshDataset.alloc (FreshDataset.List []) h3) as [h4 ne] eqn:E4.
  destruct (FreshDataset.dict_get_default h4 doc "employers" (FreshDataset.Ref ne))
    as [emp|e0] eqn:Hemp; cbn [bind] in Hraise;
    [|injection Hraise as <-; left; eapply dict_get_default_raises; exact Hemp].
  destruct (FreshDataset.alloc (FreshDataset.List []) h4) as [h5 ns] eqn:E5.
  destruct (FreshDataset.dict_get_default h5 doc "jobsources" (FreshDataset.Ref ns))
    as [src|e0] eqn:Hsrc; cbn [bind] in Hraise;
    [|injection Hraise as <-; left; eapply dict_get_default_raises; exact Hsrc].
  destruct (FreshDataset.alloc _ h5) as [h6 lo]. discriminate.
Qed.

Lemma projection_raises_only_witness :
  FreshDataset.main Sample.store_with_job (FreshDataset.Ref 5%positive)
  = Raise AttributeError
  /\ (AttributeError = AttributeError \/ AttributeError = TypeError).
Proof.
  split; [vm_compute; reflexivity|].
  apply (projection_raises_only Sample.store_with_job (FreshDataset.Ref 5%positive)).
  vm_compute. reflexivity.
Defined.

Lemma is_not_dict_in_insert_fresh (h : gmap positive FreshDataset.object)
    (l : positive) (o : FreshDataset.object) (v : FreshDataset.value) :
  h !! l = None -> is_not_dict_in h v = true -> is_not_dict_in (<[l := o]> h) v = true.
Proof.
  intros Hl. unfold is_not_dict_in. destruct v as [a|l0]; [reflexivity|].
  destruct (decide (l0 = l)) as [->|Hne].
  - rewrite Hl. discriminate.
  - rewrite lookup_insert_ne by congruence. auto.
Qed.

Lemma is_not_dict_in_insert_list (h : gmap positive FreshDataset.object)
    (l : positive) (xs : list FreshDataset.value) (v : FreshDataset.value) :
  is_not_dict_in h v = true -> is_not_dict_in (<[l := FreshDataset.List xs]> h) v = true.
Proof.
  unfold is_not_dict_in. destruct v as [a|l0]; [reflexivity|].
  destruct (decide (l0 = l)) as [->|Hne].
  - rewrite lookup_insert_eq. reflexivity.
  - rewrite lookup_insert_ne by congruence. auto.
Qed.

(** A loop that ends has met objects only. *)
Lemma clean_jobs_Ok_objects (js : list FreshDataset.value) :
  forall (h h' : gmap positive FreshDataset.object) (jobs_cleaned : positive),
    FreshDataset.clean_jobs h jobs_cleaned js = Ok h' ->
    Forall (fun job => is_not_dict_in h job = false) js.
Proof.
  induction js as [|job js IH]; intros h h' jc H; [constructor|].
  cbn [FreshDataset.clean_jobs] in H.
  apply bind_Ok in H as (entries & Hitems & H).
  destruct (FreshDataset.alloc
              (FreshDataset.Dict (dict_without "CategorizedData" entries)) h)
    as [h1 l1] eqn:Ea.
  apply alloc_spec in Ea as (Hl1 & ->).
  apply bind_Ok in H as (h2 & Happ & H).
  unfold FreshDataset.append in Happ.
  destruct (_ !! jc) as [[elems|]|]; try discriminate.
  injection Happ as <-. constructor.
  - unfold FreshDataset.items in Hitems. unfold is_not_dict_in.
    destruct job as [a|l]; [discriminate|].
    destruct (h !! l) as [[xs|es]|]; congruence.
  - apply IH in H. eapply Forall_impl; [exact H|].
    intros job' Hjob'. simpl in Hjob'.
    destruct (is_not_dict_in h job') eqn:E; [|reflexivity].
    rewrite is_not_dict_in_insert_list in Hjob'; [discriminate|].
    apply is_not_dict_in_insert_fresh; assumption.
Qed.

(** X17. What the projection refuses inside an object.  When [jobs] is null,
    a number or a boolean, it stops with a TypeError; when [jobs] is a list
    and one of its elements is not an object (a scalar or a list), it stops
    with an AttributeError. *)
Theorem projection_needs_job_objects
    (h : gmap positive FreshDataset.object) (lu : positive)
    (d : list (string * FreshDataset.value)) (jobs : FreshDataset.value)
    (Hdoc : h !! lu = Some (FreshDataset.Dict d))
    (Hjobs : dict_get "jobs" d = Some jobs) :
  (is_plain_scalar jobs = true ->
   FreshDataset.main h (FreshDataset.Ref lu) = Raise TypeError)
  /\ (forall lj js job,
        jobs = FreshDataset.Ref lj -> h !! lj = Some (FreshDataset.List js) ->
        In job js -> is_not_dict_in h job = true ->
        FreshDataset.main h (FreshDataset.Ref lu) = Raise AttributeError).
Proof.
  unfold FreshDataset.main.
  destruct (FreshDataset.alloc (FreshDataset.List []) h) as [h1' jc] eqn:E1.
  apply alloc_spec in E1 as (Hjc & ->).
  set (h1 := <[jc := FreshDataset.List []]> h).
  destruct (FreshDataset.alloc (FreshDataset.List []) h1) as [h2' nj] eqn:E2.
  apply alloc_spec in E2 as (Hnj & ->).
  set (h2 := <[nj := FreshDataset.List []]> h1).
  assert (S : forall l o, h !! l = Some o -> h2 !! l = Some o).
  { intros l o Hl. apply insert_fresh_keeps; [exact Hnj|].
    apply insert_fresh_keeps; [exact Hjc | exact Hl]. }
  split.
  - intros Hscalar. unfold FreshDataset.dict_get_default at 1.
    rewrite (S _ _ Hdoc), Hjobs. cbn [bind].
    destruct jobs as [[]|l]; try discriminate; reflexivity.
  - intros lj js job Href Hlj Hin Hbad. subst jobs.
    unfold FreshDataset.dict_get_default at 1.
    rewrite (S _ _ Hdoc), Hjobs. cbn [bind]. unfold FreshDataset.iterate.
    rewrite (S _ _ Hlj). cbn [bind].
    destruct (FreshDataset.clean_jobs h2 jc js) as [h3|e] eqn:Hloop.
    + exfalso. apply clean_jobs_Ok_objects in Hloop.
      rewrite Forall_forall in Hloop. apply list_elem_of_In in Hin.
      apply Hloop in Hin. unfold h2, h1 in Hin.
      rewrite is_not_dict_in_insert_list in Hin; [discriminate|].
      apply is_not_dict_in_insert_list. exact Hbad.
    + apply clean_jobs_raises in Hloop. subst e. reflexivity.
Qed.

Lemma projection_needs_job_objects_witness :
  (is_plain_scalar (FreshDataset.Ref 5%positive) = true ->
   FreshDataset.main store_with_stray_job (FreshDataset.Ref 1%positive)
   = Raise TypeError)
  /\ (forall lj js job,
        FreshDataset.Ref 5%positive = FreshDataset.Ref lj ->
        store_with_stray_job !! lj = Some (FreshDataset.List js) ->
        In job js -> is_not_dict_in store_with_stray_job job = true ->
        FreshDataset.main store_with_stray_job (FreshDataset.Ref 1%positive)
        = Raise AttributeError).
Proof.
  apply (projection_needs_job_objects store_with_stray_job 1%positive
           [("metadata", FreshDataset.Ref 2%positive);
            ("employers", FreshDataset.Ref 3%positive);
            ("jobsources", FreshDataset.Ref 4%positive);
            ("jobs", FreshDataset.Ref 5%positive)]
           (FreshDataset.Ref 5%positive)).
  - vm_compute. reflexivity.
  - reflexivity.
Defined.

(** ** Projecting twice *)

Lemma dict_without_idem {V : Type} (k : string) (d : list (string * V)) :
  dict_without k (dict_without k d) = dict_without k d.
Proof.
  unfold dict_without. induction d as [|[k' v] d IH]; simpl; [reflexivity|].
  destruct (negb (String.eqb k' k)) eqn:E; simpl; [rewrite E, IH|]; auto.
Qed.

Lemma Forall2_chain {A B C : Type} (R : A -> B -> Prop) (S : B -> C -> Prop)
    (xs : list A) (ys : list B) (zs : list C) :
  Forall2 R xs ys -> Forall2 S ys zs ->
  Forall2 (fun y z => exists x, R x y /\ S y z) ys zs.
Proof.
  intros HR. revert zs. induction HR as [|x y xs ys Hxy HR IH]; intros zs HS.
  - inversion HS. constructor.
  - inversion HS as [|? z ? zs' Hyz HS']; subst. constructor; [eauto | apply IH; exact HS'].
Qed.

(** X18. Projecting is idempotent.  On a document whose jobs are objects, the
    projection of its own output succeeds and gives a document with the same
    [employers] and [jobsources] and with as many jobs, in the same order,
    each with the entries of the job it was copied from; none of them has a
    [CategorizedData]. *)
Theorem projection_is_idempotent
    (h : gmap positive FreshDataset.object) (lu : positive)
    (d : list (string * FreshDataset.value)) (js : list FreshDataset.value)
    (Hdoc : h !! lu = Some (FreshDataset.Dict d))
    (Hjobs : has_jobs h d js) :
  exists h1 lo1 h2 lo2 lc1 lc2 employers jobsources cleaned1 cleaned2,
    FreshDataset.main h (FreshDataset.Ref lu) = Ok (h1, FreshDataset.Ref lo1)
    /\ FreshDataset.main h1 (FreshDataset.Ref lo1) = Ok (h2, FreshDataset.Ref lo2)
    /\ h1 !! lo1 = Some (FreshDataset.Dict
                           [("employers", employers); ("jobsources", jobsources);
                            ("jobs", FreshDataset.Ref lc1)])
    /\ h2 !! lo2 = Some (FreshDataset.Dict
                           [("employers", employers); ("jobsources", jobsources);
                            ("jobs", FreshDataset.Ref lc2)])
    /\ h1 !! lc1 = Some (FreshDataset.List cleaned1)
    /\ h2 !! lc2 = Some (FreshDataset.List cleaned2)
    /\ length cleaned1 = length js
    /\ Forall2 (same_record h2) cleaned1 cleaned2.
Proof.
  destruct (main_spec h lu d js Hdoc Hjobs)
    as (h1 & lo1 & lc1 & emp & src & cleaned1 & Hrun1 & _ & _ & Hlo1 & _ & _ & _
        & Hlc1 & Hcopies1).
  assert (Hrecords : Forall (fun job => exists entries, is_record h1 job entries) cleaned1).
  { clear -Hcopies1. induction Hcopies1 as [|j c js cs Hjc _ IH]; constructor; [|exact IH].
    destruct Hjc as (entries & l & _ & -> & _ & Hl).
    eexists. exists l. split; [reflexivity | exact Hl]. }
  destruct (main_spec h1 lo1 _ cleaned1 Hlo1) as
    (h2 & lo2 & lc2 & emp2 & src2 & cleaned2 & Hrun2 & S2 & _ & Hlo2 & Kemp & Ksrc & _
     & Hlc2 & Hcopies2).
  { right. exists lc1. split; [reflexivity|]. split; [exact Hlc1 | exact Hrecords]. }
  unfold kept_or_empty in Kemp, Ksrc. simpl in Kemp, Ksrc. subst emp2 src2.
  exists h1, lo1, h2, lo2, lc1, lc2, emp, src, cleaned1, cleaned2.
  split; [exact Hrun1|]. split; [exact Hrun2|]. split; [exact Hlo1|].
  split; [exact Hlo2|]. split; [exact Hlc1|]. split; [exact Hlc2|].
  split; [symmetry; eapply Forall2_length; exact Hcopies1|].
  eapply Forall2_impl; [exact (Forall2_chain _ _ _ _ _ Hcopies1 Hcopies2)|].
  intros c1 c2 (j & (entries & l1 & _ & Hc1 & _ & Hl1)
                & (entries' & l2 & (l1' & Hc1' & Hl1') & Hc2 & _ & Hl2)).
  subst c1 c2. injection Hc1' as <-.
  assert (entries' = dict_without "CategorizedData" entries) by congruence.
  subst entries'. rewrite dict_without_idem in Hl2.
  exists l1, l2, (dict_without "CategorizedData" entries).
  split; [reflexivity|]. split; [reflexivity|].
  split; [apply S2; exact Hl1|]. split; [exact Hl2|].
  rewrite dict_get_without. reflexivity.
Qed.

Lemma projection_is_idempotent_witness :
  exists h1 lo1 h2 lo2 lc1 lc2 employers jobsources cleaned1 cleaned2,
    FreshDataset.main Sample.store_with_job (FreshDataset.Ref 1%positive)
    = Ok (h1, FreshDataset.Ref lo1)
    /\ FreshDataset.main h1 (FreshDataset.Ref lo1) = Ok (h2, FreshDataset.Ref lo2)
    /\ h1 !! lo1 = Some (FreshDataset.Dict
                           [("employers", employers); ("jobsources", jobsources);
                            ("jobs", FreshDataset.Ref lc1)])
    /\ h2 !! lo2 = Some (FreshDataset.Dict
                           [("employers", employers); ("jobsources", jobsources);
                            ("jobs", FreshDataset.Ref lc2)])
    /\ h1 !! lc1 = Some (FreshDataset.List cleaned1)
    /\ h2 !! lc2 = Some (FreshDataset.List cleaned2)
    /\ length cleaned1 = length [FreshDataset.Ref 6%positive]
    /\ Forall2 (same_record h2) cleaned1 cleaned2.
Proof.
  apply (projection_is_idempotent Sample.store_with_job 1%positive
           [("metadata", FreshDataset.Ref 2%positive);
            ("employers", FreshDataset.Ref 3%positive);
            ("jobsources", FreshDataset.Ref 4%positive);
            ("jobs", FreshDataset.Ref 5%positive)]
           [FreshDataset.Ref 6%positive]).
  - vm_compute. reflexivity.
  - right. exists 5%positive. split; [reflexivity|]. split; [vm_compute; reflexivity|].
    constructor; [|constructor]. eexists. exists 6%positive.
    split; [reflexivity | vm_compute; reflexivity].
Defined.

(** * The viewer *)

(** ** The filters *)

Lemma filter_m_raises {A : Type} (p : A -> result bool) (e : exn) (xs : list A) :
  Forall (fun x => p x = Raise e \/ exists b, p x = Ok b) xs ->
  Exists (fun x => p x = Raise e) xs ->
  Viewer.filter_m p xs = Raise e.
Proof.
  induction 1 as [|x xs Hx Hxs IH]; intros Hex.
  - inversion Hex.
  - simpl. destruct Hx as [->|(b & Hb)]; [reflexivity|].
    rewrite Hb. simpl. rewrite IH; [reflexivity|].
    inversion Hex as [? ? Hbad|? ? Hrest]; subst; [congruence | exact Hrest].
Qed.

Lemma py_get_raises (v : pyval) (k : string) (default : pyval) (e : exn) :
  Viewer.py_get v k default = Raise e -> e = AttributeError.
Proof. destruct v; simpl; congruence. Qed.

Lemma employer_is_outcome (selected : string) (j : pyval) :
  Viewer.employer_is selected j = Raise AttributeError
  \/ exists b, Viewer.employer_is selected j = Ok b.
Proof.
  unfold Viewer.employer_is.
  destruct (Viewer.py_get j "employer" (VDict [])) as [e|x] eqn:E1; simpl.
  - destruct (Viewer.py_get e "name" VNone) as [n|x] eqn:E2; simpl.
    + right. eauto.
    + left. apply py_get_raises in E2. congruence.
  - left. apply py_get_raises in E1. congruence.
Qed.

(** X19. Filtering by employer needs an employer object in every job that
    has the field.  When some job of the list carries an [employer] that is
    not an object (None, which is what the assembler writes for an employer
    it could not resolve), selecting any employer in the sidebar raises an
    AttributeError, whatever the other jobs and the other filter are. *)
Theorem employer_filter_needs_objects
    (js : list pyval) (selected_employer metadata_filter : string)
    (d : list (string * pyval)) (employer : pyval)
    (Hselected : selected_employer <> "All")
    (Hjob : In (VDict d) js)
    (Hfield : dict_get "employer" d = Some employer)
    (Hvalue : is_dict employer = false) :
  Viewer.apply_filters (VList js) selected_employer metadata_filter
  = Raise AttributeError.
Proof.
  unfold Viewer.apply_filters.
  destruct (String.eqb_spec selected_employer "All") as [|_]; [contradiction|].
  cbn [negb Viewer.py_iter bind].
  rewrite (filter_m_raises (Viewer.employer_is selected_employer) AttributeError js);
    [reflexivity| |].
  - apply Forall_forall. intros j _. apply employer_is_outcome.
  - apply Exists_exists. exists (VDict d). split; [apply list_elem_of_In; exact Hjob|].
    unfold Viewer.employer_is. simpl. rewrite Hfield. simpl.
    destruct employer; try reflexivity. discriminate.
Qed.

Lemma employer_filter_needs_objects_witness :
  Viewer.apply_filters
    (VList (List.map VDict (ConcatJobs.jobs (Sample.document false true))))
    "Acme GmbH" "All"
  = Raise AttributeError.
Proof.
  eapply (employer_filter_needs_objects _ "Acme GmbH" "All"
            (List.nth 1 (ConcatJobs.jobs (Sample.document false true)) []) VNone).
  - discriminate.
  - vm_compute. right. left. reflexivity.
  - vm_compute. reflexivity.
  - reflexivity.
Defined.

(** ** Assigning metadata to a job *)

Lemma assign_first_skips (job_id : key) (m : pyval) (pre rest : list pyval) :
  Forall (fun j => exists dj idj, j = VDict dj /\ dict_get "id" dj = Some idj
                                  /\ Viewer.equals_id idj job_id = false) pre ->
  Viewer.assign_first job_id m (pre ++ rest)
  = let* rest' := Viewer.assign_first job_id m rest in Ok (pre ++ rest').
Proof.
  induction 1 as [|j pre (dj & idj & -> & Hid & Hne) _ IH]; simpl.
  - destruct (Viewer.assign_first job_id m rest); reflexivity.
  - rewrite Hid. simpl. rewrite Hne, IH.
    destruct (Viewer.assign_first job_id m rest); reflexivity.
Qed.

(** X20. The metadata goes to the first job with the identifier, and only
    there.  When the jobs before it are objects with other identifiers, the
    assignment replaces the [CategorizedData] of that job, keeps its other
    fields and leaves every other job as it was, jobs after it with the same
    identifier included; this holds in the list layout and in the layout
    with a [jobs] field.  The job then counts as having metadata exactly when
    the metadata is truthy, so not for an empty object. *)
Theorem metadata_goes_to_first_match
    (pre post : list pyval) (d : list (string * pyval)) (id : pyval)
    (job_id : key) (m : pyval)
    (Hpre : Forall (fun j => exists dj idj, j = VDict dj /\ dict_get "id" dj = Some idj
                                            /\ Viewer.equals_id idj job_id = false) pre)
    (Hid : dict_get "id" d = Some id)
    (Hmatch : Viewer.equals_id id job_id = true) :
  let updated := pre ++ VDict (dict_set "CategorizedData" m d) :: post in
  Viewer.assign_metadata (VList (pre ++ VDict d :: post)) job_id m = Ok (VList updated)
  /\ (forall doc,
        dict_get "jobs" doc = Some (VList (pre ++ VDict d :: post)) ->
        Viewer.assign_metadata (VDict doc) job_id m
        = Ok (VDict (dict_set "jobs" (VList updated) doc)))
  /\ (forall k, k <> "CategorizedData" ->
        dict_get k (dict_set "CategorizedData" m d) = dict_get k d)
  /\ Viewer.has_metadata (VDict (dict_set "CategorizedData" m d)) = Ok (py_bool m).
Proof.
  intros updated.
  assert (Hloop : Viewer.assign_first job_id m (pre ++ VDict d :: post) = Ok updated).
  { rewrite (assign_first_skips job_id m pre _ Hpre). simpl.
    rewrite Hid. simpl. rewrite Hmatch. reflexivity. }
  split; [|split; [|split]].
  - unfold Viewer.assign_metadata. simpl. rewrite Hloop. reflexivity.
  - intros doc Hdoc. unfold Viewer.assign_metadata, Viewer.jobs_of. simpl.
    rewrite Hdoc. simpl. rewrite Hloop. reflexivity.
  - intros k Hk. apply dict_get_set_ne. exact Hk.
  - unfold Viewer.has_metadata. simpl. rewrite dict_get_set_eq. reflexivity.
Qed.

Lemma metadata_goes_to_first_match_witness :
  let pre := [VDict [("id", VInt 1); ("job_title", VStr "Engineer")]] in
  let d := [("id", VFloat 20 (-1)); ("job_title", VStr "Analyst")] in
  let post := [VDict [("id", VInt 2); ("job_title", VStr "Clerk")]] in
  let updated := pre ++ VDict (dict_set "CategorizedData" (VDict []) d) :: post in
  Viewer.assign_metadata (VList (pre ++ VDict d :: post)) (KNum 2 1) (VDict [])
  = Ok (VList updated)
  /\ (forall doc,
        dict_get "jobs" doc = Some (VList (pre ++ VDict d :: post)) ->
        Viewer.assign_metadata (VDict doc) (KNum 2 1) (VDict [])
        = Ok (VDict (dict_set "jobs" (VList updated) doc)))
  /\ (forall k, k <> "CategorizedData" ->
        dict_get k (dict_set "CategorizedData" (VDict []) d) = dict_get k d)
  /\ Viewer.has_metadata (VDict (dict_set "CategorizedData" (VDict []) d))
     = Ok (py_bool (VDict [])).
Proof.
  apply (metadata_goes_to_first_match
           [VDict [("id", VInt 1); ("job_title", VStr "Engineer")]]
           [VDict [("id", VInt 2); ("job_title", VStr "Clerk")]]
           [("id", VFloat 20 (-1)); ("job_title", VStr "Analyst")]
           (VFloat 20 (-1)) (KNum 2 1) (VDict [])).
  - constructor; [|constructor].
    exists [("id", VInt 1); ("job_title", VStr "Engineer")], (VInt 1).
    repeat split; reflexivity.
  - reflexivity.
  - vm_compute. reflexivity.
Defined.

Lemma assign_first_shape (job_id : key) (m : pyval) (js js' : list pyval) :
  Viewer.assign_first job_id m js = Ok js' ->
  length js' = length js
  /\ Forall (fun j => is_dict j = true) (firstn 1 js)
  /\ exists n,
       (forall i, i <> n -> js' !! i = js !! i)
       /\ forall j j', js !! n = Some j -> js' !! n = Some j' ->
            j' = j \/ exists d, j = VDict d
                                /\ j' = VDict (dict_set "CategorizedData" m d).
Proof.
  revert js'. induction js as [|j js IH]; intros js' H; simpl in H.
  - injection H as <-. split; [reflexivity|]. split; [constructor|].
    exists 0%nat. split; [reflexivity|]. intros j j' Hj. discriminate.
  - apply bind_Ok in H as (id & Hid & H).
    assert (Hdict : is_dict j = true).
    { destruct j; simpl in Hid; try discriminate. reflexivity. }
    destruct (Viewer.equals_id id job_id).
    + apply bind_Ok in H as (j1 & Hj1 & H). injection H as <-.
      split; [reflexivity|]. split; [constructor; [exact Hdict | constructor]|].
      exists 0%nat. split.
      * intros [|i] Hi; [congruence | reflexivity].
      * intros j0 j' H0 H1. simpl in H0, H1. injection H0 as <-. injection H1 as <-.
        right. destruct j; simpl in Hj1; try discriminate.
        injection Hj1 as <-. eauto.
    + apply bind_Ok in H as (rest & Hrest & H). injection H as <-.
      destruct (IH rest Hrest) as (Hlen & _ & n & Hother & Hat).
      split; [simpl; congruence|].
      split; [constructor; [exact Hdict | constructor]|].
      exists (S n). split.
      * intros [|i] Hi; [reflexivity|]. simpl. apply Hother. congruence.
      * intros j0 j'. simpl. apply Hat.
Qed.

(** X21. An assignment touches at most one job and only its
    [CategorizedData].  Whenever it succeeds, the document has as many jobs
    as before, all jobs but at most one are what they were, that one differs
    at most in its [CategorizedData], and in the layout with a [jobs] field
    every other field of the document is unchanged. *)
Theorem assignment_touches_one_job
    (data data' : pyval) (job_id : key) (m : pyval)
    (Hassign : Viewer.assign_metadata data job_id m = Ok data') :
  exists js js',
    (let* l := Viewer.jobs_of data in Viewer.py_iter l) = Ok js
    /\ (let* l := Viewer.jobs_of data' in Viewer.py_iter l) = Ok js'
    /\ length js' = length js
    /\ (exists n,
          (forall i, i <> n -> js' !! i = js !! i)
          /\ forall j j', js !! n = Some j -> js' !! n = Some j' ->
               j' = j \/ exists d, j = VDict d
                                   /\ j' = VDict (dict_set "CategorizedData" m d))
    /\ (forall k default, k <> "jobs" ->
          Viewer.py_get data' k default = Viewer.py_get data k default).
Proof.
  unfold Viewer.assign_metadata in Hassign.
  apply bind_Ok in Hassign as (jl & Hjl & H).
  apply bind_Ok in H as (js & Hjs & H).
  apply bind_Ok in H as (js' & Hloop & H). injection H as <-.
  pose proof (assign_first_shape _ _ _ _ Hloop) as (Hlen & Hhead & Hone).
  assert (Hsame : is_list jl = false -> js' = js).
  { intros Hnl. destruct jl; simpl in Hjs, Hnl; try discriminate; injection Hjs as <-.
    - destruct (Viewer.code_points s 0 EmptyString); simpl in *.
      + injection Hloop as <-. reflexivity.
      + inversion Hhead as [|? ? Hd _]. discriminate.
    - destruct d as [|[k v] d]; simpl in *.
      + injection Hloop as <-. reflexivity.
      + inversion Hhead as [|? ? Hd _]. discriminate. }
  exists js. unfold Viewer.jobs_of in *.
  destruct data as [| | | | | | |l|d]; simpl in Hjl; try discriminate.
  - injection Hjl as <-. simpl in Hjs. injection Hjs as <-.
    exists js'. simpl. repeat split; try assumption.
  - simpl. destruct (dict_get "jobs" d) as [v|] eqn:Hjobs.
    + injection Hjl as <-. destruct (is_list v) eqn:Hv.
      * destruct v; try discriminate. simpl in Hjs. injection Hjs as <-.
        exists js'. simpl. rewrite dict_get_set_eq. simpl.
        repeat split; try assumption.
        intros k default Hk. rewrite dict_get_set_ne by exact Hk. reflexivity.
      * assert (js' = js) by (apply Hsame; reflexivity). subst js'.
        exists js.
        assert (Hkeep : match v with
                        | VList _ => VDict (dict_set "jobs" (VList js) d)
                        | _ => VDict d
                        end = VDict d)
          by (destruct v; try reflexivity; discriminate).
        rewrite Hkeep. simpl. rewrite Hjobs. simpl.
        repeat split; try assumption.
    + injection Hjl as <-. simpl in Hjs. injection Hjs as <-.
      simpl in Hloop. injection Hloop as <-.
      exists []. simpl. rewrite Hjobs. simpl.
      repeat split; try assumption.
Qed.

Lemma assignment_touches_one_job_witness :
  exists js js',
    (let* l := Viewer.jobs_of
                 (VDict [("employers", VList []);
                         ("jobs", VList [VDict [("id", VInt 1)]; VDict [("id", VInt 1)]])])
     in Viewer.py_iter l) = Ok js
    /\ (let* l := Viewer.jobs_of
                    (VDict [("employers", VList []);
                            ("jobs", VList [VDict [("id", VInt 1);
                                                   ("CategorizedData", VNone)];
                                            VDict [("id", VInt 1)]])])
        in Viewer.py_iter l) = Ok js'
    /\ length js' = length js
    /\ (exists n,
          (forall i, i <> n -> js' !! i = js !! i)
          /\ forall j j', js !! n = Some j -> js' !! n = Some j' ->
               j' = j \/ exists d, j = VDict d
                                   /\ j' = VDict (dict_set "CategorizedData" VNone d))
    /\ (forall k default, k <> "jobs" ->
          Viewer.py_get
            (VDict [("employers", VList []);
                    ("jobs", VList [VDict [("id", VInt 1); ("CategorizedData", VNone)];
                                    VDict [("id", VInt 1)]])]) k default
          = Viewer.py_get
              (VDict [("employers", VList []);
                      ("jobs", VList [VDict [("id", VInt 1)]; VDict [("id", VInt 1)]])])
              k default).
Proof.
  apply (assignment_touches_one_job _ _ (KNum 1 1) VNone).
  vm_compute. reflexivity.
Defined.

(** * The summary of the projection *)

Lemma py_len_kept (h h' : gmap positive FreshDataset.object) (v : FreshDataset.value)
    (n : Z) :
  (forall l o, h !! l = Some o -> h' !! l = Some o) ->
  FreshSummary.py_len h v = Ok n -> FreshSummary.py_len h' v = Ok n.
Proof.
  intros Hsub. unfold FreshSummary.py_len. destruct v as [a|l]; [auto|].
  destruct (h !! l) as [o|] eqn:E; [|discriminate].
  rewrite (Hsub _ _ E). auto.
Qed.

(** X22. The summary counts what was written.  On a document whose jobs are
    objects and whose [employers] and [jobsources] have a length, the script
    ends by reporting the length of the document's [employers], that of its
    [jobsources] and the number of its jobs, with 0 for a collection that
    the document lacks; when [employers] or [jobsources] is there but is
    null, a number or a boolean, the document is written and the script then
    stops with a TypeError. *)
Theorem summary_counts_what_was_written
    (h : gmap positive FreshDataset.object) (lu : positive)
    (d : list (string * FreshDataset.value)) (js : list FreshDataset.value)
    (Hdoc : h !! lu = Some (FreshDataset.Dict d))
    (Hjobs : has_jobs h d js) :
  let size name :=
    match dict_get name d with
    | Some v => FreshSummary.py_len h v
    | None => Ok 0
    end in
  (forall n_employers n_jobsources,
     size "employers" = Ok n_employers -> size "jobsources" = Ok n_jobsources ->
     FreshSummary.run h (FreshDataset.Ref lu)
     = Ok (n_employers, n_jobsources, Z.of_nat (length js)))
  /\ (forall v, (dict_get "employers" d = Some v \/ dict_get "jobsources" d = Some v) ->
        is_plain_scalar v = true ->
        (exists written, FreshDataset.main h (FreshDataset.Ref lu) = Ok written)
        /\ FreshSummary.run h (FreshDataset.Ref lu) = Raise TypeError).
Proof.
  intros size.
  destruct (main_spec h lu d js Hdoc Hjobs)
    as (h' & lo & lc & emp & src & cleaned & Hrun & Hsub & _ & Hlo & Kemp & Ksrc & _
        & Hlc & Hcopies).
  assert (Hsize : forall name v,
             kept_or_empty h h' d name v ->
             (forall n, size name = Ok n -> FreshSummary.py_len h' v = Ok n)
             /\ (forall v0, dict_get name d = Some v0 -> is_plain_scalar v0 = true ->
                            FreshSummary.py_len h' v = Raise TypeError)).
  { intros name v Hkept. unfold kept_or_empty in Hkept. unfold size.
    destruct (dict_get name d) as [v0|].
    - subst v. split.
      + intros n Hn. eapply py_len_kept; eassumption.
      + intros v1 Hv1 Hscalar. injection Hv1 as <-.
        destruct v0 as [[]|]; try discriminate; reflexivity.
    - destruct Hkept as (l & -> & _ & Hl). split.
      + intros n Hn. injection Hn as <-. simpl. rewrite Hl. reflexivity.
      + intros v0 Hv0. discriminate. }
  destruct (Hsize "employers" emp Kemp) as (He & Hebad).
  destruct (Hsize "jobsources" src Ksrc) as (Hs & Hsbad).
  assert (Hn : FreshSummary.py_len h' (FreshDataset.Ref lc)
               = Ok (Z.of_nat (length js))).
  { simpl. rewrite Hlc. rewrite (Forall2_length _ _ _ Hcopies). reflexivity. }
  unfold FreshSummary.run. rewrite Hrun. cbn [bind fst snd].
  unfold FreshSummary.summary, FreshSummary.subscript. rewrite Hlo.
  cbn [dict_get String.eqb Ascii.eqb Bool.eqb bind].
  split.
  - intros n1 n2 H1 H2. rewrite (He _ H1). cbn [bind].
    rewrite (Hs _ H2). cbn [bind]. rewrite Hn. reflexivity.
  - intros v Hv Hscalar. split; [eauto|].
    destruct Hv as [Hv|Hv].
    + rewrite (Hebad v Hv Hscalar). reflexivity.
    + destruct (FreshSummary.py_len h' emp) as [n1|e] eqn:E1; cbn [bind].
      * rewrite (Hsbad v Hv Hscalar). reflexivity.
      * assert (e = TypeError); [|subst e; reflexivity].
        unfold FreshSummary.py_len in E1.
        destruct emp as [[]|l]; try congruence.
        destruct (h' !! l) as [[]|]; congruence.
Qed.

Lemma summary_counts_what_was_written_witness :
  let d := [("metadata", FreshDataset.Ref 2%positive);
            ("employers", FreshDataset.Ref 3%positive);
            ("jobsources", FreshDataset.Ref 4%positive);
            ("jobs", FreshDataset.Ref 5%positive)] in
  let size name :=
    match dict_get name d with
    | Some v => FreshSummary.py_len Sample.store_with_job v
    | None => Ok 0
    end in
  (forall n_employers n_jobsources,
     size "employers" = Ok n_employers -> size "jobsources" = Ok n_jobsources ->
     FreshSummary.run Sample.store_with_job (FreshDataset.Ref 1%positive)
     = Ok (n_employers, n_jobsources,
           Z.of_nat (length [FreshDataset.Ref 6%positive])))
  /\ (forall v, (dict_get "employers" d = Some v \/ dict_get "jobsources" d = Some v) ->
        is_plain_scalar v = true ->
        (exists written,
           FreshDataset.main Sample.store_with_job (FreshDataset.Ref 1%positive)
           = Ok written)
        /\ FreshSummary.run Sample.store_with_job (FreshDataset.Ref 1%positive)
           = Raise TypeError).
Proof.
  apply (summary_counts_what_was_written Sample.store_with_job 1%positive
           [("metadata", FreshDataset.Ref 2%positive);
            ("employers", FreshDataset.Ref 3%positive);
            ("jobsources", FreshDataset.Ref 4%positive);
            ("jobs", FreshDataset.Ref 5%positive)]
           [FreshDataset.Ref 6%positive]).
  - vm_compute. reflexivity.
  - right. exists 5%positive. split; [reflexivity|]. split; [vm_compute; reflexivity|].
    constructor; [|constructor]. eexists. exists 6%positive.
    split; [reflexivity | vm_compute; reflexivity].
Defined.

(** * The response of the model *)

(** ** Bytes *)

Ltac each_byte c :=
  destruct c as [[] [] [] [] [] [] [] []]; try reflexivity; try discriminate.

Lemma flat_solid (c : ascii) : pad c = false -> Response.flat c = c.
Proof. each_byte c. Qed.

Lemma flat_printable (c : ascii) : (Json.code c <? 32) = false -> Response.flat c = c.
Proof. each_byte c. Qed.

Lemma pad_flat (c : ascii) : pad (Response.flat c) = pad c.
Proof. each_byte c. Qed.

Lemma is_ws_flat (c : ascii) : Json.is_ws (Response.flat c) = Json.is_ws c.
Proof. each_byte c. Qed.

Lemma is_ws_pad (c : ascii) : Json.is_ws c = true -> pad c = true.
Proof. each_byte c. Qed.

Lemma is_space_flat (c : ascii) : is_space (Response.flat c) = is_space c.
Proof. each_byte c. Qed.

Lemma is_ws_space (c : ascii) : Json.is_ws c = true -> is_space c = true.
Proof. each_byte c. Qed.

Lemma digit_of_flat (c : ascii) : Json.digit_of (Response.flat c) = Json.digit_of c.
Proof. each_byte c. Qed.

Lemma digit_of_pad (c : ascii) : pad c = true -> Json.digit_of c = None.
Proof. each_byte c. Qed.

Lemma hex_of_pad (c : ascii) : pad c = true -> Json.hex_of c = None.
Proof. each_byte c. Qed.

Lemma unescape_pad (c : ascii) : pad c = true -> Json.unescape c = None.
Proof. each_byte c. Qed.

Lemma eqb_flat (c k : ascii) :
  pad k = false -> Ascii.eqb (Response.flat c) k = Ascii.eqb c k.
Proof.
  intros Hk. destruct (Ascii.eqb_spec c k) as [->|Hne].
  - rewrite flat_solid by exact Hk. apply Ascii.eqb_refl.
  - destruct (Ascii.eqb_spec (Response.flat c) k) as [He|]; [|reflexivity].
    destruct (pad c) eqn:Hc.
    + rewrite <- He, pad_flat, Hc in Hk. discriminate.
    + rewrite flat_solid in He by exact Hc. contradiction.
Qed.

Lemma eqb_pad (c k : ascii) : pad c = true -> pad k = false -> Ascii.eqb c k = false.
Proof.
  intros Hc Hk. destruct (Ascii.eqb_spec c k) as [->|]; [congruence | reflexivity].
Qed.

(** ** Padding *)

Lemma all_pad_app (a b : string) :
  all_pad (a ++ b) = all_pad a && all_pad b.
Proof.
  induction a as [|c a IH]; simpl; [reflexivity|].
  rewrite IH, andb_assoc. reflexivity.
Qed.

Lemma all_pad_flatten (s : string) : all_pad (Response.flatten s) = all_pad s.
Proof.
  induction s as [|c s IH]; simpl; [reflexivity|]. rewrite pad_flat, IH. reflexivity.
Qed.

Lemma all_pad_skip_ws (s : string) : all_pad s = true -> all_pad (Json.skip_ws s) = true.
Proof.
  induction s as [|c s IH]; simpl; [auto|].
  intros H. apply andb_prop in H as (Hc & Hs).
  destruct (Json.is_ws c); [apply IH; exact Hs|]. simpl. rewrite Hc, Hs. reflexivity.
Qed.

Lemma flatten_app (a b : string) :
  Response.flatten (a ++ b) = (Response.flatten a ++ Response.flatten b)%string.
Proof.
  induction a as [|c a IH]; simpl; [reflexivity|]. rewrite IH. reflexivity.
Qed.

Lemma flatten_length (s : string) : String.length (Response.flatten s) = String.length s.
Proof. induction s as [|c s IH]; simpl; [reflexivity|]. rewrite IH. reflexivity. Qed.

(** ** Texts that mirror each other *)

Lemma mirrors_nil (s' : string) : mirrors EmptyString s' -> s' = EmptyString.
Proof.
  intros (x & w & Hs & _ & ->). destruct x; [reflexivity | discriminate].
Qed.

Lemma mirrors_pad (s : string) : all_pad s = true -> mirrors s EmptyString.
Proof. intros H. exists EmptyString, s. auto. Qed.

Lemma mirrors_cons (c : ascii) (t s' : string) :
  mirrors (String c t) s' ->
  (s' = EmptyString /\ all_pad (String c t) = true)
  \/ exists t', s' = String (Response.flat c) t' /\ mirrors t t'.
Proof.
  intros (x & w & Hs & Hw & ->). destruct x as [|c0 x]; simpl in Hs.
  - left. split; [reflexivity|]. rewrite Hs. exact Hw.
  - right. injection Hs as <- ->. exists (Response.flatten x).
    split; [reflexivity|]. exists x, w. auto.
Qed.

Lemma mirrors_solid (c : ascii) (t s' : string) :
  pad c = false -> mirrors (String c t) s' ->
  exists t', s' = String c t' /\ mirrors t t'.
Proof.
  intros Hc H. apply mirrors_cons in H as [(_ & Hpad)|(t' & -> & H)].
  - simpl in Hpad. rewrite Hc in Hpad. discriminate.
  - rewrite flat_solid by exact Hc. eauto.
Qed.

Lemma mirrors_all_pad (s s' : string) :
  mirrors s s' -> all_pad s = true -> all_pad s' = true.
Proof.
  intros (x & w & -> & _ & ->). rewrite all_pad_app, all_pad_flatten.
  intros H. apply andb_prop in H as (H & _). exact H.
Qed.

Lemma append_length (a b : string) :
  String.length (a ++ b) = (String.length a + String.length b)%nat.
Proof. induction a as [|c a IH]; simpl; [reflexivity|]. rewrite IH. reflexivity. Qed.

Lemma mirrors_length (s s' : string) :
  mirrors s s' -> (String.length s' <= String.length s)%nat.
Proof.
  intros (x & w & -> & _ & ->). rewrite flatten_length, append_length. lia.
Qed.

(** ** The scanners on a text and on its mirror *)

Lemma mirrors_refl_nil : mirrors EmptyString EmptyString.
Proof. apply mirrors_pad. reflexivity. Qed.

Lemma skip_ws_mirrors (s : string) :
  forall s', mirrors s s' -> mirrors (Json.skip_ws s) (Json.skip_ws s').
Proof.
  induction s as [|c t IH]; intros s' H.
  - apply mirrors_nil in H. subst s'. exact mirrors_refl_nil.
  - pose proof H as H0. apply mirrors_cons in H as [(-> & Hpad)|(t' & -> & H)].
    + simpl Json.skip_ws at 2. apply mirrors_pad, all_pad_skip_ws. exact Hpad.
    + simpl. rewrite is_ws_flat. destruct (Json.is_ws c); [apply IH; exact H | exact H0].
Qed.

Lemma strip_char_mirrors (k : ascii) (s s' : string) :
  pad k = false -> mirrors s s' ->
  same_rest (Json.strip_char k s) (Json.strip_char k s').
Proof.
  intros Hk H. destruct s as [|c t].
  - apply mirrors_nil in H. subst s'. exact I.
  - apply mirrors_cons in H as [(-> & Hpad)|(t' & -> & H)]; simpl.
    + simpl in Hpad. apply andb_prop in Hpad as (Hc & _).
      rewrite (eqb_pad c k Hc Hk). exact I.
    + rewrite (eqb_flat c k Hk). destruct (Ascii.eqb c k); [exact H | exact I].
Qed.

Lemma strip_prefix_mirrors (p : string) :
  no_pad p = true ->
  forall s s', mirrors s s' ->
    same_rest (Json.strip_prefix p s) (Json.strip_prefix p s').
Proof.
  induction p as [|a p IH]; intros Hp s s' H; simpl.
  - exact H.
  - simpl in Hp. apply andb_prop in Hp as (Ha & Hp). apply negb_true_iff in Ha.
    destruct s as [|b t].
    + apply mirrors_nil in H. subst s'. exact I.
    + apply mirrors_cons in H as [(-> & Hpad)|(t' & -> & H)].
      * simpl in Hpad. apply andb_prop in Hpad as (Hb & _).
        rewrite Ascii.eqb_sym, (eqb_pad b a Hb Ha). exact I.
      * rewrite (Ascii.eqb_sym a (Response.flat b)), (eqb_flat b a Ha),
          (Ascii.eqb_sym a b).
        destruct (Ascii.eqb b a); [apply IH; assumption | exact I].
Qed.

Lemma take_digits_mirrors (s : string) :
  forall (s' : string) (cnt acc cnt' v : Z) (r : string),
    mirrors s s' ->
    Json.take_digits s cnt acc = (cnt', v, r) ->
    exists r', Json.take_digits s' cnt acc = (cnt', v, r') /\ mirrors r r'.
Proof.
  induction s as [|c t IH]; intros s' cnt acc cnt' v r H Ht.
  - apply mirrors_nil in H. subst s'. simpl in *. injection Ht as <- <- <-.
    exists EmptyString. split; [reflexivity | exact mirrors_refl_nil].
  - pose proof H as H0. apply mirrors_cons in H as [(-> & Hpad)|(t' & -> & H)].
    + pose proof Hpad as Hall. simpl in Hpad. apply andb_prop in Hpad as (Hc & _).
      simpl in Ht. rewrite (digit_of_pad c Hc) in Ht. injection Ht as <- <- <-.
      exists EmptyString. split; [reflexivity | apply mirrors_pad; exact Hall].
    + simpl in *. rewrite digit_of_flat. destruct (Json.digit_of c).
      * eapply IH; eassumption.
      * injection Ht as <- <- <-. eauto.
Qed.

Lemma scan_int_part_mirrors (s s' : string) :
  mirrors s s' -> same_scan (Json.scan_int_part s) (Json.scan_int_part s').
Proof.
  intros H. unfold Json.scan_int_part.
  pose proof (strip_char_mirrors "0" s s' eq_refl H) as H0.
  destruct (Json.strip_char "0" s) as [r|], (Json.strip_char "0" s') as [r'|];
    simpl in H0; try contradiction.
  - split; [reflexivity | exact H0].
  - destruct (Json.take_digits s 0 0) as [[cnt v] r] eqn:Et.
    destruct (take_digits_mirrors s s' 0 0 cnt v r H Et) as (r' & -> & Hr).
    destruct (cnt =? 0); simpl; auto.
Qed.

Lemma scan_fraction_mirrors (i : Z) (s s' : string) (cnt m : Z) (r : string) :
  mirrors s s' ->
  Json.scan_fraction i s = (cnt, m, r) ->
  exists r', Json.scan_fraction i s' = (cnt, m, r') /\ mirrors r r'.
Proof.
  intros H. unfold Json.scan_fraction.
  pose proof (strip_char_mirrors "." s s' eq_refl H) as H0.
  destruct (Json.strip_char "." s) as [r0|], (Json.strip_char "." s') as [r0'|];
    simpl in H0; try contradiction.
  - destruct (Json.take_digits r0 0 i) as [[c v] r1] eqn:Et.
    destruct (take_digits_mirrors r0 r0' 0 i c v r1 H0 Et) as (r1' & -> & Hr).
    destruct (c =? 0); intros E; injection E as <- <- <-; eauto.
  - intros E. injection E as <- <- <-. eauto.
Qed.

Lemma scan_exponent_mirrors (s s' : string) (ex : option Z) (r : string) :
  mirrors s s' ->
  Json.scan_exponent s = (ex, r) ->
  exists r', Json.scan_exponent s' = (ex, r') /\ mirrors r r'.
Proof.
  intros H. destruct s as [|c t].
  - apply mirrors_nil in H. subst s'. simpl. intros E. injection E as <- <-.
    exists EmptyString. split; [reflexivity | exact mirrors_refl_nil].
  - pose proof H as H0. apply mirrors_cons in H as [(-> & Hpad)|(t' & -> & H)].
    + pose proof Hpad as Hall. simpl in Hpad. apply andb_prop in Hpad as (Hc & _).
      unfold Json.scan_exponent.
      rewrite (eqb_pad c "e" Hc eq_refl), (eqb_pad c "E" Hc eq_refl). simpl.
      intros E. injection E as <- <-.
      exists EmptyString. split; [reflexivity | apply mirrors_pad; exact Hall].
    + unfold Json.scan_exponent.
      rewrite (eqb_flat c "e" eq_refl), (eqb_flat c "E" eq_refl).
      destruct (Ascii.eqb c "e" || Ascii.eqb c "E");
        [|intros E; injection E as <- <-; eauto].
      pose proof (strip_char_mirrors "-" t t' eq_refl H) as Hm.
      pose proof (strip_char_mirrors "+" t t' eq_refl H) as Hp.
      assert (Hsign : exists eneg r1 r1',
                 match Json.strip_char "-" t with
                 | Some r1 => (true, r1)
                 | None => match Json.strip_char "+" t with
                           | Some r1 => (false, r1)
                           | None => (false, t)
                           end
                 end = (eneg, r1)
                 /\ match Json.strip_char "-" t' with
                    | Some r1 => (true, r1)
                    | None => match Json.strip_char "+" t' with
                              | Some r1 => (false, r1)
                              | None => (false, t')
                              end
                    end = (eneg, r1')
                 /\ mirrors r1 r1').
      { destruct (Json.strip_char "-" t) as [a|], (Json.strip_char "-" t') as [a'|];
          simpl in Hm; try contradiction; [eauto 6|].
        destruct (Json.strip_char "+" t) as [b|], (Json.strip_char "+" t') as [b'|];
          simpl in Hp; try contradiction; eauto 6. }
      destruct Hsign as (eneg & r1 & r1' & -> & -> & Hr1).
      destruct (Json.take_digits r1 0 0) as [[cnt v] r2] eqn:Et.
      destruct (take_digits_mirrors r1 r1' 0 0 cnt v r2 Hr1 Et) as (r2' & -> & Hr2).
      destruct (cnt =? 0); intros E; injection E as <- <-; eauto.
Qed.

Lemma scan_number_mirrors (s s' : string) :
  mirrors s s' -> same_scan (Json.scan_number s) (Json.scan_number s').
Proof.
  intros H. unfold Json.scan_number.
  pose proof (strip_char_mirrors "-" s s' eq_refl H) as Hm.
  assert (Hsign : exists neg s1 s1',
             match Json.strip_char "-" s with
             | Some r => (true, r)
             | None => (false, s)
             end = (neg, s1)
             /\ match Json.strip_char "-" s' with
                | Some r => (true, r)
                | None => (false, s')
                end = (neg, s1')
             /\ mirrors s1 s1').
  { destruct (Json.strip_char "-" s) as [a|], (Json.strip_char "-" s') as [a'|];
      simpl in Hm; try contradiction; eauto 6. }
  destruct Hsign as (neg & s1 & s1' & -> & -> & H1).
  pose proof (scan_int_part_mirrors s1 s1' H1) as Hi.
  destruct (Json.scan_int_part s1) as [[i s2]|], (Json.scan_int_part s1') as [[i' s2']|];
    simpl in Hi; try contradiction; [|exact I].
  destruct Hi as (<- & H2).
  destruct (Json.scan_fraction i s2) as [[fcnt m] s3] eqn:Ef.
  destruct (scan_fraction_mirrors i s2 s2' fcnt m s3 H2 Ef) as (s3' & -> & H3).
  destruct (Json.scan_exponent s3) as [ex s4] eqn:Ee.
  destruct (scan_exponent_mirrors s3 s3' ex s4 H3 Ee) as (s4' & -> & H4).
  destruct ex; [|destruct (0 <? fcnt)]; simpl; auto.
Qed.

Lemma int_digits_mirrors (s s' : string) :
  mirrors s s' -> Json.int_digits s = Json.int_digits s'.
Proof.
  intros H. unfold Json.int_digits.
  pose proof (strip_char_mirrors "-" s s' eq_refl H) as Hm.
  assert (H1 : mirrors
                 (match Json.strip_char "-" s with Some r => r | None => s end)
                 (match Json.strip_char "-" s' with Some r => r | None => s' end)).
  { destruct (Json.strip_char "-" s), (Json.strip_char "-" s');
      simpl in Hm; try contradiction; assumption. }
  clear Hm. revert H1.
  generalize (match Json.strip_char "-" s with Some r => r | None => s end).
  generalize (match Json.strip_char "-" s' with Some r => r | None => s' end).
  intros s1' s1 H1.
  pose proof (strip_char_mirrors "0" s1 s1' eq_refl H1) as H0.
  destruct (Json.strip_char "0" s1), (Json.strip_char "0" s1');
    simpl in H0; try contradiction; [reflexivity|].
  destruct (Json.take_digits s1 0 0) as [[cnt v] r] eqn:Et.
  destruct (take_digits_mirrors s1 s1' 0 0 cnt v r H1 Et) as (r' & -> & _).
  reflexivity.
Qed.

(** ** String literals *)

Lemma scan_string_item (s : string) :
  Json.scan_string s =
  match string_item s with
  | Close r => Some (EmptyString, r)
  | Piece f r => Json.push f (Json.scan_string r)
  | Bad => None
  end.
Proof.
  destruct s as [|c r]; [reflexivity|].
  unfold string_item, after_high.
  change (Json.scan_string (String c r)) with
    (if Ascii.eqb c "034" then Some (EmptyString, r)
     else if Ascii.eqb c "\" then
       match r with
       | EmptyString => None
       | String e r1 =>
           if Ascii.eqb e "u" then
             match r1 with
             | String a (String b (String c' (String d r2))) =>
                 match Json.hex4 a b c' d with
                 | None => None
                 | Some u =>
                     if Json.is_high_surrogate u then
                       match r2 with
                       | String x (String y r2') =>
                           if Ascii.eqb x "\" && Ascii.eqb y "u" then
                             match r2' with
                             | String a2 (String b2 (String c2 (String d2 r3))) =>
                                 match Json.hex4 a2 b2 c2 d2 with
                                 | None => None
                                 | Some u2 =>
                                     if Json.is_low_surrogate u2 then
                                       Json.push
                                         (Json.utf8 (65536 + ((u - 55296) * 1024
                                                              + (u2 - 56320))))
                                         (Json.scan_string r3)
                                     else Json.push (Json.utf8 u) (Json.scan_string r2)
                                 end
                             | _ => None
                             end
                           else Json.push (Json.utf8 u) (Json.scan_string r2)
                       | _ => Json.push (Json.utf8 u) (Json.scan_string r2)
                       end
                     else Json.push (Json.utf8 u) (Json.scan_string r2)
                 end
             | _ => None
             end
           else
             match Json.unescape e with
             | Some ch => Json.push (String ch) (Json.scan_string r1)
             | None => None
             end
       end
     else if Json.code c <? 32 then None
     else Json.push (String c) (Json.scan_string r)).
  repeat match goal with
         | |- context [if ?b then _ else _] => destruct b
         | |- context [match ?x with _ => _ end] =>
             first [is_var x; destruct x | destruct x eqn:?]
         end; reflexivity.
Qed.

Lemma hex_of_solid (c : ascii) (x : Z) : Json.hex_of c = Some x -> pad c = false.
Proof.
  intros H. destruct (pad c) eqn:E; [|reflexivity].
  rewrite (hex_of_pad c E) in H. discriminate.
Qed.

Lemma hex4_solid (a b c d : ascii) (u : Z) :
  Json.hex4 a b c d = Some u ->
  pad a = false /\ pad b = false /\ pad c = false /\ pad d = false.
Proof.
  unfold Json.hex4.
  destruct (Json.hex_of a) eqn:Ea; [|discriminate].
  destruct (Json.hex_of b) eqn:Eb; [|discriminate].
  destruct (Json.hex_of c) eqn:Ec; [|discriminate].
  destruct (Json.hex_of d) eqn:Ed; [|discriminate].
  intros _. repeat split; eapply hex_of_solid; eassumption.
Qed.

Lemma mirrors_hex4 (a b c d : ascii) (r m : string) (u : Z) :
  Json.hex4 a b c d = Some u ->
  mirrors (String a (String b (String c (String d r)))) m ->
  exists r', m = String a (String b (String c (String d r'))) /\ mirrors r r'.
Proof.
  intros Hu H. apply hex4_solid in Hu as (Ha & Hb & Hc & Hd).
  apply (mirrors_solid _ _ _ Ha) in H as (m1 & -> & H).
  apply (mirrors_solid _ _ _ Hb) in H as (m2 & -> & H).
  apply (mirrors_solid _ _ _ Hc) in H as (m3 & -> & H).
  apply (mirrors_solid _ _ _ Hd) in H as (m4 & -> & H).
  eauto.
Qed.

Lemma after_high_fallback (u : Z) (m2 : string) :
  (forall x y t, m2 = String x (String y t) ->
                 Ascii.eqb x "\" && Ascii.eqb y "u" = false) ->
  after_high u m2 = Piece (Json.utf8 u) m2.
Proof.
  intros H. unfold after_high. destruct m2 as [|x [|y t]]; try reflexivity.
  rewrite (H x y t eq_refl). reflexivity.
Qed.

Lemma after_high_mirrors (u : Z) (r2 m2 : string) :
  mirrors r2 m2 ->
  match after_high u r2 with
  | Close _ => False
  | Piece f r => exists r', after_high u m2 = Piece f r' /\ mirrors r r'
  | Bad => True
  end.
Proof.
  intros H.
  assert (Hfall : (forall x y t, r2 = String x (String y t) ->
                                 Ascii.eqb x "\" && Ascii.eqb y "u" = false) ->
                  exists r', after_high u m2 = Piece (Json.utf8 u) r' /\ mirrors r2 r').
  { intros Hcond. exists m2. split; [|exact H].
    apply after_high_fallback. intros x' y' t' ->.
    destruct r2 as [|x r2]; [apply mirrors_nil in H; discriminate|].
    apply mirrors_cons in H as [(Hm & _)|(t1 & Hm & H)]; [discriminate|].
    injection Hm as Hx Ht. subst x' t1.
    destruct r2 as [|y r2]; [apply mirrors_nil in H; discriminate|].
    apply mirrors_cons in H as [(Hm & _)|(t2 & Hm & H)]; [discriminate|].
    injection Hm as Hy Ht. subst y' t'.
    rewrite (eqb_flat x "\" eq_refl), (eqb_flat y "u" eq_refl).
    eapply Hcond. reflexivity. }
  destruct r2 as [|x [|y r2']].
  - rewrite after_high_fallback by (intros; discriminate). apply Hfall. intros; discriminate.
  - rewrite after_high_fallback by (intros; discriminate). apply Hfall. intros; discriminate.
  - destruct (Ascii.eqb x "\" && Ascii.eqb y "u") eqn:Econd.
    + clear Hfall. unfold after_high at 1. rewrite Econd.
      apply andb_prop in Econd as (Ex & Ey).
      apply Ascii.eqb_eq in Ex, Ey. subst x y.
      apply (mirrors_solid _ _ _ (eq_refl : pad "\" = false)) in H as (m3 & -> & H).
      apply (mirrors_solid _ _ _ (eq_refl : pad "u" = false)) in H as (m4 & -> & H).
      destruct r2' as [|a2 [|b2 [|c2 [|d2 r3]]]]; try exact I.
      destruct (Json.hex4 a2 b2 c2 d2) as [u2|] eqn:E2; [|exact I].
      pose proof H as H0.
      destruct (mirrors_hex4 _ _ _ _ _ _ _ E2 H) as (r3' & -> & H3).
      unfold after_high. simpl. rewrite E2.
      destruct (Json.is_low_surrogate u2); [eauto|].
      eexists. split; [reflexivity|].
      destruct H0 as (x0 & w0 & Hx & Hw & Hf).
      exists (String "\" (String "u" x0)), w0. simpl. rewrite Hx, Hf. auto.
    + rewrite after_high_fallback
        by (intros x0 y0 t0 E; injection E as <- <- <-; exact Econd).
      apply Hfall. intros x0 y0 t0 E. injection E as <- <- <-. exact Econd.
Qed.

Lemma string_item_mirrors (s s' : string) :
  mirrors s s' -> all_pad s = false ->
  match string_item s with
  | Close r => exists r', string_item s' = Close r' /\ mirrors r r'
  | Piece f r => exists r', string_item s' = Piece f r' /\ mirrors r r'
  | Bad => True
  end.
Proof.
  intros H Hnp. destruct s as [|c r]; [exact I|].
  apply mirrors_cons in H as [(_ & Hp)|(t & -> & H)]; [congruence|].
  unfold string_item at 1.
  destruct (Ascii.eqb c "034") eqn:Eq.
  { apply Ascii.eqb_eq in Eq. subst c. simpl. eauto. }
  destruct (Ascii.eqb c "\") eqn:Eb.
  { apply Ascii.eqb_eq in Eb. subst c.
    destruct r as [|e r1]; [exact I|].
    destruct (Ascii.eqb e "u") eqn:Eu.
    - apply Ascii.eqb_eq in Eu. subst e.
      apply (mirrors_solid _ _ _ (eq_refl : pad "u" = false)) in H as (t1 & -> & H).
      destruct r1 as [|a [|b [|c' [|d r2]]]]; try exact I.
      destruct (Json.hex4 a b c' d) as [u|] eqn:Eh; [|exact I].
      destruct (mirrors_hex4 _ _ _ _ _ _ _ Eh H) as (r2' & -> & H2).
      unfold string_item. simpl. rewrite Eh.
      destruct (Json.is_high_surrogate u).
      + pose proof (after_high_mirrors u r2 r2' H2) as Hah.
        destruct (after_high u r2); [contradiction | exact Hah | exact I].
      + eauto.
    - destruct (Json.unescape e) as [ch|] eqn:Ech; [|exact I].
      assert (He : pad e = false).
      { destruct (pad e) eqn:E; [|reflexivity].
        rewrite (unescape_pad e E) in Ech. discriminate. }
      apply (mirrors_solid _ _ _ He) in H as (t1 & -> & H).
      unfold string_item. simpl. rewrite Eu, Ech. eauto. }
  destruct (Json.code c <? 32) eqn:Ec; [exact I|].
  unfold string_item. rewrite (flat_printable c Ec), Eq, Eb, Ec. eauto.
Qed.

Lemma after_high_shorter (u : Z) (r2 : string) (f : string -> string) (r : string) :
  after_high u r2 = Piece f r -> (String.length r <= String.length r2)%nat.
Proof.
  unfold after_high.
  destruct r2 as [|x [|y r2']]; try (intros H; injection H as <- <-; simpl; lia).
  destruct (Ascii.eqb x "\" && Ascii.eqb y "u");
    [|intros H; injection H as <- <-; simpl; lia].
  destruct r2' as [|a2 [|b2 [|c2 [|d2 r3]]]]; try discriminate.
  destruct (Json.hex4 a2 b2 c2 d2); [|discriminate].
  destruct (Json.is_low_surrogate _); intros H; injection H as <- <-; simpl; lia.
Qed.

Lemma string_item_shorter (s : string) :
  match string_item s with
  | Close r | Piece _ r => (String.length r < String.length s)%nat
  | Bad => True
  end.
Proof.
  destruct s as [|c r]; [exact I|]. unfold string_item.
  destruct (Ascii.eqb c "034"); [simpl; lia|].
  destruct (Ascii.eqb c "\").
  - destruct r as [|e r1]; [exact I|].
    destruct (Ascii.eqb e "u").
    + destruct r1 as [|a [|b [|c' [|d r2]]]]; try exact I.
      destruct (Json.hex4 a b c' d); [|exact I].
      destruct (Json.is_high_surrogate _); [|simpl; lia].
      destruct (after_high z r2) as [|f r|] eqn:E; try exact I.
      * unfold after_high in E.
        destruct r2 as [|x [|y r2']]; try discriminate.
        destruct (Ascii.eqb x "\" && Ascii.eqb y "u"); [|discriminate].
        destruct r2' as [|a2 [|b2 [|c2 [|d2 r3]]]]; try discriminate.
        destruct (Json.hex4 a2 b2 c2 d2); [|discriminate].
        destruct (Json.is_low_surrogate _); discriminate.
      * apply after_high_shorter in E. simpl. lia.
    + destruct (Json.unescape e); [simpl; lia | exact I].
  - destruct (Json.code c <? 32); [exact I | simpl; lia].
Qed.

Lemma scan_string_pad (s : string) : all_pad s = true -> Json.scan_string s = None.
Proof.
  induction s as [|c r IH]; [reflexivity|].
  intros H. simpl in H. apply andb_prop in H as (Hc & Hr).
  rewrite scan_string_item. unfold string_item.
  rewrite (eqb_pad c "034" Hc eq_refl), (eqb_pad c "\" Hc eq_refl).
  destruct (Json.code c <? 32); [reflexivity|].
  rewrite (IH Hr). reflexivity.
Qed.

Lemma scan_string_mirrors (n : nat) :
  forall (s s' body rest : string),
    (String.length s <= n)%nat ->
    mirrors s s' ->
    Json.scan_string s = Some (body, rest) ->
    exists rest', Json.scan_string s' = Some (body, rest') /\ mirrors rest rest'.
Proof.
  induction n as [|n IH]; intros s s' body rest Hn H Hs.
  - destruct s; [discriminate | simpl in Hn; lia].
  - assert (Hnp : all_pad s = false).
    { destruct (all_pad s) eqn:E; [|reflexivity].
      rewrite (scan_string_pad s E) in Hs. discriminate. }
    pose proof (string_item_mirrors s s' H Hnp) as Hitem.
    pose proof (string_item_shorter s) as Hshort.
    rewrite scan_string_item in Hs. rewrite scan_string_item.
    destruct (string_item s) as [r|f r|]; [| |discriminate].
    + destruct Hitem as (r' & -> & Hr). injection Hs as <- <-. eauto.
    + destruct Hitem as (r' & -> & Hr).
      destruct (Json.scan_string r) as [[b0 rest0]|] eqn:Er; [|discriminate].
      simpl in Hs. injection Hs as <- <-.
      destruct (IH r r' b0 rest0) as (rest' & -> & Hrest); [lia | exact Hr | exact Er|].
      simpl. eauto.
Qed.

(** ** Values *)

Lemma scan_constant_mirrors (s s' : string) (v : pyval) (r : string) :
  mirrors s s' ->
  Json.scan_constant s = Json.Scanned v r ->
  exists r', Json.scan_constant s' = Json.Scanned v r' /\ mirrors r r'.
Proof.
  intros H. unfold Json.scan_constant.
  pose proof (strip_prefix_mirrors "null" eq_refl s s' H) as H1.
  destruct (Json.strip_prefix "null" s), (Json.strip_prefix "null" s');
    simpl in H1; try contradiction;
    [intros E; injection E as <- <-; eauto|].
  pose proof (strip_prefix_mirrors "true" eq_refl s s' H) as H2.
  destruct (Json.strip_prefix "true" s), (Json.strip_prefix "true" s');
    simpl in H2; try contradiction;
    [intros E; injection E as <- <-; eauto|].
  pose proof (strip_prefix_mirrors "false" eq_refl s s' H) as H3.
  destruct (Json.strip_prefix "false" s), (Json.strip_prefix "false" s');
    simpl in H3; try contradiction;
    [intros E; injection E as <- <-; eauto|].
  pose proof (scan_number_mirrors s s' H) as H4.
  destruct (Json.scan_number s) as [[v1 r1]|], (Json.scan_number s') as [[v1' r1']|];
    simpl in H4; try contradiction;
    [destruct H4 as (<- & H4); rewrite <- (int_digits_mirrors s s' H);
     destruct v1; try destruct (_ <? _);
     intros E; try discriminate E; injection E as <- <-; eauto|].
  pose proof (strip_prefix_mirrors "NaN" eq_refl s s' H) as H5.
  destruct (Json.strip_prefix "NaN" s), (Json.strip_prefix "NaN" s');
    simpl in H5; try contradiction;
    [intros E; injection E as <- <-; eauto|].
  pose proof (strip_prefix_mirrors "Infinity" eq_refl s s' H) as H6.
  destruct (Json.strip_prefix "Infinity" s), (Json.strip_prefix "Infinity" s');
    simpl in H6; try contradiction;
    [intros E; injection E as <- <-; eauto|].
  pose proof (strip_prefix_mirrors "-Infinity" eq_refl s s' H) as H7.
  destruct (Json.strip_prefix "-Infinity" s), (Json.strip_prefix "-Infinity" s');
    simpl in H7; try contradiction;
    [intros E; injection E as <- <-; eauto|].
  discriminate.
Qed.

Ltac mirror_char k s s' H E r r' :=
  pose proof (strip_char_mirrors k s s' eq_refl H) as E;
  destruct (Json.strip_char k s) as [r|], (Json.strip_char k s') as [r'|];
  simpl in E; try contradiction.

(** A value scanned in a text is scanned in its mirror, and what is left
    of the one mirrors what is left of the other. *)
Lemma scan_mirrors (n : nat) :
  (forall s s' v r, mirrors s s' -> Json.scan_once n s = Json.Scanned v r ->
     exists r', Json.scan_once n s' = Json.Scanned v r' /\ mirrors r r')
  /\ (forall s s' acc v r, mirrors s s' -> Json.scan_elems n s acc = Json.Scanned v r ->
        exists r', Json.scan_elems n s' acc = Json.Scanned v r' /\ mirrors r r')
  /\ (forall s s' acc v r, mirrors s s' -> Json.scan_members n s acc = Json.Scanned v r ->
        exists r', Json.scan_members n s' acc = Json.Scanned v r' /\ mirrors r r').
Proof.
  induction n as [|n (IHo & IHe & IHm)]; [repeat split; discriminate|].
  split; [|split].
  - intros s s' v r H. cbn [Json.scan_once].
    mirror_char "034"%char s s' H Hq q q'.
    { destruct (Json.scan_string q) as [[str rest]|] eqn:Es; [|discriminate].
      destruct (scan_string_mirrors _ q q' str rest (le_n _) Hq Es) as (rest' & -> & Hr).
      intros E. injection E as <- <-. eauto. }
    mirror_char "{"%char s s' H Ho o o'.
    { pose proof (skip_ws_mirrors _ _ Ho) as Hw.
      mirror_char "}"%char (Json.skip_ws o) (Json.skip_ws o') Hw Hc c c'.
      - intros E. injection E as <- <-. eauto.
      - apply IHm. exact Hw. }
    mirror_char "["%char s s' H Ha a a'.
    { pose proof (skip_ws_mirrors _ _ Ha) as Hw.
      mirror_char "]"%char (Json.skip_ws a) (Json.skip_ws a') Hw Hc c c'.
      - intros E. injection E as <- <-. eauto.
      - apply IHe. exact Hw. }
    apply scan_constant_mirrors. exact H.
  - intros s s' acc v r H. cbn [Json.scan_elems].
    destruct (Json.scan_once n s) as [v0 r0| | |] eqn:E0; try discriminate.
    destruct (IHo s s' v0 r0 H E0) as (r0' & -> & H0).
    pose proof (skip_ws_mirrors _ _ H0) as Hw.
    mirror_char ","%char (Json.skip_ws r0) (Json.skip_ws r0') Hw Hc c c'.
    + apply IHe. apply skip_ws_mirrors. exact Hc.
    + mirror_char "]"%char (Json.skip_ws r0) (Json.skip_ws r0') Hw He e e'; [|discriminate].
      intros E. injection E as <- <-. eauto.
  - intros s s' acc v r H. cbn [Json.scan_members].
    mirror_char "034"%char s s' H Hq q q'; [|discriminate].
    destruct (Json.scan_string q) as [[k r1]|] eqn:Es; [|discriminate].
    destruct (scan_string_mirrors _ q q' k r1 (le_n _) Hq Es) as (r1' & -> & H1).
    pose proof (skip_ws_mirrors _ _ H1) as Hw1.
    mirror_char ":"%char (Json.skip_ws r1) (Json.skip_ws r1') Hw1 Hc c c'; [|discriminate].
    pose proof (skip_ws_mirrors _ _ Hc) as Hw2.
    destruct (Json.scan_once n (Json.skip_ws c)) as [v0 r3| | |] eqn:E0; try discriminate.
    destruct (IHo _ _ v0 r3 Hw2 E0) as (r3' & -> & H3).
    pose proof (skip_ws_mirrors _ _ H3) as Hw3.
    mirror_char ","%char (Json.skip_ws r3) (Json.skip_ws r3') Hw3 Hm m m'.
    + apply IHm. apply skip_ws_mirrors. exact Hm.
    + mirror_char "}"%char (Json.skip_ws r3) (Json.skip_ws r3') Hw3 He e e'; [|discriminate].
      intros E. injection E as <- <-. eauto.
Qed.

(** No value starts with padding. *)
Lemma scan_once_pad (n : nat) (c : ascii) (t : string) (v : pyval) (r : string) :
  pad c = true -> Json.scan_once n (String c t) <> Json.Scanned v r.
Proof.
  intros Hc. destruct n as [|n]; [discriminate|]. cbn [Json.scan_once].
  unfold Json.strip_char.
  rewrite (eqb_pad c "034" Hc eq_refl), (eqb_pad c "{" Hc eq_refl),
    (eqb_pad c "[" Hc eq_refl).
  unfold Json.scan_constant, Json.scan_number, Json.scan_int_part, Json.strip_char.
  cbn [Json.strip_prefix].
  rewrite (Ascii.eqb_sym "n" c), (eqb_pad c "n" Hc eq_refl).
  rewrite (Ascii.eqb_sym "t" c), (eqb_pad c "t" Hc eq_refl).
  rewrite (Ascii.eqb_sym "f" c), (eqb_pad c "f" Hc eq_refl).
  rewrite (Ascii.eqb_sym "N" c), (eqb_pad c "N" Hc eq_refl).
  rewrite (Ascii.eqb_sym "I" c), (eqb_pad c "I" Hc eq_refl).
  rewrite (Ascii.eqb_sym "-" c), (eqb_pad c "-" Hc eq_refl).
  rewrite (eqb_pad c "0" Hc eq_refl).
  cbn [Json.take_digits]. rewrite (digit_of_pad c Hc). simpl. discriminate.
Qed.

Lemma scan_once_nil (n : nat) (v : pyval) (r : string) :
  Json.scan_once n EmptyString <> Json.Scanned v r.
Proof.
  intros H. destruct (scan_consumes n) as (Ho & _). apply Ho in H. simpl in H. lia.
Qed.

(** ** More fuel changes nothing *)

Lemma scan_more_fuel (n : nat) :
  (forall s m, (n <= m)%nat -> Json.scan_once n s <> Json.Starved ->
               Json.scan_once m s = Json.scan_once n s)
  /\ (forall s acc m, (n <= m)%nat -> Json.scan_elems n s acc <> Json.Starved ->
                      Json.scan_elems m s acc = Json.scan_elems n s acc)
  /\ (forall s acc m, (n <= m)%nat -> Json.scan_members n s acc <> Json.Starved ->
                      Json.scan_members m s acc = Json.scan_members n s acc).
Proof.
  induction n as [|n (IHo & IHe & IHm)];
    [repeat split; intros; exfalso; auto|].
  split; [|split].
  - intros s [|m] Hm; [lia|]. cbn [Json.scan_once].
    destruct (Json.strip_char "034" s); [reflexivity|].
    destruct (Json.strip_char "{" s) as [o|].
    { destruct (Json.strip_char "}" (Json.skip_ws o)); [reflexivity|].
      apply IHm. lia. }
    destruct (Json.strip_char "[" s) as [a|]; [|reflexivity].
    destruct (Json.strip_char "]" (Json.skip_ws a)); [reflexivity|].
    apply IHe. lia.
  - intros s acc [|m] Hm; [lia|]. cbn [Json.scan_elems]. intros H.
    assert (H0 : Json.scan_once n s <> Json.Starved).
    { intros E. rewrite E in H. apply H. reflexivity. }
    rewrite (IHo s m) by (lia || exact H0).
    destruct (Json.scan_once n s) as [v0 r0| | |]; try reflexivity.
    destruct (Json.strip_char "," (Json.skip_ws r0)); [|reflexivity].
    apply IHe; [lia | exact H].
  - intros s acc [|m] Hm; [lia|]. cbn [Json.scan_members]. intros H.
    destruct (Json.strip_char "034" s) as [q|]; [|reflexivity].
    destruct (Json.scan_string q) as [[k r1]|]; [|reflexivity].
    destruct (Json.strip_char ":" (Json.skip_ws r1)) as [c|]; [|reflexivity].
    assert (H0 : Json.scan_once n (Json.skip_ws c) <> Json.Starved).
    { intros E. rewrite E in H. apply H. reflexivity. }
    rewrite (IHo _ m) by (lia || exact H0).
    destruct (Json.scan_once n (Json.skip_ws c)) as [v0 r3| | |]; try reflexivity.
    destruct (Json.strip_char "," (Json.skip_ws r3)); [|reflexivity].
    apply IHm; [lia | exact H].
Qed.

(** ** What [strip] removes *)

Lemma is_space2_pad (a b : ascii) :
  Response.is_space2 a b = true -> pad a = true /\ pad b = true.
Proof.
  unfold Response.is_space2, pad. intros H.
  apply andb_prop in H as (Ha & Hb). apply Z.eqb_eq in Ha.
  apply orb_prop in Hb as [Hb|Hb]; apply Z.eqb_eq in Hb;
    rewrite Ha, Hb; split; apply orb_true_r.
Qed.

Lemma is_space3_pad (a b c : ascii) :
  Response.is_space3 a b c = true -> pad a = true /\ pad b = true /\ pad c = true.
Proof.
  unfold Response.is_space3, pad. intros H.
  assert (Hx : 128 <= Json.code a /\ 128 <= Json.code b /\ 128 <= Json.code c).
  { repeat match type of H with
           | (_ || _) = true => apply orb_prop in H as [H|H]
           end;
      repeat match goal with
             | H : (_ && _) = true |- _ => apply andb_prop in H as (? & ?)
             | H : (_ || _) = true |- _ => apply orb_prop in H as [?|?]
             | H : (_ =? _) = true |- _ => apply Z.eqb_eq in H
             | H : (_ <=? _) = true |- _ => apply Z.leb_le in H
             end; lia. }
  destruct Hx as (Ha & Hb & Hc).
  apply Z.leb_le in Ha, Hb, Hc. rewrite Ha, Hb, Hc.
  repeat split; apply orb_true_r.
Qed.

Lemma pad_space (c : ascii) : is_space c = true -> pad c = true.
Proof. unfold pad. intros ->. reflexivity. Qed.

Lemma lstrip_spec (n : nat) :
  forall s, (String.length s <= n)%nat ->
    (exists w, s = (w ++ Response.lstrip s)%string /\ all_pad w = true)
    /\ match Response.lstrip s with
       | String c _ => is_space c = false
       | EmptyString => True
       end.
Proof.
  induction n as [|n IH]; intros s Hn.
  - destruct s; [|simpl in Hn; lia]. simpl. split; [exists EmptyString; auto | exact I].
  - destruct s as [|a r]; [simpl; split; [exists EmptyString; auto | exact I]|].
    simpl in Hn. cbn [Response.lstrip].
    destruct (is_space a) eqn:Ea.
    { destruct (IH r) as ((w & Hw & Hp) & Hh); [lia|]. split; [|exact Hh].
      exists (String a w). split.
      - change (String a r = String a (w ++ Response.lstrip r)). f_equal. exact Hw.
      - simpl. rewrite (pad_space a Ea), Hp. reflexivity. }
    destruct r as [|b r'];
      [split; [exists EmptyString; auto | exact Ea]|].
    destruct (Response.is_space2 a b) eqn:E2.
    { destruct (IH r') as ((w & Hw & Hp) & Hh); [simpl in Hn; lia|]. split; [|exact Hh].
      apply is_space2_pad in E2 as (Pa & Pb).
      exists (String a (String b w)). split.
      - change (String a (String b r')
                = String a (String b (w ++ Response.lstrip r'))).
        do 2 f_equal. exact Hw.
      - simpl. rewrite Pa, Pb, Hp. reflexivity. }
    destruct r' as [|c r''];
      [split; [exists EmptyString; auto | exact Ea]|].
    destruct (Response.is_space3 a b c) eqn:E3.
    { destruct (IH r'') as ((w & Hw & Hp) & Hh); [simpl in Hn; lia|]. split; [|exact Hh].
      apply is_space3_pad in E3 as (Pa & Pb & Pc).
      exists (String a (String b (String c w))). split.
      - change (String a (String b (String c r''))
                = String a (String b (String c (w ++ Response.lstrip r'')))).
        do 3 f_equal. exact Hw.
      - simpl. rewrite Pa, Pb, Pc, Hp. reflexivity. }
    split; [exists EmptyString; auto | exact Ea].
Qed.

Lemma lstrip_reversed_spec (n : nat) :
  forall s, (String.length s <= n)%nat ->
    exists w, s = (w ++ Response.lstrip_reversed s)%string /\ all_pad w = true.
Proof.
  induction n as [|n IH]; intros s Hn.
  - destruct s; [|simpl in Hn; lia]. exists EmptyString; auto.
  - destruct s as [|c r]; [exists EmptyString; auto|].
    simpl in Hn. cbn [Response.lstrip_reversed].
    destruct (is_space c) eqn:Ec.
    { destruct (IH r) as (w & Hw & Hp); [lia|].
      exists (String c w). split.
      - change (String c r = String c (w ++ Response.lstrip_reversed r)).
        f_equal. exact Hw.
      - simpl. rewrite (pad_space c Ec), Hp. reflexivity. }
    destruct r as [|b r']; [exists EmptyString; auto|].
    destruct (Response.is_space2 b c) eqn:E2.
    { destruct (IH r') as (w & Hw & Hp); [simpl in Hn; lia|].
      apply is_space2_pad in E2 as (Pb & Pc).
      exists (String c (String b w)). split.
      - change (String c (String b r')
                = String c (String b (w ++ Response.lstrip_reversed r'))).
        do 2 f_equal. exact Hw.
      - simpl. rewrite Pb, Pc, Hp. reflexivity. }
    destruct r' as [|a r'']; [exists EmptyString; auto|].
    destruct (Response.is_space3 a b c) eqn:E3.
    { destruct (IH r'') as (w & Hw & Hp); [simpl in Hn; lia|].
      apply is_space3_pad in E3 as (Pa & Pb & Pc).
      exists (String c (String b (String a w))). split.
      - change (String c (String b (String a r''))
                = String c (String b (String a (w ++ Response.lstrip_reversed r'')))).
        do 3 f_equal. exact Hw.
      - simpl. rewrite Pa, Pb, Pc, Hp. reflexivity. }
    exists EmptyString; auto.
Qed.

Lemma append_assoc (a b c : string) :
  ((a ++ b) ++ c = a ++ (b ++ c))%string.
Proof.
  induction a as [|x a IH]; [reflexivity|].
  change (String x ((a ++ b) ++ c) = String x (a ++ (b ++ c)))%string.
  f_equal. exact IH.
Qed.

Lemma append_nil_r (a : string) : (a ++ EmptyString)%string = a.
Proof.
  induction a as [|x a IH]; [reflexivity|].
  change (String x (a ++ EmptyString) = String x a)%string. f_equal. exact IH.
Qed.

Lemma reverse_reverse (s acc acc' : string) :
  Response.reverse (Response.reverse s acc) acc'
  = Response.reverse acc (s ++ acc')%string.
Proof.
  revert acc acc'. induction s as [|c s IH]; intros acc acc'; simpl; [reflexivity|].
  rewrite IH. reflexivity.
Qed.

Lemma reverse_app (a b acc : string) :
  Response.reverse (a ++ b) acc = Response.reverse b (Response.reverse a acc).
Proof.
  revert acc. induction a as [|c a IH]; intros acc; simpl; [reflexivity|]. apply IH.
Qed.

Lemma reverse_acc (s acc : string) :
  Response.reverse s acc = (Response.reverse s EmptyString ++ acc)%string.
Proof.
  revert acc. induction s as [|c s IH]; intros acc; simpl; [reflexivity|].
  rewrite IH, (IH (String c EmptyString)), append_assoc. reflexivity.
Qed.

Lemma all_pad_reverse (s acc : string) :
  all_pad (Response.reverse s acc) = all_pad s && all_pad acc.
Proof.
  revert acc. induction s as [|c s IH]; intros acc; simpl; [reflexivity|].
  rewrite IH. simpl. destruct (pad c), (all_pad s); reflexivity.
Qed.

Lemma rstrip_spec (s : string) :
  exists w, s = (Response.rstrip s ++ w)%string /\ all_pad w = true.
Proof.
  unfold Response.rstrip.
  destruct (lstrip_reversed_spec _ (Response.reverse s EmptyString) (le_n _))
    as (w & Hw & Hp).
  exists (Response.reverse w EmptyString). split.
  - rewrite <- reverse_acc, <- reverse_app, <- Hw, reverse_reverse.
    cbn [Response.reverse]. rewrite append_nil_r. reflexivity.
  - rewrite all_pad_reverse, Hp. reflexivity.
Qed.

Lemma strip_spec (s : string) :
  (exists w1 w2, s = (w1 ++ Response.strip s ++ w2)%string
                 /\ all_pad w1 = true /\ all_pad w2 = true)
  /\ match Response.strip s with
     | String c _ => is_space c = false
     | EmptyString => True
     end.
Proof.
  unfold Response.strip.
  destruct (rstrip_spec s) as (w2 & H2 & P2).
  destruct (lstrip_spec _ (Response.rstrip s) (le_n _)) as ((w1 & H1 & P1) & Hh).
  split; [|exact Hh]. exists w1, w2. split; [|auto].
  rewrite <- append_assoc, <- H1. exact H2.
Qed.

Lemma flatten_app_inv (s a b : string) :
  Response.flatten s = (a ++ b)%string ->
  exists sa sb, s = (sa ++ sb)%string /\ Response.flatten sa = a
                /\ Response.flatten sb = b.
Proof.
  revert s. induction a as [|c a IH]; intros s H.
  - exists EmptyString, s. auto.
  - destruct s as [|c0 s]; [discriminate|]. simpl in H. injection H as Hc H.
    destruct (IH s H) as (sa & sb & -> & <- & <-).
    exists (String c0 sa), sb. simpl. rewrite Hc. auto.
Qed.

Lemma skip_ws_pad_prefix (w rest : string) :
  all_pad w = true ->
  Json.skip_ws (w ++ rest) = Json.skip_ws rest
  \/ exists c t, Json.skip_ws (w ++ rest) = String c t /\ pad c = true.
Proof.
  induction w as [|c w IH]; simpl; [auto|].
  intros H. apply andb_prop in H as (Hc & Hw).
  destruct (Json.is_ws c); [apply IH; exact Hw | right; eauto].
Qed.

(** ** The clean-up keeps what a valid text means *)

Lemma loads_clean (content : string) (v : pyval) :
  Json.loads content = Some v ->
  Json.loads (Response.strip (Response.flatten content)) = Some v.
Proof.
  unfold Json.loads at 1.
  destruct (Json.scan_once (2 * String.length content + 1) (Json.skip_ws content))
    as [v0 rest| | |] eqn:Escan; try discriminate.
  destruct (Json.skip_ws rest) eqn:Erest; [|discriminate].
  intros E. injection E as ->.
  destruct (strip_spec (Response.flatten content)) as ((w1 & w2 & Hs & P1 & P2) & Hhead).
  set (cl := Response.strip (Response.flatten content)) in *.
  apply flatten_app_inv in Hs as (c1 & c23 & Hc & F1 & F23).
  apply flatten_app_inv in F23 as (cx & c2 & -> & Fx & F2).
  rewrite <- F1, all_pad_flatten in P1. rewrite <- F2, all_pad_flatten in P2.
  assert (Hlen : (String.length cl <= String.length content)%nat).
  { rewrite Hc, <- Fx, flatten_length, !append_length. lia. }
  assert (Hskip : Json.skip_ws content = (cx ++ c2)%string
                  /\ exists c cx', cx = String c cx' /\ Json.is_ws c = false).
  { destruct (skip_ws_pad_prefix c1 (cx ++ c2) P1) as [E|(c & t & E & Pc)];
      rewrite <- Hc in E.
    - destruct cx as [|c cx'].
      + exfalso. change (EmptyString ++ c2)%string with c2 in E. rewrite E in Escan.
        pose proof (all_pad_skip_ws c2 P2) as Pw.
        destruct (Json.skip_ws c2) as [|c t].
        * exact (scan_once_nil _ _ _ Escan).
        * simpl in Pw. apply andb_prop in Pw as (Pc & _).
          exact (scan_once_pad _ c t _ _ Pc Escan).
      + assert (Hc0 : Json.is_ws c = false).
        { destruct (Json.is_ws c) eqn:Ews; [|reflexivity].
          rewrite <- Fx in Hhead. simpl in Hhead.
          rewrite is_space_flat, (is_ws_space c Ews) in Hhead. discriminate. }
        split; [|eauto]. rewrite E.
        change (String c cx' ++ c2)%string with (String c (cx' ++ c2))%string.
        cbn [Json.skip_ws]. rewrite Hc0. reflexivity.
    - exfalso. rewrite E in Escan. exact (scan_once_pad _ c t _ _ Pc Escan). }
  destruct Hskip as (Hskip & c & cx' & -> & Hc0).
  rewrite Hskip in Escan.
  assert (Hm : mirrors (String c cx' ++ c2) cl).
  { exists (String c cx'), c2. rewrite Fx. auto. }
  destruct (scan_mirrors (2 * String.length content + 1)) as (Ho & _).
  destruct (Ho _ _ _ _ Hm Escan) as (rest' & Escan' & Hrest).
  apply skip_ws_mirrors in Hrest. rewrite Erest in Hrest. apply mirrors_nil in Hrest.
  assert (Hcl : Json.skip_ws cl = cl).
  { rewrite <- Fx. simpl. rewrite is_ws_flat, Hc0. reflexivity. }
  unfold Json.loads.
  pose proof (loads_never_starved cl) as Hfuel. rewrite Hcl in *.
  destruct (scan_more_fuel (2 * String.length cl + 1)) as (Hmore & _).
  rewrite (Hmore cl (2 * String.length content + 1)%nat) in Escan' by (lia || exact Hfuel).
  rewrite Escan', Hrest. reflexivity.
Qed.

(** No value starts with a backquote. *)
Lemma scan_once_backquote (n : nat) (t : string) (v : pyval) (r : string) :
  Json.scan_once n (String "`" t) <> Json.Scanned v r.
Proof.
  destruct n as [|n]; [discriminate|]. cbn [Json.scan_once].
  unfold Json.strip_char. cbn [Ascii.eqb Bool.eqb].
  unfold Json.scan_constant, Json.scan_number, Json.scan_int_part, Json.strip_char.
  cbn [Json.strip_prefix Ascii.eqb Bool.eqb Json.take_digits].
  change (Json.digit_of "`") with (@None Z). simpl. discriminate.
Qed.

Lemma loads_not_fenced (content : string) (v : pyval) :
  Json.loads content = Some v -> Response.startswith "```" content = false.
Proof.
  intros H. unfold Response.startswith.
  destruct content as [|c t]; [reflexivity|]. cbn [Json.strip_prefix].
  destruct (Ascii.eqb_spec "`" c) as [<-|_]; [|reflexivity].
  exfalso. unfold Json.loads in H. cbn [Json.skip_ws Json.is_ws] in H.
  destruct (Json.scan_once _ (String "`" t)) as [v0 rest| | |] eqn:E;
    [exact (scan_once_backquote _ _ _ _ E)
    | discriminate H | discriminate H | discriminate H].
Qed.

(** X23. The clean-up keeps a valid response.  When the text of the
    completion is a JSON object as it stands, with whatever white space and
    line breaks around and inside it, [generate_metadata] returns that very
    object: replacing the line breaks and stripping the text changes nothing
    of what it decodes to. *)
Theorem valid_response_is_kept
    (content : string) (v : pyval)
    (Hvalid : Json.loads content = Some v)
    (Hobject : is_dict v = true) :
  Response.read_response content = Response.Done v.
Proof.
  unfold Response.read_response, Response.clean_up.
  rewrite (loads_not_fenced content v Hvalid).
  pose proof (loads_clean content v Hvalid) as Hclean.
  rewrite (loads_within_limit _ v Hclean), Hclean, Hobject. reflexivity.
Qed.

Lemma valid_response_is_kept_witness :
  Response.read_response sample_response = Response.Done sample_metadata.
Proof.
  apply valid_response_is_kept; vm_compute; reflexivity.
Defined.

(** ** Fences *)

Lemma after_line_feed_found (tag rest : string) :
  lacks "010" tag = true ->
  Response.after_line_feed (tag ++ String "010" rest) = Some rest.
Proof.
  induction tag as [|c tag IH]; intros H.
  - reflexivity.
  - simpl in H. apply andb_prop in H as (Hc & Ht). apply negb_true_iff in Hc.
    change (String c tag ++ String "010" rest)%string
      with (String c (tag ++ String "010" rest))%string.
    cbn [Response.after_line_feed]. rewrite Hc. apply IH. exact Ht.
Qed.

Lemma after_line_feed_none (s : string) :
  lacks "010" s = true -> Response.after_line_feed s = None.
Proof.
  induction s as [|c s IH]; intros H; [reflexivity|].
  simpl in H. apply andb_prop in H as (Hc & Hs). apply negb_true_iff in Hc.
  cbn [Response.after_line_feed]. rewrite Hc. apply IH. exact Hs.
Qed.

Lemma startswith_fence_lacks (c : ascii) (t : string) :
  Ascii.eqb c "`" = false -> Response.startswith "```" (String c t) = false.
Proof.
  intros H. unfold Response.startswith. cbn [Json.strip_prefix].
  rewrite Ascii.eqb_sym, H. reflexivity.
Qed.

Lemma startswith_fence (s : string) :
  Response.startswith "```" (String "`" s)
  = match s with
    | String a (String b _) => Ascii.eqb a "`" && Ascii.eqb b "`"
    | _ => false
    end.
Proof.
  unfold Response.startswith. cbn [Json.strip_prefix]. rewrite Ascii.eqb_refl.
  destruct s as [|a [|b r]]; try reflexivity.
  - destruct (Ascii.eqb "`" a); reflexivity.
  - rewrite (Ascii.eqb_sym "`" a), (Ascii.eqb_sym "`" b).
    destruct (Ascii.eqb a "`"), (Ascii.eqb b "`"); reflexivity.
Qed.

Lemma before_last_none (t : string) :
  lacks "`" t = true ->
  Response.before_last "```" t = None
  /\ Response.before_last "```" (String "`" t) = None
  /\ Response.before_last "```" (String "`" (String "`" t)) = None.
Proof.
  intros H.
  assert (H0 : Response.before_last "```" t = None).
  { induction t as [|c t IH]; [reflexivity|].
    simpl in H. apply andb_prop in H as (Hc & Ht). apply negb_true_iff in Hc.
    cbn [Response.before_last]. rewrite (IH Ht), (startswith_fence_lacks c t Hc).
    reflexivity. }
  assert (Hhead : match t with String a _ => Ascii.eqb a "`" = false | _ => True end).
  { destruct t as [|a t]; [exact I|].
    simpl in H. apply andb_prop in H as (Hc & _). apply negb_true_iff in Hc. exact Hc. }
  assert (H1 : Response.before_last "```" (String "`" t) = None).
  { cbn [Response.before_last]. rewrite H0, startswith_fence.
    destruct t as [|a [|b r]]; try reflexivity. rewrite Hhead. reflexivity. }
  split; [exact H0|]. split; [exact H1|].
  cbn [Response.before_last]. cbn [Response.before_last] in H1. rewrite H1.
  rewrite startswith_fence. destruct t as [|b r]; [reflexivity|].
  rewrite Hhead, andb_false_r. reflexivity.
Qed.

Lemma before_last_cons (p : string) (c : ascii) (r : string) :
  Response.before_last p (String c r)
  = match Response.before_last p r with
    | Some b => Some (String c b)
    | None => if Response.startswith p (String c r) then Some EmptyString else None
    end.
Proof. reflexivity. Qed.

Lemma before_last_fence (body tail : string) :
  lacks "`" tail = true ->
  Response.before_last "```" (body ++ "```" ++ tail) = Some body.
Proof.
  intros H. destruct (before_last_none tail H) as (_ & _ & H2).
  induction body as [|c body IH].
  - change (EmptyString ++ "```" ++ tail)%string
      with (String "`" (String "`" (String "`" tail))).
    rewrite before_last_cons, H2, startswith_fence. reflexivity.
  - change (String c body ++ "```" ++ tail)%string
      with (String c (body ++ "```" ++ tail))%string.
    rewrite before_last_cons, IH. reflexivity.
Qed.

Lemma clean_up_fenced (tag body tail : string) :
  lacks "010" tag = true -> lacks "`" tail = true ->
  Response.clean_up (fenced tag body tail)
  = Response.Done (Response.strip (Response.flatten body)).
Proof.
  intros Htag Htail. unfold Response.clean_up, fenced.
  change ("```" ++ tag ++ String "010" (body ++ "```" ++ tail))%string
    with (String "`" (String "`" (String "`"
            (tag ++ String "010" (body ++ "```" ++ tail)))))%string.
  unfold Response.startswith. cbn [Json.strip_prefix Ascii.eqb Bool.eqb].
  cbn [Response.after_line_feed Ascii.eqb Bool.eqb].
  rewrite (after_line_feed_found tag _ Htag), (before_last_fence body tail Htail).
  reflexivity.
Qed.

(** X24. A fenced response is unwrapped.  When the completion is an opening
    fence with any tag on its line, then a JSON object, then a closing fence
    followed by text that has no backquote, [generate_metadata] returns that
    object, whatever the object contains (backquotes and fences inside its
    strings included). *)
Theorem fenced_response_is_unwrapped
    (tag body tail : string) (v : pyval)
    (Htag : lacks "010" tag = true)
    (Htail : lacks "`" tail = true)
    (Hvalid : Json.loads body = Some v)
    (Hobject : is_dict v = true) :
  Response.read_response (fenced tag body tail) = Response.Done v.
Proof.
  unfold Response.read_response.
  rewrite (clean_up_fenced tag body tail Htag Htail).
  pose proof (loads_clean body v Hvalid) as Hclean.
  rewrite (loads_within_limit _ v Hclean), Hclean, Hobject. reflexivity.
Qed.

Lemma fenced_response_is_unwrapped_witness :
  Response.read_response
    (fenced "json" sample_response (String "010" EmptyString))
  = Response.Done sample_metadata.
Proof.
  apply fenced_response_is_unwrapped; vm_compute; reflexivity.
Defined.

(** X25. A fence needs a line of its own.  When the completion starts with
    a fence and holds no line feed, as when the model answers with a fenced
    object on one line, the clean-up raises an IndexError and no metadata is
    returned, however valid the object between the fences is. *)
Theorem fence_without_line_feed
    (content : string)
    (Hfence : Response.startswith "```" content = true)
    (Hline : lacks "010" content = true) :
  Response.read_response content = Response.Failed Response.IndexError.
Proof.
  unfold Response.read_response, Response.clean_up.
  rewrite Hfence, (after_line_feed_none content Hline). reflexivity.
Qed.

Lemma fence_without_line_feed_witness :
  Response.read_response ("```json {} ```")
  = Response.Failed Response.IndexError.
Proof.
  apply fence_without_line_feed; vm_compute; reflexivity.
Defined.

(** * The digit limit of [int] *)

Lemma take_digits_ones (n : nat) :
  forall cnt acc, exists v,
    Json.take_digits (ones n) cnt acc = (cnt + Z.of_nat n, v, EmptyString).
Proof.
  induction n as [|n IH]; intros cnt acc.
  - exists acc. simpl. rewrite Z.add_0_r. reflexivity.
  - destruct (IH (cnt + 1) (acc * 10 + 1)) as (v & Hv). exists v.
    change (Json.take_digits (ones (S n)) cnt acc)
      with (Json.take_digits (ones n) (cnt + 1) (acc * 10 + 1)).
    rewrite Hv. f_equal. f_equal. lia.
Qed.

Lemma scan_constant_ones (n : nat) :
  (4300 < n)%nat -> Json.scan_constant (ones n) = Json.Overlong.
Proof.
  intros Hn. destruct n as [|n]; [lia|].
  destruct (take_digits_ones n 1 1) as (v & Hv).
  unfold Json.scan_constant, Json.scan_number, Json.scan_int_part, Json.int_digits.
  change (ones (S n)) with (String "1" (ones n)).
  cbn [Json.strip_prefix Json.strip_char Ascii.eqb Bool.eqb].
  change (Json.take_digits (String "1" (ones n)) 0 0)
    with (Json.take_digits (ones n) 1 1).
  rewrite Hv.
  assert (Hcnt : (1 + Z.of_nat n =? 0) = false) by (apply Z.eqb_neq; lia).
  rewrite Hcnt. cbn.
  assert (Hlim : (Json.int_max_str_digits <? 1 + Z.of_nat n) = true).
  { apply Z.ltb_lt. unfold Json.int_max_str_digits. lia. }
  rewrite Hlim. reflexivity.
Qed.

Lemma scan_once_ones (k n : nat) :
  (4300 < n)%nat -> Json.scan_once (S k) (ones n) = Json.Overlong.
Proof.
  intros Hn. rewrite <- (scan_constant_ones n Hn).
  destruct n as [|n]; [lia|]. reflexivity.
Qed.

(** A payload beyond the digit limit stops the decoder with a ValueError,
    malformed or not. *)
Lemma long_payload_exceeds (n : nat) (p : string) :
  long_payload n p -> p <> EmptyString /\ Json.exceeds_digit_limit p = true.
Proof.
  intros (Hn & [->| ->]).
  - split; [destruct n; [lia | discriminate]|].
    unfold Json.exceeds_digit_limit.
    assert (Hws : Json.skip_ws (ones n) = ones n) by (destruct n; reflexivity).
    rewrite Hws.
    replace (2 * String.length (ones n) + 1)%nat
      with (S (2 * String.length (ones n))) by lia.
    rewrite (scan_once_ones _ n Hn). reflexivity.
  - split; [discriminate|].
    unfold Json.exceeds_digit_limit.
    change (Json.skip_ws (String "[" (ones n))) with (String "[" (ones n)).
    change (String.length (String "[" (ones n))) with (S (String.length (ones n))).
    replace (2 * S (String.length (ones n)) + 1)%nat
      with (S (S (S (2 * String.length (ones n))))) by lia.
    assert (Hws : Json.skip_ws (ones n) = ones n) by (destruct n; reflexivity).
    assert (Hclose : Json.strip_char "]" (ones n) = None) by (destruct n; reflexivity).
    cbn [Json.scan_once Json.strip_char Ascii.eqb Bool.eqb].
    rewrite Hws, Hclose. cbn [Json.scan_elems].
    rewrite (scan_once_ones _ n Hn). reflexivity.
Qed.

(** [pd.isna] as a condition raises nothing but the ValueError of an array
    that is no truth value. *)
Lemma pd_isna_raises_only (v : pyval) (x : exn) :
  pd_isna v = Raise x -> x = ValueError.
Proof.
  revert v. fix IH 1. intros v.
  destruct v as [| | | | | | |l|]; simpl; intros H; try discriminate H.
  destruct l as [|v [|y l]]; try congruence.
  exact (IH v H).
Qed.

(** The exceptions that leave the parser here are ValueErrors: the one of
    [pd.isna] on a list and the one of the digit limit. *)
Lemma parse_json_column_raises_only (v : pyval) (e : exn) :
  ConcatJobs.parse_json_column v = Raise e -> e = ValueError.
Proof.
  unfold ConcatJobs.parse_json_column.
  destruct (pd_isna v) as [na|e0] eqn:Ena; simpl.
  - destruct (na || eq_str v EmptyString); [discriminate|].
    destruct (is_dict v); [discriminate|].
    destruct v; try discriminate.
    destruct (Json.exceeds_digit_limit s); [congruence|].
    destruct (Json.loads s); discriminate.
  - intros H. injection H as <-. exact (pd_isna_raises_only v e0 Ena).
Qed.

Lemma normalize_job_schemas_length (a b : DataFrame) :
  length (rows (ConcatJobs.normalize_job_schemas a b)) = length (rows a ++ rows b).
Proof.
  destruct (rows_normalize_job_schemas a b)
    as (cols & inject & _ & _ & _ & _ & _ & _ & _ & _ & ->).
  rewrite !length_app, !length_map. reflexivity.
Qed.

(** C3. The parser does raise past its boundary.  A payload that holds an
    [int] literal of more than 4300 digits, be it a JSON text as it stands
    or a malformed one, makes [json.loads] raise a ValueError, which the
    [except] clause of [parse_json_column] does not catch: the parser raises
    it, and the run of [main] on any relation that has such a payload in a
    row stops with an exception and returns no document. *)
Theorem long_number_stops_the_run
    (n : nat) (p : string) (a b employers jobsources : DataFrame)
    (ie xd : bool) (now : string) (row : Series)
    (Hlong : long_payload n p)
    (Hcol : has_column "CategorizedData" a || has_column "CategorizedData" b = true)
    (Hrow : In row (rows a ++ rows b))
    (Hcell : dict_get "CategorizedData" row = Some (VStr p)) :
  ConcatJobs.parse_json_column (VStr p) = Raise ValueError
  /\ exists e, ConcatJobs.main a b employers jobsources ie xd now = Raise e.
Proof.
  apply long_payload_exceeds in Hlong as (Hne & Hex).
  assert (Hparse : ConcatJobs.parse_json_column (VStr p) = Raise ValueError).
  { unfold ConcatJobs.parse_json_column. simpl.
    destruct (String.eqb_spec p EmptyString); [contradiction|].
    simpl. rewrite Hex. reflexivity. }
  split; [exact Hparse|]. exists ValueError.
  unfold ConcatJobs.main, ConcatJobs.parse_categorized_data, copy.
  assert (Hhas : has_column "CategorizedData" (ConcatJobs.normalize_job_schemas a b) = true).
  { rewrite has_column_normalize_job_schemas, Hcol. reflexivity. }
  rewrite Hhas.
  set (f := fun r : Series =>
              let* v := item r "CategorizedData" in
              let* q := ConcatJobs.parse_json_column v in
              Ok (dict_set "CategorizedData" q r)).
  assert (Hf : forall i nrow,
             rows (ConcatJobs.normalize_job_schemas a b) !! i = Some nrow ->
             exists r, (rows a ++ rows b) !! i = Some r
               /\ f nrow = let* q := ConcatJobs.parse_json_column (cell r "CategorizedData") in
                           Ok (dict_set "CategorizedData" q nrow)).
  { intros i nrow Hn. destruct (normalized_row_at a b i nrow Hn) as (r & Hr & Hc).
    exists r. split; [exact Hr|].
    unfold f, item. rewrite (Hc "CategorizedData") by discriminate.
    rewrite Hhas. reflexivity. }
  assert (Hraise : for_each f (rows (ConcatJobs.normalize_job_schemas a b))
                   = Raise ValueError).
  { apply for_each_raises.
    - apply Forall_forall. intros nrow Hin.
      apply list_elem_of_lookup in Hin as (i & Hi).
      destruct (Hf i nrow Hi) as (r & _ & ->).
      destruct (ConcatJobs.parse_json_column (cell r "CategorizedData")) as [q|e] eqn:E.
      + right. simpl. eauto.
      + left. simpl. apply parse_json_column_raises_only in E. congruence.
    - apply list_elem_of_In, list_elem_of_lookup in Hrow as (i & Hi).
      pose proof (lookup_lt_Some _ _ _ Hi) as Hlt.
      rewrite <- normalize_job_schemas_length in Hlt.
      apply lookup_lt_is_Some_2 in Hlt as (nrow & Hn).
      apply Exists_exists. exists nrow.
      split; [apply list_elem_of_lookup_2 in Hn; exact Hn|].
      destruct (Hf i nrow Hn) as (r & Hr & ->).
      assert (r = row) by congruence. subst r.
      unfold cell. rewrite Hcell, Hparse. reflexivity. }
  rewrite Hraise. reflexivity.
Qed.

Lemma long_number_stops_the_run_witness :
  long_payload 4301 (ones 4301)
  /\ ConcatJobs.parse_json_column (VStr (ones 4301)) = Raise ValueError
  /\ exists e,
       ConcatJobs.main Sample.active_with_long_number Sample.archived
         Sample.employers Sample.jobsources false false Sample.now
       = Raise e.
Proof.
  assert (H : long_payload 4301 (ones 4301)) by (split; [lia | left; reflexivity]).
  split; [exact H|].
  apply (long_number_stops_the_run 4301 (ones 4301) Sample.active_with_long_number
           Sample.archived Sample.employers Sample.jobsources false false Sample.now
           (List.nth 1 (rows Sample.active_with_long_number) []) H).
  - reflexivity.
  - right. left. reflexivity.
  - reflexivity.
Defined.

(** * The entry behind an embedded reference *)

(** C5, as the code has it.  An embedded source reference is cut from the
    entry that the job-source index holds under the row's [jobsource_id], an
    entry of the [jobsources] collection with the fields [jobsource_id],
    [jobsource] and [description]: the reference has its [jobsource_id] and
    its [jobsource] and no other field, so not its description.  An embedded
    employer reference is cut likewise from the entry under the row's
    [employer_id], which has seven fields: the reference has its [id],
    [name], [alt_name] and [logo_url] and no other field, so neither [fh]
    nor the two counters. *)
Theorem embedded_refs_are_projections
    (jobs employers jobsources : DataFrame) (ie id : bool) (now : string)
    (u : ConcatJobs.unified) (i : nat) (entry : list (string * pyval))
    (Hbuild : ConcatJobs.build_unified_structure jobs employers jobsources ie id now = Ok u)
    (Hentry : ConcatJobs.jobs u !! i = Some entry) :
  exists row employer_lookup jobsource_lookup,
    rows jobs !! i = Some row
    /\ ConcatJobs.build_lookup ConcatJobs.employer_entry (rows employers) []
       = Ok employer_lookup
    /\ ConcatJobs.build_lookup ConcatJobs.jobsource_entry (rows jobsources) []
       = Ok jobsource_lookup
    /\ (forall ref, dict_get "jobsource" entry = Some (VDict ref) ->
          exists fk k source,
            dict_get "jobsource_id" row = Some fk /\ key_of fk = Ok k
            /\ lookup_get k jobsource_lookup = Some source
            /\ In source (ConcatJobs.jobsources u)
            /\ List.map fst source = ["jobsource_id"; "jobsource"; "description"]
            /\ projects ["jobsource_id"; "jobsource"] ref source)
    /\ (forall ref, dict_get "employer" entry = Some (VDict ref) ->
          exists fk k employer,
            dict_get "employer_id" row = Some fk /\ key_of fk = Ok k
            /\ lookup_get k employer_lookup = Some employer
            /\ In employer (ConcatJobs.employers u)
            /\ List.map fst employer
               = ["id"; "name"; "alt_name"; "logo_url"; "fh"; "jobscount";
                  "jobscount_online"]
            /\ projects ["id"; "name"; "alt_name"; "logo_url"] ref employer).
Proof.
  apply build_unified_structure_jobs in Hbuild
    as (el & sl & Hel & Hsl & Hjobs & Hemps & Hsrcs & _).
  destruct (for_each_lookup _ _ _ Hjobs i entry Hentry) as (row & Hrow & Hje).
  clear Hentry Hjobs.
  exists row, el, sl.
  split; [exact Hrow|]. split; [exact Hel|]. split; [exact Hsl|].
  assert (Hes : forall k e, In (k, e) el -> employer_shape e).
  { apply (build_lookup_invariant ConcatJobs.employer_entry
             (fun _ e => employer_shape e) (rows employers)) with (d := []).
    - intros r rid e k He _. apply employer_entry_shape in He as (He & _). exact He.
    - exact Hel.
    - intros k e []. }
  assert (Hss : forall k e, In (k, e) sl -> jobsource_shape e).
  { apply (build_lookup_invariant ConcatJobs.jobsource_entry
             (fun _ e => jobsource_shape e) (rows jobsources)) with (d := []).
    - intros r rid e k He _. apply jobsource_entry_shape in He as (He & _). exact He.
    - exact Hsl.
    - intros k e []. }
  apply job_entry_steps in Hje as (e0 & e1 & e2 & e3 & e4 & H0 & H1 & H2 & H3 & H4 & H5).
  apply resolve_employer_spec in H4 as (efk & Hefk & H4).
  apply resolve_jobsource_spec in H5 as (sfk & Hsfk & H5).
  apply item_Ok in Hefk. apply item_Ok in Hsfk.
  split.
  - intros ref Href.
    destruct H5 as [(_ & k & source & s_id & s_label & Hk & Hget & Hid & Hlabel & Heq)
                   |(_ & Heq)]; rewrite Heq in Href.
    + rewrite dict_get_set_eq in Href. injection Href as <-.
      exists sfk, k, source.
      split; [exact Hsfk|]. split; [exact Hk|]. split; [exact Hget|].
      split; [rewrite Hsrcs; eapply lookup_get_In; exact Hget|].
      split.
      * apply lookup_get_pair in Hget as (Hin & _). apply Hss in Hin.
        destruct Hin as (x & y & z & -> & _). reflexivity.
      * split; [reflexivity|].
        apply item_Ok in Hid, Hlabel.
        intros f [<-|[<-|[]]]; simpl; congruence.
    + rewrite !dict_get_set in Href. simpl in Href. discriminate.
  - intros ref Href.
    assert (Href' : dict_get "employer" e4 = Some (VDict ref)).
    { destruct H5 as [(_ & k & source & s_id & s_label & _ & _ & _ & _ & Heq)|(_ & Heq)];
        rewrite Heq, !dict_get_set in Href; simpl in Href; exact Href. }
    clear Href H5.
    destruct H4 as [(_ & k & employer & e_id & e_name & e_alt & e_logo
                     & Hk & Hget & Hid & Hname & Halt & Hlogo & Heq)
                   |(_ & Heq)]; rewrite Heq in Href'.
    + rewrite dict_get_set_eq in Href'. injection Href' as <-.
      exists efk, k, employer.
      split; [exact Hefk|]. split; [exact Hk|]. split; [exact Hget|].
      split; [rewrite Hemps; eapply lookup_get_In; exact Hget|].
      split.
      * apply lookup_get_pair in Hget as (Hin & _). apply Hes in Hin.
        destruct Hin as (x1 & x2 & x3 & x4 & x5 & x6 & x7 & -> & _). reflexivity.
      * split; [reflexivity|].
        apply item_Ok in Hid, Hname, Halt, Hlogo.
        intros f [<-|[<-|[<-|[<-|[]]]]]; simpl; congruence.
    + rewrite !dict_get_set in Href'. simpl in Href'. discriminate.
Qed.

(** The third record of the sample, an archived job, has both references
    resolved. *)
Lemma embedded_refs_are_projections_witness :
  (exists eref sref,
     dict_get "employer" (List.nth 2 (ConcatJobs.jobs (Sample.document false true)) [])
     = Some (VDict eref)
     /\ dict_get "jobsource" (List.nth 2 (ConcatJobs.jobs (Sample.document false true)) [])
        = Some (VDict sref))
  /\ exists row employer_lookup jobsource_lookup,
    rows Sample.all_jobs !! 2%nat = Some row
    /\ ConcatJobs.build_lookup ConcatJobs.employer_entry (rows Sample.employers) []
       = Ok employer_lookup
    /\ ConcatJobs.build_lookup ConcatJobs.jobsource_entry (rows Sample.jobsources) []
       = Ok jobsource_lookup
    /\ (forall ref,
          dict_get "jobsource"
            (List.nth 2 (ConcatJobs.jobs (Sample.document false true)) [])
          = Some (VDict ref) ->
          exists fk k source,
            dict_get "jobsource_id" row = Some fk /\ key_of fk = Ok k
            /\ lookup_get k jobsource_lookup = Some source
            /\ In source (ConcatJobs.jobsources (Sample.document false true))
            /\ List.map fst source = ["jobsource_id"; "jobsource"; "description"]
            /\ projects ["jobsource_id"; "jobsource"] ref source)
    /\ (forall ref,
          dict_get "employer"
            (List.nth 2 (ConcatJobs.jobs (Sample.document false true)) [])
          = Some (VDict ref) ->
          exists fk k employer,
            dict_get "employer_id" row = Some fk /\ key_of fk = Ok k
            /\ lookup_get k employer_lookup = Some employer
            /\ In employer (ConcatJobs.employers (Sample.document false true))
            /\ List.map fst employer
               = ["id"; "name"; "alt_name"; "logo_url"; "fh"; "jobscount";
                  "jobscount_online"]
            /\ projects ["id"; "name"; "alt_name"; "logo_url"] ref employer).
Proof.
  split.
  - eexists. eexists. split; vm_compute; reflexivity.
  - apply (embedded_refs_are_projections Sample.all_jobs Sample.employers
             Sample.jobsources false true Sample.now (Sample.document false true) 2).
    + vm_compute. reflexivity.
    + vm_compute. reflexivity.
Defined.

(** * Rows that share an identifier, in the collections *)













